(** * Memory and learning core of the TAAT agent: a shallow embedding

    The development follows the Python sources module by module:

    - [Py]            values, dictionaries, slices and the string helpers the
                      code relies on;
    - [Canonical]     [json.dumps(..., sort_keys=True)] and the derived keys;
    - [Reinforcement] learning_systems/reinforcement.py;
    - [Working]       agent_core/memory/memory.py;
    - [Performance]   learning_systems/performance.py;
    - [Store]         memory_systems/database.py and the collaborators;
    - [Procedural], [Semantic], [Episodic], [Manager]  memory_systems/*.py;
    - [Feedback]      learning_systems/feedback.py;
    - [Pattern]       learning_systems/pattern.py.

    Python floats are modelled by exact rationals ([Q]); comparisons written
    [==] in the sources are [Qeq] here. *)

From Stdlib Require Import Arith NArith ZArith QArith Qminmax Qabs Lqa Lia.
From Stdlib Require Import String Ascii List Permutation Sorted DecimalString.
From Stdlib Require Import OrderedTypeEx.
From stdpp Require Import base gmap strings list.
Import ListNotations.

Set Warnings "-register-all".

Open Scope string_scope.

(* ===================================================================== *)
(** * Python values *)
(* ===================================================================== *)

Module Py.

(** JSON-like Python values.  A [dict] is kept as the list of its items in
    insertion order; its keys are strings and pairwise distinct. *)
Inductive pyval : Type :=
| PNone
| PBool (b : bool)
| PInt (z : Z)
| PFloat (q : Q)
| PStr (s : string)
| PList (l : list pyval)
| PDict (d : list (string * pyval)).

Definition pydict := list (string * pyval).

(** [d.get(k)] *)
Fixpoint dict_get {A} (k : string) (d : list (string * A)) : option A :=
  match d with
  | [] => None
  | (k', v) :: d' => if String.eqb k k' then Some v else dict_get k d'
  end.

(** [k in d] *)
Definition dict_mem {A} (k : string) (d : list (string * A)) : bool :=
  match dict_get k d with Some _ => true | None => false end.

(** [d[k] = v]: an existing key keeps its position, a new one goes last. *)
Fixpoint dict_set {A} (k : string) (v : A) (d : list (string * A))
  : list (string * A) :=
  match d with
  | [] => [(k, v)]
  | (k', v') :: d' =>
      if String.eqb k k' then (k, v) :: d' else (k', v') :: dict_set k v d'
  end.

(** [d.update(u)] *)
Definition dict_update {A} (d u : list (string * A)) : list (string * A) :=
  fold_left (fun acc kv => dict_set (fst kv) (snd kv) acc) u d.

Definition keys {A} (d : list (string * A)) : list string := map fst d.

(** The dict [json.loads] builds from the items of a JSON object: a
    repeated key keeps its first position and its last value. *)
Definition loads {A} (items : list (string * A)) : list (string * A) :=
  dict_update [] items.

(** [l[-n:]] for an integer [n], as Python computes it: a positive [n]
    keeps the last [n] items, [-0] is [0] and keeps everything, a negative
    [n] gives [l[|n|:]]. *)
Definition slice_last {A} (n : Z) (l : list A) : list A :=
  if (0 <? n)%Z then skipn (length l - Z.to_nat n) l
  else skipn (Z.to_nat (- n)) l.

(** [l[:n]] for an integer [n]: a negative [n] drops the last [|n|]
    items. *)
Definition slice_to {A} (n : Z) (l : list A) : list A :=
  if (n <? 0)%Z then firstn (length l - Z.to_nat (- n)) l
  else firstn (Z.to_nat n) l.

(** [s.startswith(p)] *)
Fixpoint startswith (s p : string) {struct p} : bool :=
  match p with
  | EmptyString => true
  | String c p' =>
      match s with
      | EmptyString => false
      | String c' s' => (Ascii.eqb c c' && startswith s' p')%bool
      end
  end.

(** [s.lower()] on ASCII letters. *)
Definition lower_ascii (c : ascii) : ascii :=
  let n := nat_of_ascii c in
  if ((65 <=? n)%nat && (n <=? 90)%nat)%bool then ascii_of_nat (n + 32) else c.

Fixpoint lower (s : string) : string :=
  match s with
  | EmptyString => EmptyString
  | String c s' => String (lower_ascii c) (lower s')
  end.

(** [sep.join(parts)] *)
Fixpoint join (sep : string) (parts : list string) : string :=
  match parts with
  | [] => EmptyString
  | [p] => p
  | p :: ps => p ++ sep ++ join sep ps
  end.

(** Truthiness of a value, as [if v:] and [not v] use it. *)
Definition truthy (v : pyval) : bool :=
  match v with
  | PNone => false
  | PBool b => b
  | PInt z => negb (z =? 0)%Z
  | PFloat q => negb (Qeq_bool q 0)
  | PStr s => negb (String.eqb s EmptyString)
  | PList l => match l with [] => false | _ => true end
  | PDict d => match d with [] => false | _ => true end
  end.

(** [min(a, b)] and [max(a, b)] on floats: the first argument wins ties. *)
Definition fmin (a b : Q) : Q := if Qlt_le_dec b a then b else a.
Definition fmax (a b : Q) : Q := if Qlt_le_dec a b then b else a.

(** [max(l)] of a non-empty list (the caller guards the empty case). *)
Definition max_list (l : list Q) : option Q :=
  match l with
  | [] => None
  | x :: xs => Some (fold_left fmax xs x)
  end.

End Py.
Import Py.

(* ===================================================================== *)
(** * The MD5 digest (RFC 1321), as [hashlib.md5] computes it *)
(* ===================================================================== *)

Module MD5.

Local Open Scope N_scope.

Definition mask32 : N := 4294967295.
Definition add32 (a b : N) : N := N.land (a + b) mask32.
Definition not32 (a : N) : N := N.lxor a mask32.
Definition rotl32 (x : N) (c : N) : N :=
  N.land (N.lor (N.shiftl x c) (N.shiftr x (32 - c))) mask32.

Definition K : list N :=
  [3614090360; 3905402710; 606105819; 3250441966; 4118548399; 1200080426;
   2821735955; 4249261313; 1770035416; 2336552879; 4294925233; 2304563134;
   1804603682; 4254626195; 2792965006; 1236535329; 4129170786; 3225465664;
   643717713; 3921069994; 3593408605; 38016083; 3634488961; 3889429448;
   568446438; 3275163606; 4107603335; 1163531501; 2850285829; 4243563512;
   1735328473; 2368359562; 4294588738; 2272392833; 1839030562; 4259657740;
   2763975236; 1272893353; 4139469664; 3200236656; 681279174; 3936430074;
   3572445317; 76029189; 3654602809; 3873151461; 530742520; 3299628645;
   4096336452; 1126891415; 2878612391; 4237533241; 1700485571; 2399980690;
   4293915773; 2240044497; 1873313359; 4264355552; 2734768916; 1309151649;
   4149444226; 3174756917; 718787259; 3951481745].

Definition shifts : list N :=
  [7; 12; 17; 22; 7; 12; 17; 22; 7; 12; 17; 22; 7; 12; 17; 22;
   5; 9; 14; 20; 5; 9; 14; 20; 5; 9; 14; 20; 5; 9; 14; 20;
   4; 11; 16; 23; 4; 11; 16; 23; 4; 11; 16; 23; 4; 11; 16; 23;
   6; 10; 15; 21; 6; 10; 15; 21; 6; 10; 15; 21; 6; 10; 15; 21].

Definition bytes_of_string (s : string) : list N :=
  map N_of_ascii (list_ascii_of_string s).

(** [n] as [k] little-endian bytes. *)
Fixpoint le_bytes (k : nat) (n : N) : list N :=
  match k with
  | O => []
  | S k' => N.land n 255 :: le_bytes k' (N.shiftr n 8)
  end.

Definition pad (msg : list N) : list N :=
  let len := N.of_nat (length msg) in
  let zeros := N.to_nat ((119 - (len mod 64)) mod 64) in
  msg ++ [128] ++ repeat 0 zeros ++ le_bytes 8 (8 * len).

Fixpoint word_of_le (bs : list N) : N :=
  match bs with
  | [] => 0
  | b :: bs' => b + 256 * word_of_le bs'
  end.

(** Split a block of 64 bytes into 16 little-endian words. *)
Fixpoint words (k : nat) (bs : list N) : list N :=
  match k with
  | O => []
  | S k' => word_of_le (firstn 4 bs) :: words k' (skipn 4 bs)
  end.

Definition round (m : list N) (st : N * N * N * N) (i : nat)
  : N * N * N * N :=
  let '(a, b, c, d) := st in
  let '(f, g) :=
    if (i <? 16)%nat then
      (N.lor (N.land b c) (N.land (not32 b) d), (i mod 16)%nat)
    else if (i <? 32)%nat then
      (N.lor (N.land d b) (N.land (not32 d) c), ((5 * i + 1) mod 16)%nat)
    else if (i <? 48)%nat then
      (N.lxor b (N.lxor c d), ((3 * i + 5) mod 16)%nat)
    else
      (N.lxor c (N.lor b (not32 d)), ((7 * i) mod 16)%nat) in
  let f' := add32 (add32 (add32 f a) (nth i K 0)) (nth g m 0) in
  (d, add32 b (rotl32 f' (nth i shifts 0)), b, c).

Definition process_block (st : N * N * N * N) (block : list N)
  : N * N * N * N :=
  let m := words 16 block in
  let '(a, b, c, d) := st in
  let '(a', b', c', d') := fold_left (round m) (seq 0 64) st in
  (add32 a a', add32 b b', add32 c c', add32 d d').

Fixpoint blocks (k : nat) (bs : list N) : list (list N) :=
  match k with
  | O => []
  | S k' => firstn 64 bs :: blocks k' (skipn 64 bs)
  end.

Definition digest (msg : list N) : list N :=
  let p := pad msg in
  let '(a, b, c, d) :=
    fold_left process_block (blocks (length p / 64) p)
      (1732584193, 4023233417, 2562383102, 271733878) in
  le_bytes 4 a ++ le_bytes 4 b ++ le_bytes 4 c ++ le_bytes 4 d.

Definition hex_char (n : N) : ascii :=
  if n <? 10 then ascii_of_N (48 + n) else ascii_of_N (87 + n).

Fixpoint hex (bs : list N) : string :=
  match bs with
  | [] => EmptyString
  | b :: bs' => String (hex_char (b / 16)) (String (hex_char (b mod 16)) (hex bs'))
  end.

(** [hashlib.md5(s.encode()).hexdigest()] for an ASCII string. *)
Definition hexdigest (s : string) : string := hex (digest (bytes_of_string s)).

End MD5.

(* ===================================================================== *)
(** * Canonical serialisation: [json.dumps(v, sort_keys=True)] *)
(* ===================================================================== *)

Module Canonical.

(** What the interpreter and its libraries provide: the hex digest of
    [hashlib.md5], the [repr] of a float and [str] of an arbitrary value. *)
Record Runtime : Type := {
  md5_hex : string -> string;
  float_repr : Q -> string;
  str_of : pyval -> string
}.

Definition dquote : string := String (ascii_of_nat 34) EmptyString.

Definition hex_digit (n : nat) : ascii :=
  if (n <? 10)%nat then ascii_of_nat (48 + n) else ascii_of_nat (87 + n).

(** The escape json writes for a character outside the printable ASCII
    range. *)
Definition u_escape (n : nat) : string :=
  "\u00" ++ String (hex_digit (n / 16)) (String (hex_digit (n mod 16)) EmptyString).

Definition escape_char (c : ascii) : string :=
  let n := nat_of_ascii c in
  if (n =? 34)%nat then String "\" dquote else
  if (n =? 92)%nat then "\\" else
  if (n =? 10)%nat then "\n" else
  if (n =? 13)%nat then "\r" else
  if (n =? 9)%nat then "\t" else
  if (n =? 8)%nat then "\b" else
  if (n =? 12)%nat then "\f" else
  if ((n <? 32)%nat || (126 <? n)%nat)%bool then u_escape n
  else String c EmptyString.

Fixpoint escape_body (s : string) : string :=
  match s with
  | EmptyString => EmptyString
  | String c s' => escape_char c ++ escape_body s'
  end.

(** [encode_basestring_ascii] *)
Definition encode_string (s : string) : string :=
  dquote ++ escape_body s ++ dquote.

Definition int_repr (z : Z) : string := NilZero.string_of_int (Z.to_int z).

(** Stable insertion sort of rendered items by key, the order
    [sorted(dct.items())] yields for a dict (its keys are distinct, so the
    key alone decides). *)
Fixpoint insert_item (x : string * string) (l : list (string * string))
  : list (string * string) :=
  match l with
  | [] => [x]
  | y :: l' =>
      if String.leb (fst x) (fst y) then x :: y :: l'
      else y :: insert_item x l'
  end.

Definition sort_items (l : list (string * string)) : list (string * string) :=
  fold_right insert_item [] l.

Definition render_item (kv : string * string) : string :=
  encode_string (fst kv) ++ ": " ++ snd kv.

Section Dumps.
Context (rt : Runtime).

(** [json.dumps(v, sort_keys=True)] with the default separators.  The
    values are rendered before the items are ordered; since the order
    only looks at keys this is the text the library produces. *)
Fixpoint dumps (v : pyval) : string :=
  match v with
  | PNone => "null"
  | PBool true => "true"
  | PBool false => "false"
  | PInt z => int_repr z
  | PFloat q => float_repr rt q
  | PStr s => encode_string s
  | PList l => "[" ++ join ", " (map dumps l) ++ "]"
  | PDict d =>
      "{" ++ join ", "
        (map render_item
           (sort_items (map (fun kv => (fst kv, dumps (snd kv))) d)))
      ++ "}"
  end.

(** [hashlib.md5(json.dumps(v, sort_keys=True).encode()).hexdigest()] *)
Definition content_hash (v : pyval) : string := md5_hex rt (dumps v).

End Dumps.

End Canonical.
Import Canonical.

(* ===================================================================== *)
(** * A runtime to evaluate examples with *)
(* ===================================================================== *)

Module Reference.

(** Digits of the fractional part [r / d] (with [r < d]), at most [fuel]
    of them, stopping when the expansion ends. *)
Fixpoint frac_digits (fuel : nat) (r d : Z) : string :=
  match fuel with
  | O => EmptyString
  | S fuel' =>
      if (r =? 0)%Z then EmptyString
      else
        String (ascii_of_nat (48 + Z.to_nat (10 * r / d)))
               (frac_digits fuel' ((10 * r) mod d)%Z d)
  end.

(** The decimal expansion of a rational, the way [repr] prints a float
    whose shortest decimal form is that expansion: [1.0], [0.1], [-2.5]. *)
Definition decimal_repr (q : Q) : string :=
  let n := Qnum q in
  let d := Zpos (Qden q) in
  let a := Z.abs n in
  let frac := frac_digits 17 (a mod d)%Z d in
  (if (n <? 0)%Z then "-" else EmptyString)
  ++ int_repr (a / d)%Z ++ "."
  ++ (if String.eqb frac EmptyString then "0" else frac).

(** [repr] of a value whose strings need no escaping. *)
Fixpoint py_repr (v : pyval) : string :=
  match v with
  | PNone => "None"
  | PBool true => "True"
  | PBool false => "False"
  | PInt z => int_repr z
  | PFloat q => decimal_repr q
  | PStr s => "'" ++ s ++ "'"
  | PList l => "[" ++ join ", " (map py_repr l) ++ "]"
  | PDict d =>
      "{" ++ join ", "
        (map (fun kv => "'" ++ fst kv ++ "': " ++ py_repr (snd kv)) d) ++ "}"
  end.

Definition py_str (v : pyval) : string :=
  match v with
  | PStr s => s
  | _ => py_repr v
  end.

Definition runtime : Runtime := {|
  md5_hex := MD5.hexdigest;
  float_repr := decimal_repr;
  str_of := py_str
|}.

End Reference.

(* ===================================================================== *)
(** * Effects: mutable state and exceptions *)
(* ===================================================================== *)

Module Effects.

(** The exceptions the modelled code can meet.  [CollaboratorError] stands
    for whatever an external service (embedding, vector index, database)
    raises when it fails. *)
Inductive exn : Type :=
| ZeroDivisionError
| TypeError
| ValueError
| AttributeError
| CollaboratorError (service : string).

Inductive outcome (A : Type) : Type :=
| Ok (a : A)
| Raise (e : exn).
Arguments Ok {A} a.
Arguments Raise {A} e.

(** A computation over a world [W]: it returns or raises, and in both
    cases leaves the world it has reached. *)
Definition M (W A : Type) : Type := W -> outcome A * W.

Definition ret {W A} (a : A) : M W A := fun w => (Ok a, w).

Definition raise {W A} (e : exn) : M W A := fun w => (Raise e, w).

Definition bind {W A B} (c : M W A) (k : A -> M W B) : M W B :=
  fun w =>
    match c w with
    | (Ok a, w') => k a w'
    | (Raise e, w') => (Raise e, w')
    end.

Definition get {W} : M W W := fun w => (Ok w, w).

Definition gets {W A} (f : W -> A) : M W A := fun w => (Ok (f w), w).

Definition modify {W} (f : W -> W) : M W unit := fun w => (Ok tt, f w).

(** [try: c except Exception as e: h e] *)
Definition try_except {W A} (c : M W A) (h : exn -> M W A) : M W A :=
  fun w =>
    match c w with
    | (Ok a, w') => (Ok a, w')
    | (Raise e, w') => h e w'
    end.

(** [for x in l: body x] *)
Fixpoint for_each {W A} (l : list A) (body : A -> M W unit) : M W unit :=
  match l with
  | [] => ret tt
  | x :: l' => bind (body x) (fun _ => for_each l' body)
  end.

Definition is_ok {A} (o : outcome A) : bool :=
  match o with Ok _ => true | Raise _ => false end.

Declare Scope eff_scope.
Delimit Scope eff_scope with eff.

Notation "'do' x <- c ;; k" := (bind c (fun x => k))
  (at level 10, x name, c at level 99, k at level 200) : eff_scope.
Notation "'do' ' p <- c ;; k" :=
  (bind c (fun x => match x with p => k end))
  (at level 10, p pattern, c at level 99, k at level 200) : eff_scope.
Notation "'run' c ;; k" := (bind c (fun _ => k))
  (at level 10, c at level 99, k at level 200) : eff_scope.

End Effects.
Import Effects.

(* ===================================================================== *)
(** * learning_systems/reinforcement.py *)
(* ===================================================================== *)

Module Reinforcement.

Local Open Scope Q_scope.

Record ReinforcementLearningConfig : Type := {
  cfg_learning_rate : Q;
  cfg_discount_factor : Q;
  cfg_exploration_rate : Q;
  cfg_min_exploration_rate : Q;
  cfg_exploration_decay : Q;
  cfg_reward_scale : Q
}.

(** The dataclass defaults of learning_systems/config.py. *)
Definition default_config : ReinforcementLearningConfig := {|
  cfg_learning_rate := 1 # 10;
  cfg_discount_factor := 9 # 10;
  cfg_exploration_rate := 2 # 10;
  cfg_min_exploration_rate := 1 # 100;
  cfg_exploration_decay := 995 # 1000;
  cfg_reward_scale := 1
|}.

(** One entry of [action_history]. *)
Record ActionRecord : Type := {
  ar_state : pyval;
  ar_action : pyval;
  ar_type : string;
  ar_q_value : option Q
}.

Record ReinforcementLearning : Type := {
  learning_rate : Q;
  discount_factor : Q;
  exploration_rate : Q;
  min_exploration_rate : Q;
  exploration_decay : Q;
  reward_scale : Q;
  q_values : gmap string Q;
  state_transitions : gmap string Z;
  action_history : list ActionRecord
}.

Definition __init__ (config : ReinforcementLearningConfig)
  : ReinforcementLearning := {|
  learning_rate := cfg_learning_rate config;
  discount_factor := cfg_discount_factor config;
  exploration_rate := cfg_exploration_rate config;
  min_exploration_rate := cfg_min_exploration_rate config;
  exploration_decay := cfg_exploration_decay config;
  reward_scale := cfg_reward_scale config;
  q_values := ∅;
  state_transitions := ∅;
  action_history := []
|}.

Definition _get_state_action_key (state_key action_key : string) : string :=
  state_key ++ "|" ++ action_key.

(** Stable sort of [(action, q)] pairs by decreasing [q]:
    [q_values.sort(key=lambda x: x[1], reverse=True)]. *)
Fixpoint insert_desc (x : pyval * Q) (l : list (pyval * Q))
  : list (pyval * Q) :=
  match l with
  | [] => [x]
  | y :: l' =>
      if Qlt_le_dec (snd x) (snd y) then y :: insert_desc x l'
      else x :: y :: l'
  end.

Definition sort_desc (l : list (pyval * Q)) : list (pyval * Q) :=
  fold_right insert_desc [] l.

Section Engine.
Context (rt : Runtime).

Definition _get_state_key (state : pyval) : string :=
  match state with
  | PStr s => "state:" ++ s
  | PDict _ => "state:" ++ md5_hex rt (dumps rt state)
  | _ => "state:" ++ md5_hex rt (str_of rt state)
  end.

Definition _get_action_key (action : pyval) : string :=
  match action with
  | PStr s => "action:" ++ s
  | PDict _ => "action:" ++ md5_hex rt (dumps rt action)
  | _ => "action:" ++ md5_hex rt (str_of rt action)
  end.

(** The Q-values of the entries whose key starts with [next_state_key|]. *)
Definition next_q_values (self : ReinforcementLearning)
    (next_state_key : string) : list Q :=
  map snd
    (List.filter (fun kv => startswith (fst kv) (next_state_key ++ "|"))
       (map_to_list (q_values self))).

Definition max_next_q (self : ReinforcementLearning)
    (next_state_key : string) : Q :=
  match max_list (next_q_values self next_state_key) with
  | Some m => m
  | None => 0
  end.

Definition update_q_value (self : ReinforcementLearning)
    (state action : pyval) (reward : Q) (next_state : pyval)
  : Q * ReinforcementLearning :=
  let scaled_reward := reward * reward_scale self in
  let state_key := _get_state_key state in
  let action_key := _get_action_key action in
  let next_state_key := _get_state_key next_state in
  let state_action_key := _get_state_action_key state_key action_key in
  let current_q := default 0 (q_values self !! state_action_key) in
  let max_next := max_next_q self next_state_key in
  let new_q :=
    current_q + learning_rate self *
      (scaled_reward + discount_factor self * max_next - current_q) in
  let transition_key := state_key ++ "|" ++ next_state_key in
  (new_q,
   {| learning_rate := learning_rate self;
      discount_factor := discount_factor self;
      exploration_rate :=
        fmax (min_exploration_rate self)
             (exploration_rate self * exploration_decay self);
      min_exploration_rate := min_exploration_rate self;
      exploration_decay := exploration_decay self;
      reward_scale := reward_scale self;
      q_values := <[state_action_key := new_q]> (q_values self);
      state_transitions :=
        <[transition_key :=
            (default 0%Z (state_transitions self !! transition_key) + 1)%Z]>
          (state_transitions self);
      action_history := action_history self |}).

Definition log_action (self : ReinforcementLearning) (r : ActionRecord)
  : ReinforcementLearning :=
  {| learning_rate := learning_rate self;
     discount_factor := discount_factor self;
     exploration_rate := exploration_rate self;
     min_exploration_rate := min_exploration_rate self;
     exploration_decay := exploration_decay self;
     reward_scale := reward_scale self;
     q_values := q_values self;
     state_transitions := state_transitions self;
     action_history := action_history self ++ [r] |}.

(** [select_action].  [u] is the value drawn by [random.random()] and [k]
    the raw draw behind [random.choice], which indexes the candidates at
    [k mod len]. *)
Definition select_action (self : ReinforcementLearning) (u : Q) (k : nat)
    (state : pyval) (possible_actions : list pyval)
  : option pyval * ReinforcementLearning :=
  match possible_actions with
  | [] => (None, self)
  | a0 :: _ =>
      if Qlt_le_dec u (exploration_rate self) then
        let selected_action :=
          nth (k mod length possible_actions) possible_actions a0 in
        (Some selected_action,
         log_action self
           {| ar_state := state; ar_action := selected_action;
              ar_type := "exploration"; ar_q_value := None |})
      else
        let state_key := _get_state_key state in
        let scored :=
          map (fun action =>
                 (action,
                  default 0
                    (q_values self !!
                       _get_state_action_key state_key
                         (_get_action_key action))))
              possible_actions in
        match sort_desc scored with
        | [] => (None, self)
        | best :: _ =>
            (Some (fst best),
             log_action self
               {| ar_state := state; ar_action := fst best;
                  ar_type := "exploitation";
                  ar_q_value := Some (snd best) |})
        end
  end.

(** One call of [update_q_value], as data. *)
Record QUpdate : Type := {
  qu_state : pyval; qu_action : pyval; qu_reward : Q; qu_next_state : pyval
}.

Definition apply_update (self : ReinforcementLearning) (c : QUpdate)
  : ReinforcementLearning :=
  snd (update_q_value self (qu_state c) (qu_action c) (qu_reward c)
         (qu_next_state c)).

(** The exploration rate observed after each call of a sequence. *)
Fixpoint exploration_trace (self : ReinforcementLearning)
    (calls : list QUpdate) : list Q :=
  match calls with
  | [] => []
  | c :: cs =>
      let self' := apply_update self c in
      exploration_rate self' :: exploration_trace self' cs
  end.

End Engine.

End Reinforcement.

(* ===================================================================== *)
(** * learning_systems/reinforcement.py: the model dict and the tables
      it shares with the engine *)
(* ===================================================================== *)

(** [save_model] hands out the engine's two dicts themselves, not copies,
    and [load_model] binds the engine to the dicts it is given.  The dicts
    are therefore objects of a store, and an engine or a model dict holds
    their addresses; [update_q_value] assigns into the objects in place. *)
Module Persistence.

Local Open Scope Q_scope.

Definition addr : Type := nat.

Record Store : Type := {
  q_tables : gmap addr (gmap string Q);
  transition_tables : gmap addr (gmap string Z);
  next_addr : addr
}.

Definition empty_store : Store :=
  {| q_tables := ∅; transition_tables := ∅; next_addr := 0%nat |}.

(** The evaluation of a dict display [{}]: a new empty dict. *)
Definition new_q_table (st : Store) : addr * Store :=
  (next_addr st,
   {| q_tables := <[next_addr st := ∅]> (q_tables st);
      transition_tables := transition_tables st;
      next_addr := S (next_addr st) |}).

Definition new_transition_table (st : Store) : addr * Store :=
  (next_addr st,
   {| q_tables := q_tables st;
      transition_tables := <[next_addr st := ∅]> (transition_tables st);
      next_addr := S (next_addr st) |}).

(** The attributes of an engine; [q_values] and [state_transitions] are
    bound to dict objects. *)
Record Engine : Type := {
  learning_rate : Q;
  discount_factor : Q;
  exploration_rate : Q;
  min_exploration_rate : Q;
  exploration_decay : Q;
  reward_scale : Q;
  q_values : addr;
  state_transitions : addr;
  action_history : list Reinforcement.ActionRecord
}.

(** The dict built by [save_model] and read by [load_model]; a key that
    is missing from the dict is [None]. *)
Record ModelData : Type := {
  md_q_values : option addr;
  md_state_transitions : option addr;
  md_exploration_rate : option Q
}.

Definition __init__ (config : Reinforcement.ReinforcementLearningConfig)
    (st : Store) : Engine * Store :=
  let (q, st1) := new_q_table st in
  let (t, st2) := new_transition_table st1 in
  ({| learning_rate := Reinforcement.cfg_learning_rate config;
      discount_factor := Reinforcement.cfg_discount_factor config;
      exploration_rate := Reinforcement.cfg_exploration_rate config;
      min_exploration_rate := Reinforcement.cfg_min_exploration_rate config;
      exploration_decay := Reinforcement.cfg_exploration_decay config;
      reward_scale := Reinforcement.cfg_reward_scale config;
      q_values := q;
      state_transitions := t;
      action_history := [] |}, st2).

(** What the engine's attributes evaluate to in a store. *)
Definition contents (st : Store) (self : Engine)
  : Reinforcement.ReinforcementLearning :=
  {| Reinforcement.learning_rate := learning_rate self;
     Reinforcement.discount_factor := discount_factor self;
     Reinforcement.exploration_rate := exploration_rate self;
     Reinforcement.min_exploration_rate := min_exploration_rate self;
     Reinforcement.exploration_decay := exploration_decay self;
     Reinforcement.reward_scale := reward_scale self;
     Reinforcement.q_values := default ∅ (q_tables st !! q_values self);
     Reinforcement.state_transitions :=
       default ∅ (transition_tables st !! state_transitions self);
     Reinforcement.action_history := action_history self |}.

(** [update_q_value]: the two item assignments change the dict objects,
    the assignment to [self.exploration_rate] changes the engine. *)
Definition update_q_value (rt : Runtime) (self : Engine)
    (state action : pyval) (reward : Q) (next_state : pyval) (st : Store)
  : Q * Engine * Store :=
  let after :=
    Reinforcement.update_q_value rt (contents st self) state action reward
      next_state in
  (fst after,
   {| learning_rate := learning_rate self;
      discount_factor := discount_factor self;
      exploration_rate := Reinforcement.exploration_rate (snd after);
      min_exploration_rate := min_exploration_rate self;
      exploration_decay := exploration_decay self;
      reward_scale := reward_scale self;
      q_values := q_values self;
      state_transitions := state_transitions self;
      action_history := action_history self |},
   {| q_tables :=
        <[q_values self := Reinforcement.q_values (snd after)]> (q_tables st);
      transition_tables :=
        <[state_transitions self :=
            Reinforcement.state_transitions (snd after)]>
          (transition_tables st);
      next_addr := next_addr st |}).

Definition save_model (self : Engine) : ModelData :=
  {| md_q_values := Some (q_values self);
     md_state_transitions := Some (state_transitions self);
     md_exploration_rate := Some (exploration_rate self) |}.

(** The default [{}] of each [get] is evaluated whether the key is
    present or not. *)
Definition load_model (self : Engine) (model_data : ModelData) (st : Store)
  : Engine * Store :=
  let (fresh_q, st1) := new_q_table st in
  let (fresh_t, st2) := new_transition_table st1 in
  ({| learning_rate := learning_rate self;
      discount_factor := discount_factor self;
      exploration_rate :=
        default (exploration_rate self) (md_exploration_rate model_data);
      min_exploration_rate := min_exploration_rate self;
      exploration_decay := exploration_decay self;
      reward_scale := reward_scale self;
      q_values := default fresh_q (md_q_values model_data);
      state_transitions :=
        default fresh_t (md_state_transitions model_data);
      action_history := action_history self |}, st2).

End Persistence.

(* ===================================================================== *)
(** * The process environment: [uuid.uuid4()] and the clock *)
(* ===================================================================== *)

Module Environment.

(** The identifiers and timestamps the process will be handed, in order,
    and how many of each it has consumed. *)
Record Env : Type := {
  uuid_of : nat -> string;
  now_of : nat -> string;
  uuid_next : nat;
  clock_next : nat
}.

(** [str(uuid.uuid4())] *)
Definition take_uuid (e : Env) : string * Env :=
  (uuid_of e (uuid_next e),
   {| uuid_of := uuid_of e; now_of := now_of e;
      uuid_next := S (uuid_next e); clock_next := clock_next e |}).

(** [datetime.utcnow().isoformat()] *)
Definition take_now (e : Env) : string * Env :=
  (now_of e (clock_next e),
   {| uuid_of := uuid_of e; now_of := now_of e;
      uuid_next := uuid_next e; clock_next := S (clock_next e) |}).

End Environment.
Import Environment.

(* ===================================================================== *)
(** * learning_systems/performance.py *)
(* ===================================================================== *)

Module Performance.

Local Open Scope Q_scope.
Local Open Scope eff_scope.

(** A trade outcome as the tracker reads it: [o.get("outcome")] and
    [o.get("profit_loss")], [None] when the key is missing. *)
Record TradeOutcome : Type := {
  o_outcome : option string;
  o_profit_loss : option Q
}.

(** A float that may be [float('inf')]. *)
Inductive xfloat : Type :=
| Finite (q : Q)
| Infinity.

Record Metrics : Type := {
  m_id : string;
  m_timeframe : string;
  m_total_trades : Z;
  m_successful_trades : Z;
  m_failed_trades : Z;
  m_neutral_trades : Z;
  m_success_rate : Q;
  m_total_profit : Q;
  m_total_loss : Q;
  m_net_profit : Q;
  m_avg_profit_per_trade : Q;
  m_avg_loss_per_trade : Q;
  m_profit_factor : xfloat;
  m_confidence : Q;
  m_timestamp : string
}.

(** What [calculate_metrics] returns: the sentinel dict
    [{timeframe, total_trades, status: "insufficient_data", min_sample_size}]
    or a full metrics record (which has no [status] key). *)
Inductive MetricsResult : Type :=
| InsufficientData (timeframe : string) (total_trades : Z)
                   (min_sample_size : Z)
| FullMetrics (m : Metrics).

Record PerformanceTracker : Type := {
  metrics_window_size : Z;
  min_sample_size : Z;
  confidence_threshold : Q;
  report_frequency : Z;
  metrics_history : list Metrics;
  last_report_time : option string
}.

(** The persistence collaborator as this engine uses it:
    [get_trade_outcomes(timeframe)] answers or raises, [store_metrics]
    appends a snapshot unless the store is failing. *)
Record Backend : Type := {
  get_trade_outcomes : string -> outcome (list TradeOutcome);
  store_metrics_fails : bool;
  stored_metrics : list Metrics
}.

Record World : Type := {
  tracker : PerformanceTracker;
  db : Backend;
  env : Env
}.

Definition set_history (h : list Metrics) (w : World) : World :=
  {| tracker :=
       {| metrics_window_size := metrics_window_size (tracker w);
          min_sample_size := min_sample_size (tracker w);
          confidence_threshold := confidence_threshold (tracker w);
          report_frequency := report_frequency (tracker w);
          metrics_history := h;
          last_report_time := last_report_time (tracker w) |};
     db := db w; env := env w |}.

Definition set_env (e : Env) (w : World) : World :=
  {| tracker := tracker w; db := db w; env := e |}.

Definition uuid4 : M World string :=
  fun w => let '(u, e) := take_uuid (env w) in (Ok u, set_env e w).

Definition utcnow : M World string :=
  fun w => let '(t, e) := take_now (env w) in (Ok t, set_env e w).

Definition db_get_trade_outcomes (timeframe : string)
  : M World (list TradeOutcome) :=
  fun w => (get_trade_outcomes (db w) timeframe, w).

Definition db_store_metrics (m : Metrics) : M World unit :=
  fun w =>
    if store_metrics_fails (db w) then
      (Raise (CollaboratorError "database"), w)
    else
      (Ok tt,
       {| tracker := tracker w;
          db := {| get_trade_outcomes := get_trade_outcomes (db w);
                   store_metrics_fails := store_metrics_fails (db w);
                   stored_metrics := (stored_metrics (db w) ++ [m])%list |};
          env := env w |}).

Definition _get_trade_outcomes (timeframe : string)
  : M World (list TradeOutcome) :=
  try_except (db_get_trade_outcomes timeframe) (fun _ => ret []).

Definition _store_metrics (m : Metrics) : M World unit :=
  try_except (db_store_metrics m) (fun _ => ret tt).

(** [o.get("outcome") == label] *)
Definition has_outcome (label : string) (o : TradeOutcome) : bool :=
  match o_outcome o with
  | Some s => String.eqb s label
  | None => false
  end.

(** [o.get("profit_loss", 0)] *)
Definition profit_loss (o : TradeOutcome) : Q := default 0 (o_profit_loss o).

(** [sum(1 for o in outcomes if o.get("outcome") == label)] *)
Definition count_outcome (label : string) (outcomes : list TradeOutcome) : Z :=
  Z.of_nat (length (List.filter (has_outcome label) outcomes)).

(** [sum(x for x in l)] *)
Definition sum (l : list Q) : Q := fold_left Qplus l 0.

Definition positive (q : Q) : bool :=
  if Qlt_le_dec 0 q then true else false.
Definition negative (q : Q) : bool :=
  if Qlt_le_dec q 0 then true else false.

Definition sum_profit (outcomes : list TradeOutcome) : Q :=
  sum (List.filter positive (map profit_loss outcomes)).
Definition sum_loss (outcomes : list TradeOutcome) : Q :=
  sum (List.filter negative (map profit_loss outcomes)).

(** [a / b] on numbers. *)
Definition true_div (a b : Q) : M World Q :=
  if Qeq_bool b 0 then raise ZeroDivisionError else ret (a / b).

Definition calculate_metrics (timeframe : string) : M World MetricsResult :=
  do outcomes <- _get_trade_outcomes timeframe ;;
  do self <- gets tracker ;;
  let total_trades := Z.of_nat (length outcomes) in
  if (total_trades <? min_sample_size self)%Z then
    ret (InsufficientData timeframe total_trades (min_sample_size self))
  else
    let successful_trades := count_outcome "success" outcomes in
    let failed_trades := count_outcome "failure" outcomes in
    let neutral_trades :=
      (total_trades - successful_trades - failed_trades)%Z in
    let success_rate :=
      if (0 <? total_trades)%Z
      then inject_Z successful_trades / inject_Z total_trades else 0 in
    let total_profit := sum_profit outcomes in
    let total_loss := sum_loss outcomes in
    let net_profit := total_profit + total_loss in
    let avg_profit_per_trade :=
      if (0 <? successful_trades)%Z
      then total_profit / inject_Z successful_trades else 0 in
    let avg_loss_per_trade :=
      if (0 <? failed_trades)%Z
      then total_loss / inject_Z failed_trades else 0 in
    let profit_factor :=
      if Qeq_bool total_loss 0 then Infinity
      else Finite (Qabs (total_profit / total_loss)) in
    do ratio <- true_div (inject_Z total_trades)
                         (inject_Z (metrics_window_size self)) ;;
    let confidence := fmin 1 ratio in
    do id <- uuid4 ;;
    do timestamp <- utcnow ;;
    let metrics :=
      {| m_id := id; m_timeframe := timeframe;
         m_total_trades := total_trades;
         m_successful_trades := successful_trades;
         m_failed_trades := failed_trades;
         m_neutral_trades := neutral_trades;
         m_success_rate := success_rate;
         m_total_profit := total_profit;
         m_total_loss := total_loss;
         m_net_profit := net_profit;
         m_avg_profit_per_trade := avg_profit_per_trade;
         m_avg_loss_per_trade := avg_loss_per_trade;
         m_profit_factor := profit_factor;
         m_confidence := confidence;
         m_timestamp := timestamp |} in
    run modify (fun w =>
          set_history (metrics_history (tracker w) ++ [metrics])%list w) ;;
    run modify (fun w =>
          let h := metrics_history (tracker w) in
          if (metrics_window_size (tracker w) <? Z.of_nat (length h))%Z
          then set_history (slice_last (metrics_window_size (tracker w)) h) w
          else w) ;;
    run _store_metrics metrics ;;
    ret (FullMetrics metrics).

(** The outcomes [calculate_metrics] works on: what the collaborator
    answers, or nothing when it raises. *)
Definition retrieved (w : World) (timeframe : string) : list TradeOutcome :=
  match get_trade_outcomes (db w) timeframe with
  | Ok l => l
  | Raise _ => []
  end.

(** [_calculate_trend]: the slope of the least-squares line through the
    values, relative to the slope between the first and the last value,
    cut to [-1, 1]. *)
Definition _calculate_trend (values : list Q) : Q :=
  if (length values <? 2)%nat then 0
  else
    let n := inject_Z (Z.of_nat (length values)) in
    let x := map (fun i => inject_Z (Z.of_nat i)) (seq 0 (length values)) in
    let mean_x := sum x / n in
    let mean_y := sum values / n in
    let numerator :=
      sum (map (fun xv => (fst xv - mean_x) * (snd xv - mean_y))
               (combine x values)) in
    let denominator := sum (map (fun xi => (xi - mean_x) ^ 2) x) in
    if Qeq_bool denominator 0 then 0
    else
      let slope := numerator / denominator in
      let max_possible_slope := (List.last values 0 - hd 0 values) / (n - 1) in
      if Qeq_bool max_possible_slope 0 then 0
      else
        let normalized_slope := slope / Qabs max_possible_slope in
        fmax (-1) (fmin 1 normalized_slope).

End Performance.

(* ===================================================================== *)
(** * agent_core/memory/memory.py *)
(* ===================================================================== *)

Module Working.

Record Interaction : Type := {
  i_input : pyval;
  i_response : pyval;
  i_result : pyval;
  i_timestamp : string
}.

Record WorkingMemory : Type := {
  conversation_history : list Interaction;
  max_history : Z;
  state : pydict
}.

(** [WorkingMemory(max_history)] *)
Definition __init__ (max_history : Z) : WorkingMemory :=
  {| conversation_history := []; max_history := max_history; state := [] |}.

(** The dict [{"conversation": ..., "state": ...}]. *)
Record Context : Type := {
  conversation : list Interaction;
  ctx_state : pydict
}.

Definition get_context (self : WorkingMemory) : Context :=
  {| conversation := conversation_history self; ctx_state := state self |}.

(** [update]; [timestamp] is the value of [datetime.now().isoformat()]. *)
Definition update (self : WorkingMemory) (input_data response result : pyval)
    (timestamp : string) : WorkingMemory :=
  let appended :=
    (conversation_history self ++
       [{| i_input := input_data; i_response := response; i_result := result;
           i_timestamp := timestamp |}])%list in
  {| conversation_history :=
       if (max_history self <? Z.of_nat (length appended))%Z
       then slice_last (max_history self) appended
       else appended;
     max_history := max_history self;
     state := state self |}.

Definition set_state (self : WorkingMemory) (key : string) (value : pyval)
  : WorkingMemory :=
  {| conversation_history := conversation_history self;
     max_history := max_history self;
     state := dict_set key value (state self) |}.

Definition get_state (self : WorkingMemory) (key : string) (dflt : pyval)
  : pyval :=
  default dflt (dict_get key (state self)).

Definition clear_state (self : WorkingMemory) : WorkingMemory :=
  {| conversation_history := conversation_history self;
     max_history := max_history self; state := [] |}.

Definition clear_history (self : WorkingMemory) : WorkingMemory :=
  {| conversation_history := []; max_history := max_history self;
     state := state self |}.

Definition reset (self : WorkingMemory) : WorkingMemory :=
  clear_history (clear_state self).

End Working.

(* ===================================================================== *)
(** * memory_systems/database.py: the tables *)
(* ===================================================================== *)

Module Store.

(** A row of [trader_profiles], which is also the dict [to_dict] builds
    from it.  The JSON text column [data] is kept parsed; [None] is a NULL
    column, which [to_dict] reads as the empty dict. *)
Record TraderProfile : Type := {
  tp_id : string;
  tp_trader_id : string;
  tp_username : option pyval;
  tp_successful_trades : Z;
  tp_failed_trades : Z;
  tp_reliability : Q;
  tp_data : option pydict
}.

Record MarketKnowledge : Type := {
  mk_id : string;
  mk_symbol : string;
  mk_name : option pyval;
  mk_sector : option pyval;
  mk_data : option pydict
}.

Record ActionPattern : Type := {
  ap_id : string;
  ap_pattern_type : string;
  ap_pattern_key : string;
  ap_success_count : Z;
  ap_failure_count : Z;
  ap_effectiveness : Q;
  ap_data : option pydict
}.

(** [to_dict()["data"]]: [json.loads(self.data) if self.data else {}]. *)
Definition data_of (column : option pydict) : pydict :=
  match column with
  | Some items => loads items
  | None => []
  end.

(** The [data] argument of the update methods: a field is [Some] when the
    key is in the dict. *)
Record TraderUpdate : Type := {
  tu_username : option pyval;
  tu_successful_trades : option Z;
  tu_failed_trades : option Z;
  tu_reliability : option Q;
  tu_data : option pydict
}.

Record MarketUpdate : Type := {
  mu_name : option pyval;
  mu_sector : option pyval;
  mu_data : option pydict
}.

Record PatternUpdate : Type := {
  pu_success_count : option Z;
  pu_failure_count : option Z;
  pu_effectiveness : option Q;
  pu_data : option pydict
}.

Inductive table : Type :=
| Traders
| Markets
| ActionPatterns
| FeedbackLog
| OutcomeLog
| PatternLog.

Definition table_eqb (a b : table) : bool :=
  match a, b with
  | Traders, Traders | Markets, Markets | ActionPatterns, ActionPatterns
  | FeedbackLog, FeedbackLog | OutcomeLog, OutcomeLog
  | PatternLog, PatternLog => true
  | _, _ => false
  end.

(** The database.  [trader_id] and [symbol] are unique columns;
    [action_patterns] has no such constraint and queries take the first
    matching row.  [failing] tells which tables currently make a session
    raise.  The three logs are the append-only stores behind
    [store_feedback], [store_trade_outcome] and [store_pattern]. *)
Record Db : Type := {
  trader_profiles : gmap string TraderProfile;
  market_knowledge : gmap string MarketKnowledge;
  action_patterns : list ActionPattern;
  stored_feedback : list pydict;
  stored_outcomes : list pydict;
  stored_patterns : list (string * string * pydict);
  failing : table -> bool
}.

Definition empty_db : Db :=
  {| trader_profiles := ∅; market_knowledge := ∅; action_patterns := [];
     stored_feedback := []; stored_outcomes := []; stored_patterns := [];
     failing := fun _ => false |}.

Definition set_trader_profiles (m : gmap string TraderProfile) (d : Db) : Db :=
  {| trader_profiles := m; market_knowledge := market_knowledge d;
     action_patterns := action_patterns d;
     stored_feedback := stored_feedback d;
     stored_outcomes := stored_outcomes d;
     stored_patterns := stored_patterns d; failing := failing d |}.

Definition set_market_knowledge (m : gmap string MarketKnowledge) (d : Db)
  : Db :=
  {| trader_profiles := trader_profiles d; market_knowledge := m;
     action_patterns := action_patterns d;
     stored_feedback := stored_feedback d;
     stored_outcomes := stored_outcomes d;
     stored_patterns := stored_patterns d; failing := failing d |}.

Definition set_action_patterns (l : list ActionPattern) (d : Db) : Db :=
  {| trader_profiles := trader_profiles d;
     market_knowledge := market_knowledge d;
     action_patterns := l;
     stored_feedback := stored_feedback d;
     stored_outcomes := stored_outcomes d;
     stored_patterns := stored_patterns d; failing := failing d |}.

Definition set_stored_feedback (l : list pydict) (d : Db) : Db :=
  {| trader_profiles := trader_profiles d;
     market_knowledge := market_knowledge d;
     action_patterns := action_patterns d;
     stored_feedback := l;
     stored_outcomes := stored_outcomes d;
     stored_patterns := stored_patterns d; failing := failing d |}.

Definition set_stored_outcomes (l : list pydict) (d : Db) : Db :=
  {| trader_profiles := trader_profiles d;
     market_knowledge := market_knowledge d;
     action_patterns := action_patterns d;
     stored_feedback := stored_feedback d;
     stored_outcomes := l;
     stored_patterns := stored_patterns d; failing := failing d |}.

Definition set_stored_patterns (l : list (string * string * pydict)) (d : Db)
  : Db :=
  {| trader_profiles := trader_profiles d;
     market_knowledge := market_knowledge d;
     action_patterns := action_patterns d;
     stored_feedback := stored_feedback d;
     stored_outcomes := stored_outcomes d;
     stored_patterns := l; failing := failing d |}.

Definition set_failing (f : table -> bool) (d : Db) : Db :=
  {| trader_profiles := trader_profiles d;
     market_knowledge := market_knowledge d;
     action_patterns := action_patterns d;
     stored_feedback := stored_feedback d;
     stored_outcomes := stored_outcomes d;
     stored_patterns := stored_patterns d; failing := f |}.

(** [filter_by(pattern_type=..., pattern_key=...)] *)
Definition matches (pattern_type pattern_key : string) (r : ActionPattern)
  : bool :=
  (String.eqb (ap_pattern_type r) pattern_type
   && String.eqb (ap_pattern_key r) pattern_key)%bool.

(** Replace the first row the predicate selects. *)
Fixpoint replace_first (p : ActionPattern -> bool) (r' : ActionPattern)
    (l : list ActionPattern) : list ActionPattern :=
  match l with
  | [] => []
  | r :: l' => if p r then r' :: l' else r :: replace_first p r' l'
  end.

End Store.

(* ===================================================================== *)
(** * The state of the process *)
(* ===================================================================== *)

Module State.

Import Store.

(** memory_systems/config.py, the options the coordinator reads. *)
Record MemoryConfig : Type := {
  max_episodic_memories : Z;
  max_procedural_patterns : Z
}.

(** One vector of the similarity index with its metadata. *)
Record VectorEntry : Type := {
  v_id : string;
  v_values : list Q;
  v_metadata : pydict
}.

(** The embedding service and the vector index behind the episodic tier:
    whether each is failing, the embedding and the similarity score they
    compute, and what the index holds. *)
Record Services : Type := {
  embedding_fails : bool;
  index_fails : bool;
  embed : string -> list Q;
  score : list Q -> list Q -> Q;
  vectors : list VectorEntry
}.

Record SemanticMemory : Type := {
  trader_cache : gmap string TraderProfile;
  market_cache : gmap string MarketKnowledge
}.

Record ProceduralMemory : Type := {
  pattern_cache : gmap string ActionPattern
}.

Record FeedbackProcessor : Type := {
  positive_threshold : Q;
  negative_threshold : Q;
  feedback_weight : Q;
  outcome_weight : Q;
  feedback_decay : Q;
  feedback_history : list pydict
}.

Record PatternRecognition : Type := {
  min_pattern_occurrences : Z;
  min_pattern_confidence : Q;
  max_patterns_per_type : Z;
  pattern_similarity_threshold : Q;
  detected_cache : list (string * pydict)
}.

Record World : Type := {
  db : Db;
  env : Env;
  services : Services;
  config : MemoryConfig;
  working_memory : Working.WorkingMemory;
  semantic_memory : SemanticMemory;
  procedural_memory : ProceduralMemory;
  feedback_processor : FeedbackProcessor;
  pattern_recognition : PatternRecognition
}.

Definition set_db (x : Db) (w : World) : World :=
  {| db := x; env := env w; services := services w; config := config w;
     working_memory := working_memory w;
     semantic_memory := semantic_memory w;
     procedural_memory := procedural_memory w;
     feedback_processor := feedback_processor w;
     pattern_recognition := pattern_recognition w |}.

Definition set_env (x : Env) (w : World) : World :=
  {| db := db w; env := x; services := services w; config := config w;
     working_memory := working_memory w;
     semantic_memory := semantic_memory w;
     procedural_memory := procedural_memory w;
     feedback_processor := feedback_processor w;
     pattern_recognition := pattern_recognition w |}.

Definition set_services (x : Services) (w : World) : World :=
  {| db := db w; env := env w; services := x; config := config w;
     working_memory := working_memory w;
     semantic_memory := semantic_memory w;
     procedural_memory := procedural_memory w;
     feedback_processor := feedback_processor w;
     pattern_recognition := pattern_recognition w |}.

Definition set_working_memory (x : Working.WorkingMemory) (w : World)
  : World :=
  {| db := db w; env := env w; services := services w; config := config w;
     working_memory := x;
     semantic_memory := semantic_memory w;
     procedural_memory := procedural_memory w;
     feedback_processor := feedback_processor w;
     pattern_recognition := pattern_recognition w |}.

Definition set_semantic_memory (x : SemanticMemory) (w : World) : World :=
  {| db := db w; env := env w; services := services w; config := config w;
     working_memory := working_memory w;
     semantic_memory := x;
     procedural_memory := procedural_memory w;
     feedback_processor := feedback_processor w;
     pattern_recognition := pattern_recognition w |}.

Definition set_procedural_memory (x : ProceduralMemory) (w : World) : World :=
  {| db := db w; env := env w; services := services w; config := config w;
     working_memory := working_memory w;
     semantic_memory := semantic_memory w;
     procedural_memory := x;
     feedback_processor := feedback_processor w;
     pattern_recognition := pattern_recognition w |}.

Definition set_feedback_processor (x : FeedbackProcessor) (w : World)
  : World :=
  {| db := db w; env := env w; services := services w; config := config w;
     working_memory := working_memory w;
     semantic_memory := semantic_memory w;
     procedural_memory := procedural_memory w;
     feedback_processor := x;
     pattern_recognition := pattern_recognition w |}.

Definition set_pattern_recognition (x : PatternRecognition) (w : World)
  : World :=
  {| db := db w; env := env w; services := services w; config := config w;
     working_memory := working_memory w;
     semantic_memory := semantic_memory w;
     procedural_memory := procedural_memory w;
     feedback_processor := feedback_processor w;
     pattern_recognition := x |}.

(** [str(uuid.uuid4())] *)
Definition uuid4 : M World string :=
  fun w => let '(u, e) := take_uuid (env w) in (Ok u, set_env e w).

(** [datetime.utcnow().isoformat()] (and [datetime.now().isoformat()]) *)
Definition utcnow : M World string :=
  fun w => let '(t, e) := take_now (env w) in (Ok t, set_env e w).

End State.

(* ===================================================================== *)
(** * memory_systems/database.py: [DatabaseManager] *)
(* ===================================================================== *)

Module Database.

Import Store State.
Local Open Scope Q_scope.
Local Open Scope eff_scope.

(** Running a query or a commit against a table: it raises while the table
    is failing. *)
Definition session (t : table) : M World unit :=
  fun w =>
    if failing (db w) t then (Raise (CollaboratorError "database"), w)
    else (Ok tt, w).

(** [json.dumps(data) if data else None] *)
Definition data_column (data : pydict) : option pydict :=
  match data with [] => None | _ => Some data end.

(** [data.get(k) if data else None] *)
Definition data_field (k : string) (data : pydict) : option pyval :=
  dict_get k data.

Definition get_trader_profile (trader_id : string)
  : M World (option TraderProfile) :=
  run session Traders ;;
  gets (fun w => trader_profiles (db w) !! trader_id).

Definition create_trader_profile (trader_id : string) (data : pydict)
  : M World TraderProfile :=
  do id <- uuid4 ;;
  run session Traders ;;
  do existing <- gets (fun w => trader_profiles (db w) !! trader_id) ;;
  match existing with
  | Some _ => raise (CollaboratorError "database")
  | None =>
      let profile :=
        {| tp_id := id; tp_trader_id := trader_id;
           tp_username := data_field "username" data;
           tp_successful_trades := 0; tp_failed_trades := 0;
           tp_reliability := 1 # 2;
           tp_data := data_column data |} in
      run modify (fun w =>
            set_db (set_trader_profiles
                      (<[trader_id := profile]> (trader_profiles (db w)))
                      (db w)) w) ;;
      ret profile
  end.

Definition update_trader_profile (trader_id : string) (data : TraderUpdate)
  : M World (option TraderProfile) :=
  run session Traders ;;
  do existing <- gets (fun w => trader_profiles (db w) !! trader_id) ;;
  match existing with
  | None => ret None
  | Some p =>
      let profile :=
        {| tp_id := tp_id p; tp_trader_id := tp_trader_id p;
           tp_username :=
             match tu_username data with
             | Some u => Some u
             | None => tp_username p
             end;
           tp_successful_trades :=
             default (tp_successful_trades p) (tu_successful_trades data);
           tp_failed_trades :=
             default (tp_failed_trades p) (tu_failed_trades data);
           tp_reliability := default (tp_reliability p) (tu_reliability data);
           tp_data :=
             match tu_data data with
             | Some d => Some (dict_update (data_of (tp_data p)) d)
             | None => tp_data p
             end |} in
      run modify (fun w =>
            set_db (set_trader_profiles
                      (<[trader_id := profile]> (trader_profiles (db w)))
                      (db w)) w) ;;
      ret (Some profile)
  end.

Definition get_market_knowledge (symbol : string)
  : M World (option MarketKnowledge) :=
  run session Markets ;;
  gets (fun w => market_knowledge (db w) !! symbol).

Definition create_market_knowledge (symbol : string) (data : pydict)
  : M World MarketKnowledge :=
  do id <- uuid4 ;;
  run session Markets ;;
  do existing <- gets (fun w => market_knowledge (db w) !! symbol) ;;
  match existing with
  | Some _ => raise (CollaboratorError "database")
  | None =>
      let knowledge :=
        {| mk_id := id; mk_symbol := symbol;
           mk_name := data_field "name" data;
           mk_sector := data_field "sector" data;
           mk_data := data_column data |} in
      run modify (fun w =>
            set_db (set_market_knowledge
                      (<[symbol := knowledge]> (market_knowledge (db w)))
                      (db w)) w) ;;
      ret knowledge
  end.

Definition update_market_knowledge (symbol : string) (data : MarketUpdate)
  : M World (option MarketKnowledge) :=
  run session Markets ;;
  do existing <- gets (fun w => market_knowledge (db w) !! symbol) ;;
  match existing with
  | None => ret None
  | Some k =>
      let knowledge :=
        {| mk_id := mk_id k; mk_symbol := mk_symbol k;
           mk_name :=
             match mu_name data with Some n => Some n | None => mk_name k end;
           mk_sector :=
             match mu_sector data with
             | Some s => Some s
             | None => mk_sector k
             end;
           mk_data :=
             match mu_data data with
             | Some d => Some (dict_update (data_of (mk_data k)) d)
             | None => mk_data k
             end |} in
      run modify (fun w =>
            set_db (set_market_knowledge
                      (<[symbol := knowledge]> (market_knowledge (db w)))
                      (db w)) w) ;;
      ret (Some knowledge)
  end.

Definition get_action_pattern (pattern_type pattern_key : string)
  : M World (option ActionPattern) :=
  run session ActionPatterns ;;
  gets (fun w =>
          List.find (matches pattern_type pattern_key)
                    (action_patterns (db w))).

(** The counters and the effectiveness are not passed to the row: the
    columns take their defaults [0], [0] and [0.5], and the whole [data]
    argument goes to the JSON column. *)
Definition create_action_pattern (pattern_type pattern_key : string)
    (data : pydict) : M World ActionPattern :=
  do id <- uuid4 ;;
  run session ActionPatterns ;;
  let pattern :=
    {| ap_id := id; ap_pattern_type := pattern_type;
       ap_pattern_key := pattern_key;
       ap_success_count := 0; ap_failure_count := 0;
       ap_effectiveness := 1 # 2;
       ap_data := data_column data |} in
  run modify (fun w =>
        set_db (set_action_patterns
                  (action_patterns (db w) ++ [pattern])%list (db w)) w) ;;
  ret pattern.

Definition update_action_pattern (pattern_type pattern_key : string)
    (data : PatternUpdate) : M World (option ActionPattern) :=
  run session ActionPatterns ;;
  do existing <-
     gets (fun w =>
             List.find (matches pattern_type pattern_key)
                       (action_patterns (db w))) ;;
  match existing with
  | None => ret None
  | Some p =>
      let pattern :=
        {| ap_id := ap_id p; ap_pattern_type := ap_pattern_type p;
           ap_pattern_key := ap_pattern_key p;
           ap_success_count :=
             default (ap_success_count p) (pu_success_count data);
           ap_failure_count :=
             default (ap_failure_count p) (pu_failure_count data);
           ap_effectiveness :=
             default (ap_effectiveness p) (pu_effectiveness data);
           ap_data :=
             match pu_data data with
             | Some d => Some (dict_update (data_of (ap_data p)) d)
             | None => ap_data p
             end |} in
      run modify (fun w =>
            set_db (set_action_patterns
                      (replace_first (matches pattern_type pattern_key)
                         pattern (action_patterns (db w)))
                      (db w)) w) ;;
      ret (Some pattern)
  end.

(** Stable sort of rows by decreasing effectiveness
    ([order_by(ActionPattern.effectiveness.desc())]). *)
Fixpoint insert_by_effectiveness (x : ActionPattern) (l : list ActionPattern)
  : list ActionPattern :=
  match l with
  | [] => [x]
  | y :: l' =>
      if Qlt_le_dec (ap_effectiveness x) (ap_effectiveness y)
      then y :: insert_by_effectiveness x l'
      else x :: y :: l'
  end.

Definition sort_by_effectiveness (l : list ActionPattern)
  : list ActionPattern :=
  fold_right insert_by_effectiveness [] l.

(** [.limit(n)]: a negative bound does not limit (SQLite). *)
Definition sql_limit {A} (n : Z) (l : list A) : list A :=
  if (n <? 0)%Z then l else firstn (Z.to_nat n) l.

Definition get_action_patterns_by_type (pattern_type : string) (limit : Z)
  : M World (list ActionPattern) :=
  run session ActionPatterns ;;
  gets (fun w =>
          sql_limit limit
            (sort_by_effectiveness
               (List.filter
                  (fun r => String.eqb (ap_pattern_type r) pattern_type)
                  (action_patterns (db w))))).

(** Modelled from the spec: [store_feedback] is called on the database
    manager but database.py does not define it; section 6 of the
    specification describes an append-only store for feedback records. *)
Definition store_feedback (feedback_record : pydict) : M World pyval :=
  run session FeedbackLog ;;
  run modify (fun w =>
        set_db (set_stored_feedback
                  (stored_feedback (db w) ++ [feedback_record])%list
                  (db w)) w) ;;
  ret (default PNone (dict_get "id" feedback_record)).

(** Modelled from the spec: [store_trade_outcome] is missing from
    database.py as well; an append-only store for trade outcomes. *)
Definition store_trade_outcome (outcome_record : pydict) : M World pyval :=
  run session OutcomeLog ;;
  run modify (fun w =>
        set_db (set_stored_outcomes
                  (stored_outcomes (db w) ++ [outcome_record])%list
                  (db w)) w) ;;
  ret (default PNone (dict_get "id" outcome_record)).

(** Modelled from the spec: [store_pattern] is missing from database.py as
    well; an append-only store for detected patterns. *)
Definition store_pattern (pattern_type pattern_key : string)
    (pattern : pydict) : M World unit :=
  run session PatternLog ;;
  modify (fun w =>
    set_db (set_stored_patterns
              (stored_patterns (db w)
               ++ [(pattern_type, pattern_key, pattern)])%list
              (db w)) w).

End Database.

(* ===================================================================== *)
(** * memory_systems/procedural.py *)
(* ===================================================================== *)

Module Procedural.

Import Store State.
Local Open Scope Q_scope.
Local Open Scope eff_scope.

Definition set_pattern_cache (c : gmap string ActionPattern) (w : World)
  : World :=
  set_procedural_memory {| pattern_cache := c |} w.

(** [f"{pattern_type}:{pattern_key}"] *)
Definition cache_key (pattern_type pattern_key : string) : string :=
  pattern_type ++ ":" ++ pattern_key.

(** The fields written on a first occurrence. *)
Definition seed (pattern_data : pyval) (success : bool) : pydict :=
  [ ("success_count", PInt (if success then 1 else 0));
    ("failure_count", PInt (if success then 0 else 1));
    ("effectiveness", PFloat (if success then 1 else 0));
    ("data", PDict [("pattern_data", pattern_data)]) ].

Section WithRuntime.
Context (rt : Runtime).

Definition _generate_pattern_key (pattern_data : pyval) : string :=
  md5_hex rt (dumps rt pattern_data).

Definition store_pattern (pattern_type : string) (pattern_data : pyval)
    (success : bool) : M World ActionPattern :=
  let pattern_key := _generate_pattern_key pattern_data in
  do existing_pattern <- Database.get_action_pattern pattern_type pattern_key ;;
  match existing_pattern with
  | Some existing =>
      let success_count :=
        (ap_success_count existing + (if success then 1 else 0))%Z in
      let failure_count :=
        (ap_failure_count existing + (if success then 0 else 1))%Z in
      let total := (success_count + failure_count)%Z in
      let pattern_data_dict :=
        default (PDict [])
                (dict_get "pattern_data" (data_of (ap_data existing))) in
      let updates :=
        {| pu_success_count := Some success_count;
           pu_failure_count := Some failure_count;
           pu_effectiveness :=
             if (0 <? total)%Z
             then Some (inject_Z success_count / inject_Z total)
             else None;
           pu_data := Some [("pattern_data", pattern_data_dict)] |} in
      do updated_pattern <-
         Database.update_action_pattern pattern_type pattern_key updates ;;
      match updated_pattern with
      | Some updated =>
          run modify (fun w =>
                set_pattern_cache
                  (<[cache_key pattern_type pattern_key := updated]>
                     (pattern_cache (procedural_memory w))) w) ;;
          ret updated
      | None => ret existing
      end
  | None =>
      do new_pattern <-
         Database.create_action_pattern pattern_type pattern_key
           (seed pattern_data success) ;;
      run modify (fun w =>
            set_pattern_cache
              (<[cache_key pattern_type pattern_key := new_pattern]>
                 (pattern_cache (procedural_memory w))) w) ;;
      ret new_pattern
  end.

Definition get_pattern (pattern_type pattern_key : string)
  : M World (option ActionPattern) :=
  do cached <-
     gets (fun w =>
             pattern_cache (procedural_memory w)
               !! cache_key pattern_type pattern_key) ;;
  match cached with
  | Some p => ret (Some p)
  | None =>
      do pattern <- Database.get_action_pattern pattern_type pattern_key ;;
      match pattern with
      | Some p =>
          run modify (fun w =>
                set_pattern_cache
                  (<[cache_key pattern_type pattern_key := p]>
                     (pattern_cache (procedural_memory w))) w) ;;
          ret (Some p)
      | None => ret None
      end
  end.

Definition get_patterns_by_type (pattern_type : string) (limit : Z)
  : M World (list ActionPattern) :=
  Database.get_action_patterns_by_type pattern_type limit.

Definition get_most_effective_patterns (pattern_type : string)
    (min_effectiveness : Q) (limit : Z) : M World (list ActionPattern) :=
  do patterns <- get_patterns_by_type pattern_type (limit * 2)%Z ;;
  let effective_patterns :=
    List.filter
      (fun p =>
         if Qlt_le_dec (ap_effectiveness p) min_effectiveness
         then false else true)
      patterns in
  ret (slice_to limit (Database.sort_by_effectiveness effective_patterns)).

(** [f"{prefix}:{value}"] *)
Definition tagged (prefix : string) (value : pyval) : string :=
  prefix ++ ":" ++
  match value with PStr s => s | _ => str_of rt value end.

Definition context_pattern_types (context : pydict) : list string :=
  (match dict_get "trader_id" context with
   | Some v => [tagged "trader" v] | None => [] end
   ++ match dict_get "symbol" context with
      | Some v => [tagged "symbol" v] | None => [] end
   ++ match dict_get "action" context with
      | Some v => [tagged "action" v] | None => [] end
   ++ ["general"])%list.

Fixpoint collect_patterns (pattern_types : list string) (limit : Z)
  : M World (list ActionPattern) :=
  match pattern_types with
  | [] => ret []
  | pattern_type :: rest =>
      do patterns <-
         get_most_effective_patterns pattern_type (6 # 10) limit ;;
      do more <- collect_patterns rest limit ;;
      ret (patterns ++ more)%list
  end.

Definition get_relevant_patterns (context : pydict) (limit : Z)
  : M World (list ActionPattern) :=
  do relevant_patterns <-
     collect_patterns (context_pattern_types context) limit ;;
  ret (slice_to limit (Database.sort_by_effectiveness relevant_patterns)).

Definition clear_cache : M World unit :=
  modify (set_pattern_cache ∅).

End WithRuntime.

End Procedural.

(* ===================================================================== *)
(** * learning_systems/feedback.py *)
(* ===================================================================== *)

Module Feedback.

Import Store State.
Local Open Scope Q_scope.
Local Open Scope eff_scope.

Definition set_feedback_history (h : list pydict) (w : World) : World :=
  set_feedback_processor
    {| positive_threshold := positive_threshold (feedback_processor w);
       negative_threshold := negative_threshold (feedback_processor w);
       feedback_weight := feedback_weight (feedback_processor w);
       outcome_weight := outcome_weight (feedback_processor w);
       feedback_decay := feedback_decay (feedback_processor w);
       feedback_history := h |} w.

(** A number as arithmetic and [float(...)] read it; anything else makes
    them raise [TypeError]. *)
Definition as_number (v : pyval) : M World Q :=
  match v with
  | PInt z => ret (inject_Z z)
  | PFloat q => ret q
  | PBool b => ret (if b then 1 else 0)
  | _ => raise TypeError
  end.

(** An identifier handed to a query: the tables are keyed by strings, any
    other value makes the query raise. *)
Definition as_key (v : pyval) : M World string :=
  match v with
  | PStr s => ret s
  | _ => raise TypeError
  end.

(** [x in names] for a list of string literals. *)
Definition among (names : list string) (x : string) : bool :=
  existsb (String.eqb x) names.

(** [v == literal] *)
Definition is_str (literal : string) (v : pyval) : bool :=
  match v with
  | PStr s => String.eqb s literal
  | _ => false
  end.

(** [max(0.0, min(1.0, x))] *)
Definition clamp01 (x : Q) : Q := fmax 0 (fmin 1 x).

(** The cap on a stored feedback history. *)
Definition history_cap : Z := 100.

Record UserFeedbackResult : Type := {
  feedback_id : pyval;
  uf_status : string;
  applied_to : pyval;
  normalized_value : Q
}.

Record TradeOutcomeResult : Type := {
  outcome_id : pyval;
  reward_of : Q;
  to_status : string
}.

Definition _calculate_reward (outcome profit_loss : pyval) : M World Q :=
  match outcome with
  | PStr s =>
      if String.eqb (lower s) "success" then
        do p <- as_number profit_loss ;;
        ret (fmin 1 (fmax (1 # 10) (p / 100)))
      else if String.eqb (lower s) "failure" then
        do p <- as_number profit_loss ;;
        ret (fmax (-1) (fmin (- (1 # 10)) (p / 100)))
      else ret 0
  | _ => raise AttributeError
  end.

Definition _store_feedback (feedback_record : pydict) : M World pyval :=
  try_except (Database.store_feedback feedback_record)
    (fun _ => ret (default PNone (dict_get "id" feedback_record))).

Definition _store_trade_outcome (outcome_record : pydict) : M World pyval :=
  try_except (Database.store_trade_outcome outcome_record)
    (fun _ => ret (default PNone (dict_get "id" outcome_record))).

(** The statements shared by [_update_signal_model] and
    [_update_trader_model] between reading the record and writing it back:
    blend the reliability, append the entry, cap the history. *)
Definition blend_and_log (record_data : pydict) (data : pydict) (value : Q)
  : M World pydict :=
  do decay <- gets (fun w => feedback_decay (feedback_processor w)) ;;
  do reliability <-
     as_number (default (PFloat (1 # 2)) (dict_get "reliability" record_data)) ;;
  let new_reliability :=
    clamp01 (reliability * decay + value * (1 - decay)) in
  let record_data := dict_set "reliability" (PFloat new_reliability) record_data in
  let record_data :=
    if dict_mem "feedback_history" record_data then record_data
    else dict_set "feedback_history" (PList []) record_data in
  match dict_get "feedback_history" record_data with
  | Some (PList history) =>
      do timestamp <- utcnow ;;
      let entry :=
        PDict [ ("value", PFloat value);
                ("timestamp", PStr timestamp);
                ("source", default (PStr "unknown") (dict_get "source" data)) ] in
      let history := (history ++ [entry])%list in
      let history :=
        if (history_cap <? Z.of_nat (length history))%Z
        then slice_last history_cap history else history in
      ret (dict_set "feedback_history" (PList history) record_data)
  | _ => raise AttributeError
  end.

Definition _update_signal_model (data : pydict) (value : Q) : M World unit :=
  match dict_get "symbol" data with
  | None => ret tt
  | Some symbol_value =>
      try_except
        (do symbol <- as_key symbol_value ;;
         do found <- Database.get_market_knowledge symbol ;;
         do market_knowledge <-
            match found with
            | Some k => ret k
            | None => Database.create_market_knowledge symbol []
            end ;;
         do market_data <-
            blend_and_log (data_of (mk_data market_knowledge)) data value ;;
         run Database.update_market_knowledge symbol
               {| mu_name := None; mu_sector := None;
                  mu_data := Some market_data |} ;;
         ret tt)
        (fun _ => ret tt)
  end.

Definition _update_trader_model (data : pydict) (value : Q) : M World unit :=
  match dict_get "trader_id" data with
  | None => ret tt
  | Some trader_value =>
      try_except
        (do trader_id <- as_key trader_value ;;
         do found <- Database.get_trader_profile trader_id ;;
         do trader_profile <-
            match found with
            | Some p => ret p
            | None => Database.create_trader_profile trader_id []
            end ;;
         do profile_data <-
            blend_and_log (data_of (tp_data trader_profile)) data value ;;
         run Database.update_trader_profile trader_id
               {| tu_username := None; tu_successful_trades := None;
                  tu_failed_trades := None; tu_reliability := None;
                  tu_data := Some profile_data |} ;;
         ret tt)
        (fun _ => ret tt)
  end.

(** [v] when the key is present, for the truthiness tests on optional
    fields ([None] when absent). *)
Definition field_truthy (v : option pyval) : bool :=
  match v with Some x => truthy x | None => false end.

Definition _update_strategy_model (data : pydict) (value : Q) : M World unit :=
  if (negb (dict_mem "strategy_id" data)
      && negb (dict_mem "pattern_type" data))%bool then ret tt
  else
    let strategy_id := dict_get "strategy_id" data in
    let pattern_type := dict_get "pattern_type" data in
    let pattern_key := dict_get "pattern_key" data in
    if (negb (field_truthy strategy_id)
        && negb (field_truthy pattern_type && field_truthy pattern_key))%bool
    then ret tt
    else
      try_except
        (if (field_truthy pattern_type && field_truthy pattern_key)%bool then
           do ptype <- as_key (default PNone pattern_type) ;;
           do pkey <- as_key (default PNone pattern_key) ;;
           do found <- Database.get_action_pattern ptype pkey ;;
           match found with
           | Some action_pattern =>
               do self <- gets feedback_processor ;;
               let effectiveness := ap_effectiveness action_pattern in
               let new_effectiveness :=
                 clamp01 (effectiveness * feedback_decay self
                          + value * (1 - feedback_decay self)) in
               let success_count := ap_success_count action_pattern in
               let failure_count := ap_failure_count action_pattern in
               let '(success_count, failure_count) :=
                 if Qlt_le_dec (positive_threshold self) value
                 then ((success_count + 1)%Z, failure_count)
                 else if Qlt_le_dec value (negative_threshold self)
                      then (success_count, (failure_count + 1)%Z)
                      else (success_count, failure_count) in
               run Database.update_action_pattern ptype pkey
                     {| pu_success_count := Some success_count;
                        pu_failure_count := Some failure_count;
                        pu_effectiveness := Some new_effectiveness;
                        pu_data := None |} ;;
               ret tt
           | None => ret tt
           end
         else ret tt)
        (fun _ => ret tt).

Definition normalize (feedback_value : pyval) : M World Q :=
  match feedback_value with
  | PStr s =>
      if among ["positive"; "good"; "yes"] (lower s) then ret 1
      else if among ["negative"; "bad"; "no"] (lower s) then ret (-1)
      else ret 0
  | _ =>
      do x <- as_number feedback_value ;;
      ret (fmax (-1) (fmin 1 x))
  end.

Definition process_user_feedback (feedback_data : pydict)
  : M World UserFeedbackResult :=
  let feedback_type :=
    default (PStr "general") (dict_get "type" feedback_data) in
  let feedback_value :=
    default (PFloat 0) (dict_get "value" feedback_data) in
  let feedback_text :=
    default (PStr EmptyString) (dict_get "text" feedback_data) in
  do normalized_value <- normalize feedback_value ;;
  do id <- uuid4 ;;
  do timestamp <- utcnow ;;
  let feedback_record :=
    [ ("id", PStr id); ("type", feedback_type);
      ("value", PFloat normalized_value); ("text", feedback_text);
      ("timestamp", PStr timestamp); ("source", PStr "user") ] in
  run modify (fun w =>
        set_feedback_history
          (feedback_history (feedback_processor w) ++ [feedback_record])%list
          w) ;;
  do feedback_id <- _store_feedback feedback_record ;;
  run (if is_str "trade_signal" feedback_type
       then _update_signal_model feedback_data normalized_value
       else if is_str "trader_reliability" feedback_type
            then _update_trader_model feedback_data normalized_value
            else if is_str "strategy" feedback_type
                 then _update_strategy_model feedback_data normalized_value
                 else ret tt) ;;
  ret {| feedback_id := feedback_id; uf_status := "processed";
         applied_to := feedback_type;
         normalized_value := normalized_value |}.

Definition process_trade_outcome (trade_data : pydict)
  : M World TradeOutcomeResult :=
  do fresh <- uuid4 ;;
  let trade_id := default (PStr fresh) (dict_get "trade_id" trade_data) in
  let symbol := default (PStr EmptyString) (dict_get "symbol" trade_data) in
  let action := default (PStr EmptyString) (dict_get "action" trade_data) in
  let outcome := default (PStr "unknown") (dict_get "outcome" trade_data) in
  let profit_loss :=
    default (PFloat 0) (dict_get "profit_loss" trade_data) in
  do reward <- _calculate_reward outcome profit_loss ;;
  do id <- uuid4 ;;
  do timestamp <- utcnow ;;
  let outcome_record :=
    [ ("id", PStr id); ("trade_id", trade_id); ("symbol", symbol);
      ("action", action); ("outcome", outcome);
      ("profit_loss", profit_loss); ("reward", PFloat reward);
      ("timestamp", PStr timestamp); ("source", PStr "system") ] in
  run modify (fun w =>
        set_feedback_history
          (feedback_history (feedback_processor w) ++ [outcome_record])%list
          w) ;;
  do outcome_id <- _store_trade_outcome outcome_record ;;
  run _update_signal_model
        [("symbol", symbol); ("action", action); ("outcome", outcome)]
        reward ;;
  run match dict_get "trader_id" trade_data with
      | Some trader_id =>
          _update_trader_model
            [("trader_id", trader_id); ("outcome", outcome)] reward
      | None => ret tt
      end ;;
  ret {| outcome_id := outcome_id; reward_of := reward;
         to_status := "processed" |}.

End Feedback.

(* ===================================================================== *)
(** * memory_systems/semantic.py: trader profiles *)
(* ===================================================================== *)

Module Semantic.

Import Store State.
Local Open Scope Q_scope.
Local Open Scope eff_scope.

Definition set_trader_cache (c : gmap string TraderProfile) (w : World)
  : World :=
  set_semantic_memory
    {| trader_cache := c; market_cache := market_cache (semantic_memory w) |}
    w.

(** The dict a profile is created from when the trader is not known. *)
Definition new_profile_data : pydict :=
  [ ("successful_trades", PInt 0);
    ("failed_trades", PInt 0);
    ("reliability", PFloat (1 # 2));
    ("data", PDict [ ("trade_history", PList []);
                     ("preferences", PDict []);
                     ("notes", PStr EmptyString) ]) ].

Definition get_trader_profile (trader_id : string) : M World TraderProfile :=
  do cached <- gets (fun w => trader_cache (semantic_memory w) !! trader_id) ;;
  match cached with
  | Some profile => ret profile
  | None =>
      do found <- Database.get_trader_profile trader_id ;;
      do profile <-
         match found with
         | Some p => ret p
         | None => Database.create_trader_profile trader_id new_profile_data
         end ;;
      run modify (fun w =>
            set_trader_cache
              (<[trader_id := profile]> (trader_cache (semantic_memory w)))
              w) ;;
      ret profile
  end.

Definition update_trader_profile (trader_id : string) (updates : TraderUpdate)
  : M World TraderProfile :=
  do profile <- get_trader_profile trader_id ;;
  do updated_profile <- Database.update_trader_profile trader_id updates ;;
  match updated_profile with
  | Some updated =>
      run modify (fun w =>
            set_trader_cache
              (<[trader_id := updated]> (trader_cache (semantic_memory w)))
              w) ;;
      ret updated
  | None => ret profile
  end.

Definition update_trader_reliability (trader_id : string) (outcome : pyval)
  : M World TraderProfile :=
  do profile <- get_trader_profile trader_id ;;
  let successful :=
    if Feedback.is_str "success" outcome
    then Some (tp_successful_trades profile + 1)%Z else None in
  let failed :=
    if Feedback.is_str "success" outcome then None
    else if Feedback.is_str "failure" outcome
         then Some (tp_failed_trades profile + 1)%Z else None in
  let total_trades :=
    (default (tp_successful_trades profile) successful
     + default (tp_failed_trades profile) failed)%Z in
  let reliability :=
    if (0 <? total_trades)%Z
    then Some (inject_Z (default (tp_successful_trades profile) successful)
               / inject_Z total_trades)
    else None in
  update_trader_profile trader_id
    {| tu_username := None;
       tu_successful_trades := successful;
       tu_failed_trades := failed;
       tu_reliability := reliability;
       tu_data := None |}.

Definition clear_caches : M World unit :=
  modify (set_semantic_memory {| trader_cache := ∅; market_cache := ∅ |}).

End Semantic.

(* ===================================================================== *)
(** * Notions used to state the properties *)
(* ===================================================================== *)

Module Notions.

Import Store State.
Local Open Scope Q_scope.

(** The row [store_pattern] writes over an existing one. *)
Definition observed (existing : ActionPattern) (success : bool)
  : ActionPattern :=
  let sc := (ap_success_count existing + (if success then 1 else 0))%Z in
  let fc := (ap_failure_count existing + (if success then 0 else 1))%Z in
  {| ap_id := ap_id existing;
     ap_pattern_type := ap_pattern_type existing;
     ap_pattern_key := ap_pattern_key existing;
     ap_success_count := sc;
     ap_failure_count := fc;
     ap_effectiveness := inject_Z sc / inject_Z (sc + fc);
     ap_data :=
       Some (dict_update (data_of (ap_data existing))
               [("pattern_data",
                 default (PDict [])
                   (dict_get "pattern_data" (data_of (ap_data existing))))])
  |}.

(** The row the strategy-feedback path writes over an existing one. *)
Definition rated (self : FeedbackProcessor) (existing : ActionPattern)
    (value : Q) : ActionPattern :=
  {| ap_id := ap_id existing;
     ap_pattern_type := ap_pattern_type existing;
     ap_pattern_key := ap_pattern_key existing;
     ap_success_count :=
       if Qlt_le_dec (positive_threshold self) value
       then (ap_success_count existing + 1)%Z
       else ap_success_count existing;
     ap_failure_count :=
       if Qlt_le_dec (positive_threshold self) value
       then ap_failure_count existing
       else if Qlt_le_dec value (negative_threshold self)
            then (ap_failure_count existing + 1)%Z
            else ap_failure_count existing;
     ap_effectiveness :=
       Feedback.clamp01
         (ap_effectiveness existing * feedback_decay self
          + value * (1 - feedback_decay self));
     ap_data := ap_data existing |}.

(** [effectiveness == success_count / (success_count + failure_count)],
    which is only meaningful for a record with an observation. *)
Definition consistent (r : ActionPattern) : Prop :=
  (0 < ap_success_count r + ap_failure_count r)%Z /\
  ap_effectiveness r ==
    inject_Z (ap_success_count r)
    / inject_Z (ap_success_count r + ap_failure_count r).

(** The stored record of a pattern key. *)
Definition stored_pattern (w : World) (pattern_type pattern_key : string)
  : option ActionPattern :=
  List.find (matches pattern_type pattern_key) (action_patterns (db w)).

(** A sequence of [store_pattern] calls on one payload, one call per
    observed outcome, whatever each call returns. *)
Fixpoint store_all (rt : Runtime) (pattern_type : string)
    (pattern_data : pyval) (observations : list bool) (w : World) : World :=
  match observations with
  | [] => w
  | success :: rest =>
      store_all rt pattern_type pattern_data rest
        (snd (Procedural.store_pattern rt pattern_type pattern_data success w))
  end.

(** How many observations are successes, how many are failures. *)
Definition successes (observations : list bool) : Z :=
  Z.of_nat (length (List.filter (fun b => b) observations)).
Definition failures (observations : list bool) : Z :=
  Z.of_nat (length (List.filter negb observations)).

(** The feedback history a record's data holds (none is empty). *)
Definition history_of (data : pydict) : list pyval :=
  match dict_get "feedback_history" data with
  | Some (PList l) => l
  | _ => []
  end.

Definition market_history (w : World) (symbol : string) : list pyval :=
  match market_knowledge (db w) !! symbol with
  | Some k => history_of (data_of (mk_data k))
  | None => []
  end.

Definition trader_history (w : World) (trader_id : string) : list pyval :=
  match trader_profiles (db w) !! trader_id with
  | Some p => history_of (data_of (tp_data p))
  | None => []
  end.

(** [l[-100:]] when [l] has more than 100 entries, else [l]. *)
Definition capped (l : list pyval) : list pyval :=
  if (Feedback.history_cap <? Z.of_nat (length l))%Z
  then slice_last Feedback.history_cap l else l.

(** What a call may do to the market table: nothing, or write one record
    whose feedback history is the previous one with one entry appended,
    capped. *)
Definition market_step (w w' : World) : Prop :=
  market_knowledge (db w') = market_knowledge (db w) \/
  exists symbol k' entry,
    market_knowledge (db w') = <[symbol := k']> (market_knowledge (db w)) /\
    dict_get "feedback_history" (data_of (mk_data k'))
      = Some (PList (capped (market_history w symbol ++ [entry])%list)).

Definition trader_step (w w' : World) : Prop :=
  trader_profiles (db w') = trader_profiles (db w) \/
  exists trader_id p' entry,
    trader_profiles (db w') = <[trader_id := p']> (trader_profiles (db w)) /\
    dict_get "feedback_history" (data_of (tp_data p'))
      = Some (PList (capped (trader_history w trader_id ++ [entry])%list)).

(** A sequence of [update_q_value] calls. *)
Definition run_updates (rt : Runtime) (calls : list Reinforcement.QUpdate)
    (self : Reinforcement.ReinforcementLearning)
  : Reinforcement.ReinforcementLearning :=
  fold_left (Reinforcement.apply_update rt) calls self.

(** The Q-value [select_action] reads for a candidate. *)
Definition q_of (rt : Runtime) (self : Reinforcement.ReinforcementLearning)
    (state action : pyval) : Q :=
  default 0%Q
    (Reinforcement.q_values self !!
       Reinforcement._get_state_action_key
         (Reinforcement._get_state_key rt state)
         (Reinforcement._get_action_key rt action)).

(** Two values that are equal as Python values up to the order in which
    their dicts (at any depth) list their items.  A dict's keys are
    pairwise distinct. *)
Inductive reordered : pyval -> pyval -> Prop :=
| reordered_same (v : pyval) : reordered v v
| reordered_list (l1 l2 : list pyval) :
    Forall2 reordered l1 l2 -> reordered (PList l1) (PList l2)
| reordered_dict (d1 d1' d2 : pydict) :
    NoDup (keys d1) ->
    Forall2 (fun a b => fst a = fst b /\ reordered (snd a) (snd b)) d1 d1' ->
    Permutation d1' d2 ->
    reordered (PDict d1) (PDict d2).

(** The order [sorted] puts rendered items in: by key. *)
Definition key_lt (x y : string * string) : Prop :=
  String_as_OT.lt (fst x) (fst y).

(** One turn handed to [WorkingMemory.update]: input, response, result and
    the timestamp the clock gives it. *)
Record Turn : Type := {
  t_input : pyval;
  t_response : pyval;
  t_result : pyval;
  t_timestamp : string
}.

Definition interaction_of (t : Turn) : Working.Interaction :=
  {| Working.i_input := t_input t; Working.i_response := t_response t;
     Working.i_result := t_result t; Working.i_timestamp := t_timestamp t |}.

(** A sequence of [update] calls. *)
Definition record_all (turns : list Turn) (self : Working.WorkingMemory)
  : Working.WorkingMemory :=
  fold_left
    (fun m t =>
       Working.update m (t_input t) (t_response t) (t_result t)
                      (t_timestamp t))
    turns self.

(** A computation leaves the observation [f] of the world as it was,
    whether it returns or raises. *)
Definition preserves {A B} (f : World -> B) (c : M World A) : Prop :=
  forall w, f (snd (c w)) = f w.

(** Observations that do not depend on the id and clock sources, or on
    one table of the database. *)
Definition env_free {B} (f : World -> B) : Prop :=
  forall e w, f (set_env e w) = f w.
Definition markets_free {B} (f : World -> B) : Prop :=
  forall m w, f (set_db (set_market_knowledge m (db w)) w) = f w.
Definition traders_free {B} (f : World -> B) : Prop :=
  forall m w, f (set_db (set_trader_profiles m (db w)) w) = f w.
Definition patterns_free {B} (f : World -> B) : Prop :=
  forall l w, f (set_db (set_action_patterns l (db w)) w) = f w.

(** A feedback value the normalisation accepts: a string or a number. *)
Definition accepted (v : pyval) : bool :=
  match v with
  | PStr _ | PInt _ | PFloat _ | PBool _ => true
  | _ => false
  end.

(** A number, as [float(...)] and arithmetic take it. *)
Definition numeric (v : pyval) : bool :=
  match v with
  | PInt _ | PFloat _ | PBool _ => true
  | _ => false
  end.

(** The in-memory feedback history. *)
Definition in_memory_history (w : World) : list pydict :=
  feedback_history (feedback_processor w).

(** The number a numeric value stands for. *)
Definition number_of (v : pyval) : Q :=
  match v with
  | PInt z => inject_Z z
  | PFloat q => q
  | PBool b => if b then 1 else 0
  | _ => 0
  end.

(** A record's JSON data the model updates can work on: the reliability
    is a number or absent, the feedback history a list or absent. *)
Definition well_formed (record_data : pydict) : bool :=
  (numeric (default (PFloat (1 # 2)) (dict_get "reliability" record_data))
   && match dict_get "feedback_history" record_data with
      | Some (PList _) | None => true
      | Some _ => false
      end)%bool.

(** The JSON data of the stored record of a symbol or a trader (the empty
    dict when there is no record). *)
Definition market_data (w : World) (symbol : string) : pydict :=
  match market_knowledge (db w) !! symbol with
  | Some k => data_of (mk_data k)
  | None => []
  end.

Definition trader_data (w : World) (trader_id : string) : pydict :=
  match trader_profiles (db w) !! trader_id with
  | Some p => data_of (tp_data p)
  | None => []
  end.

(** [data.get("reliability", 0.5)] as a number. *)
Definition reliability_of (record_data : pydict) : Q :=
  number_of (default (PFloat (1 # 2)) (dict_get "reliability" record_data)).

(** The entry a model update appends to a feedback history. *)
Definition feedback_entry (value : Q) (timestamp : string) (data : pydict)
  : pyval :=
  PDict [ ("value", PFloat value);
          ("timestamp", PStr timestamp);
          ("source", default (PStr "unknown") (dict_get "source" data)) ].

(** Every stored feedback history, of a market or of a trader, holds at
    most 100 entries. *)
Definition capped_store (w : World) : Prop :=
  (forall symbol, (length (market_history w symbol) <= 100)%nat) /\
  (forall trader_id, (length (trader_history w trader_id) <= 100)%nat).

(** The two tables that hold feedback histories. *)
Definition tables (w : World)
  : gmap string MarketKnowledge * gmap string TraderProfile :=
  (market_knowledge (db w), trader_profiles (db w)).

(** A computation keeps the invariant [P] of the world, whether it
    returns or raises. *)
Definition maintains {A} (P : World -> Prop) (c : M World A) : Prop :=
  forall w, P w -> P (snd (c w)).

(** What the feedback processor is asked to handle, and a run of it over
    a sequence of such events, whatever each call returns. *)
Inductive Event : Type :=
| OfUser (feedback_data : pydict)
| OfTrade (trade_data : pydict).

Definition handle (w : World) (e : Event) : World :=
  match e with
  | OfUser feedback_data =>
      snd (Feedback.process_user_feedback feedback_data w)
  | OfTrade trade_data =>
      snd (Feedback.process_trade_outcome trade_data w)
  end.

Definition replay (events : list Event) (w : World) : World :=
  fold_left handle events w.

(** An event the processor works through: a user feedback whose value
    is a string or a number, a trade outcome whose label is a string and
    whose profit_loss is a number. *)
Definition processable (e : Event) : bool :=
  match e with
  | OfUser feedback_data =>
      accepted (default (PFloat 0) (dict_get "value" feedback_data))
  | OfTrade trade_data =>
      match default (PStr "unknown") (dict_get "outcome" trade_data) with
      | PStr _ =>
          numeric (default (PFloat 0) (dict_get "profit_loss" trade_data))
      | _ => false
      end
  end.

(** The source a record of the history names for an event. *)
Definition source_of (e : Event) : string :=
  match e with
  | OfUser _ => "user"
  | OfTrade _ => "system"
  end.

(** Rows in decreasing order of effectiveness. *)
Definition at_least_as_effective (a b : ActionPattern) : Prop :=
  (ap_effectiveness b <= ap_effectiveness a)%Q.

Definition descending (l : list ActionPattern) : Prop :=
  StronglySorted at_least_as_effective l.

(** A row the query of [get_most_effective_patterns] is about: of the
    given type and at least as effective as the threshold. *)
Definition eligible (w : World) (pattern_type : string) (min_effectiveness : Q)
    (r : ActionPattern) : Prop :=
  In r (action_patterns (db w)) /\
  ap_pattern_type r = pattern_type /\
  (min_effectiveness <= ap_effectiveness r)%Q.

(** A sequence of [update_trader_reliability] calls for one trader, one
    per reported outcome, whatever each call returns. *)
Definition report_all (trader_id : string) (outcomes : list pyval) (w : World)
  : World :=
  fold_left
    (fun w outcome =>
       snd (Semantic.update_trader_reliability trader_id outcome w))
    outcomes w.

(** How many of the reported outcomes carry a given label. *)
Definition reported (label : string) (outcomes : list pyval) : Z :=
  Z.of_nat (length (List.filter (Feedback.is_str label) outcomes)).

(** The semantic cache agrees with the trader table on a trader: what is
    cached for the trader is the stored profile. *)
Definition coherent (w : World) (trader_id : string) : Prop :=
  forall p,
    trader_cache (semantic_memory w) !! trader_id = Some p ->
    trader_profiles (db w) !! trader_id = Some p.

(** The counters of the stored profile of a trader (0 and 0 when there is
    none). *)
Definition trades_of (w : World) (trader_id : string) : Z * Z :=
  match trader_profiles (db w) !! trader_id with
  | Some p => (tp_successful_trades p, tp_failed_trades p)
  | None => (0, 0)%Z
  end.

(** A row [get_relevant_patterns] is about: stored, of one of the pattern
    types of the context, with an effectiveness of at least 0.6. *)
Definition relevant (w : World) (pattern_types : list string)
    (r : ActionPattern) : Prop :=
  exists pattern_type,
    In pattern_type pattern_types /\ eligible w pattern_type (6 # 10) r.

(** [x <= effectiveness], as a test. *)
Definition reaches (x : Q) (p : ActionPattern) : bool :=
  if Qlt_le_dec (ap_effectiveness p) x then false else true.

(** The values [a, a + d, a + 2d, ...], [n] of them. *)
Definition progression (a d : Q) (n : nat) : list Q :=
  map (fun i => a + d * inject_Z (Z.of_nat i))%Q (seq 0 n).




(** The two tables of the engine are objects of the store. *)
Definition allocated (st : Persistence.Store) (self : Persistence.Engine)
  : Prop :=
  (Persistence.q_values self < Persistence.next_addr st)%nat /\
  (Persistence.state_transitions self < Persistence.next_addr st)%nat.

End Notions.
Import Notions.

(* ===================================================================== *)
(** * Concrete inputs used by the scenarios and examples *)
(* ===================================================================== *)

Module Scenarios.

Local Open Scope Q_scope.

Definition sample_engine : Reinforcement.ReinforcementLearning :=
  Reinforcement.__init__ Reinforcement.default_config.

Definition sample_calls : list Reinforcement.QUpdate :=
  [ {| Reinforcement.qu_state := PStr "s1";
       Reinforcement.qu_action := PStr "a1";
       Reinforcement.qu_reward := 1;
       Reinforcement.qu_next_state := PStr "s2" |};
    {| Reinforcement.qu_state := PStr "s2";
       Reinforcement.qu_action := PStr "a2";
       Reinforcement.qu_reward := -1 # 2;
       Reinforcement.qu_next_state := PStr "s1" |} ].

(** The six outcomes of scenario C. *)
Definition scenario_outcomes : list Performance.TradeOutcome :=
  [ {| Performance.o_outcome := Some "success";
       Performance.o_profit_loss := Some 50 |};
    {| Performance.o_outcome := Some "success";
       Performance.o_profit_loss := Some 30 |};
    {| Performance.o_outcome := Some "failure";
       Performance.o_profit_loss := Some (-20) |};
    {| Performance.o_outcome := Some "success";
       Performance.o_profit_loss := Some 40 |};
    {| Performance.o_outcome := Some "failure";
       Performance.o_profit_loss := Some (-10) |};
    {| Performance.o_outcome := Some "unknown";
       Performance.o_profit_loss := Some 0 |} ].

Definition sample_env : Env :=
  {| uuid_of := fun n => "uuid-" ++ int_repr (Z.of_nat n);
     now_of := fun n => "2024-01-01T00:00:0" ++ int_repr (Z.of_nat n);
     uuid_next := 0; clock_next := 0 |}.

(** A tracker with the default configuration whose collaborator answers
    every time frame with the outcomes of scenario C. *)
Definition perf_world : Performance.World :=
  {| Performance.tracker :=
       {| Performance.metrics_window_size := 100;
          Performance.min_sample_size := 5;
          Performance.confidence_threshold := 6 # 10;
          Performance.report_frequency := 24;
          Performance.metrics_history := [];
          Performance.last_report_time := None |};
     Performance.db :=
       {| Performance.get_trade_outcomes := fun _ => Ok scenario_outcomes;
          Performance.store_metrics_fails := false;
          Performance.stored_metrics := [] |};
     Performance.env := sample_env |}.

(** A freshly started process: empty tables, empty caches, the default
    configuration of every component, every collaborator healthy. *)
Definition initial_world : State.World :=
  {| State.db := Store.empty_db;
     State.env := sample_env;
     State.services :=
       {| State.embedding_fails := false; State.index_fails := false;
          State.embed := fun _ => []; State.score := fun _ _ => 0;
          State.vectors := [] |};
     State.config :=
       {| State.max_episodic_memories := 5;
          State.max_procedural_patterns := 3 |};
     State.working_memory := Working.__init__ 5;
     State.semantic_memory :=
       {| State.trader_cache := ∅; State.market_cache := ∅ |};
     State.procedural_memory := {| State.pattern_cache := ∅ |};
     State.feedback_processor :=
       {| State.positive_threshold := 7 # 10;
          State.negative_threshold := 3 # 10;
          State.feedback_weight := 8 # 10;
          State.outcome_weight := 6 # 10;
          State.feedback_decay := 9 # 10;
          State.feedback_history := [] |};
     State.pattern_recognition :=
       {| State.min_pattern_occurrences := 5;
          State.min_pattern_confidence := 7 # 10;
          State.max_patterns_per_type := 10;
          State.pattern_similarity_threshold := 8 # 10;
          State.detected_cache := [] |} |}.

(** A tool-usage payload and the strategy feedback that rates it. *)
Definition tool_payload : pyval :=
  PDict [("tool", PStr "quote"); ("parameters", PDict [])].

Definition strategy_feedback (value : Q) : pydict :=
  [ ("type", PStr "strategy");
    ("pattern_type", PStr "tool_usage");
    ("pattern_key",
     PStr (Procedural._generate_pattern_key Reference.runtime tool_payload));
    ("value", PFloat value) ].

Definition tool_key : string :=
  Procedural._generate_pattern_key Reference.runtime tool_payload.

(** The process after the first observation of [tool_payload] created its
    record, and that record. *)
Definition seeded_world : State.World :=
  store_all Reference.runtime "tool_usage" tool_payload [true] initial_world.

Definition seeded_record : Store.ActionPattern :=
  {| Store.ap_id := "uuid-0";
     Store.ap_pattern_type := "tool_usage";
     Store.ap_pattern_key := tool_key;
     Store.ap_success_count := 0;
     Store.ap_failure_count := 0;
     Store.ap_effectiveness := 1 # 2;
     Store.ap_data := Some (Procedural.seed tool_payload true) |}.

(** The same order payload written with two key orders, also inside the
    nested dict. *)
Definition order_payload : pydict :=
  [ ("symbol", PStr "AAPL"); ("action", PStr "buy");
    ("limits", PDict [("low", PInt 1); ("high", PInt 2)]) ].

Definition order_payload_permuted : pydict :=
  [ ("action", PStr "buy");
    ("limits", PDict [("high", PInt 2); ("low", PInt 1)]);
    ("symbol", PStr "AAPL") ].

(** Three turns of a conversation. *)
Definition sample_turns : list Turn :=
  [ {| t_input := PStr "one"; t_response := PStr "r1"; t_result := PNone;
       t_timestamp := "t1" |};
    {| t_input := PStr "two"; t_response := PStr "r2"; t_result := PNone;
       t_timestamp := "t2" |};
    {| t_input := PStr "three"; t_response := PStr "r3"; t_result := PNone;
       t_timestamp := "t3" |} ].

(** The tracker of [perf_world] with another window, and with a metrics
    store that fails. *)
Definition perf_world_with (window : Z) (store_fails : bool)
  : Performance.World :=
  {| Performance.tracker :=
       {| Performance.metrics_window_size := window;
          Performance.min_sample_size := 5;
          Performance.confidence_threshold := 6 # 10;
          Performance.report_frequency := 24;
          Performance.metrics_history := [];
          Performance.last_report_time := None |};
     Performance.db :=
       {| Performance.get_trade_outcomes := fun _ => Ok scenario_outcomes;
          Performance.store_metrics_fails := store_fails;
          Performance.stored_metrics := [] |};
     Performance.env := sample_env |}.

(** The same tracker while the collaborator cannot be reached. *)
Definition perf_world_offline : Performance.World :=
  {| Performance.tracker := Performance.tracker perf_world;
     Performance.db :=
       {| Performance.get_trade_outcomes :=
            fun _ => Raise (CollaboratorError "database");
          Performance.store_metrics_fails := true;
          Performance.stored_metrics := [] |};
     Performance.env := sample_env |}.

(** The process of [initial_world] while no table of the database can be
    reached. *)
Definition offline_world : State.World :=
  State.set_db (Store.set_failing (fun _ => true) Store.empty_db)
    initial_world.

(** A thumbs-up on a trade signal, and a trade that was closed at a loss
    although it was filed as a success. *)
Definition signal_feedback : pydict :=
  [ ("type", PStr "trade_signal"); ("value", PStr "Good");
    ("symbol", PStr "AAPL") ].

Definition losing_success : pydict :=
  [ ("symbol", PStr "AAPL"); ("action", PStr "buy");
    ("outcome", PStr "Success"); ("profit_loss", PInt (-250)) ].

(** A thumbs-down on a trader. *)
Definition trader_feedback : pydict :=
  [ ("type", PStr "trader_reliability"); ("value", PFloat (-1));
    ("trader_id", PStr "t-17") ].

(** A process whose pattern table holds one tool-usage record, which is
    also cached, and three general ones. *)
Definition plain_record : Store.ActionPattern :=
  {| Store.ap_id := "p-1"; Store.ap_pattern_type := "tool_usage";
     Store.ap_pattern_key := "k1"; Store.ap_success_count := 3;
     Store.ap_failure_count := 1; Store.ap_effectiveness := 3 # 4;
     Store.ap_data := None |}.

Definition general_record (id : string) (effectiveness : Q)
  : Store.ActionPattern :=
  {| Store.ap_id := id; Store.ap_pattern_type := "general";
     Store.ap_pattern_key := id; Store.ap_success_count := 0;
     Store.ap_failure_count := 0; Store.ap_effectiveness := effectiveness;
     Store.ap_data := None |}.

Definition patterns_world : State.World :=
  State.set_procedural_memory
    {| State.pattern_cache :=
         {[ Procedural.cache_key "tool_usage" "k1" := plain_record ]} |}
    (State.set_db
       (Store.set_action_patterns
          [ plain_record; general_record "g-1" (9 # 10);
            general_record "g-2" (4 # 10); general_record "g-3" (7 # 10) ]
          Store.empty_db)
       initial_world).

Definition rating (value : Q) : pydict :=
  [ ("type", PStr "strategy"); ("pattern_type", PStr "tool_usage");
    ("pattern_key", PStr "k1"); ("value", PFloat value) ].

(** The record the first observation (a failure) of the payload
    [PStr name] creates in [initial_world], and the process after it. *)
Definition observed_first (name : string) : Store.ActionPattern :=
  {| Store.ap_id := "uuid-0"; Store.ap_pattern_type := "tool_usage";
     Store.ap_pattern_key :=
       Procedural._generate_pattern_key Reference.runtime (PStr name);
     Store.ap_success_count := 0; Store.ap_failure_count := 0;
     Store.ap_effectiveness := 1 # 2;
     Store.ap_data := Some (Procedural.seed (PStr name) false) |}.

Definition first_world (name : string) : State.World :=
  store_all Reference.runtime "tool_usage" (PStr name) [false] initial_world.

(** Four reports about one trader: two wins, one loss and a label the
    semantic tier does not know. *)
Definition trader_reports : list pyval :=
  [PStr "success"; PStr "failure"; PStr "success"; PStr "void"].

(** A process that knows one trader. *)
Definition known_trader : Store.TraderProfile :=
  {| Store.tp_id := "tp-1"; Store.tp_trader_id := "t-17";
     Store.tp_username := None; Store.tp_successful_trades := 4;
     Store.tp_failed_trades := 1; Store.tp_reliability := 4 # 5;
     Store.tp_data := Some [("notes", PStr "steady")] |}.

Definition trader_world : State.World :=
  State.set_db
    (Store.set_trader_profiles {[ "t-17" := known_trader ]} Store.empty_db)
    initial_world.

Definition one_more_win : Store.TraderUpdate :=
  {| Store.tu_username := None; Store.tu_successful_trades := Some 5%Z;
     Store.tu_failed_trades := None; Store.tu_reliability := Some (5 # 6);
     Store.tu_data := Some [("notes", PStr "improving")] |}.


(** The default configuration with a decay factor above 1, which
    config.py accepts. *)
Definition growing_config : Reinforcement.ReinforcementLearningConfig :=
  {| Reinforcement.cfg_learning_rate := 1 # 10;
     Reinforcement.cfg_discount_factor := 9 # 10;
     Reinforcement.cfg_exploration_rate := 2 # 10;
     Reinforcement.cfg_min_exploration_rate := 1 # 100;
     Reinforcement.cfg_exploration_decay := 3 # 2;
     Reinforcement.cfg_reward_scale := 1 |}.

(** An engine that has made one update, and the store it lives in. *)
Definition trained : Persistence.Engine * Persistence.Store :=
  let (self, st) :=
    Persistence.__init__ Reinforcement.default_config
      Persistence.empty_store in
  let after :=
    Persistence.update_q_value Reference.runtime self
      (PStr "s1") (PStr "a1") 1 (PStr "s2") st in
  (snd (fst after), snd after).

(** A second engine created in the same store. *)
Definition newcomer : Persistence.Engine * Persistence.Store :=
  Persistence.__init__ Reinforcement.default_config (snd trained).

End Scenarios.
Import Scenarios.

(* ===================================================================== *)
(** * Properties *)
(* ===================================================================== *)

(** ** Helper lemmas on the Python layer *)

Section PyFacts.

Local Open Scope Q_scope.



Lemma fmax_ge_l (a b : Q) : a <= fmax a b.
Proof. unfold fmax. destruct (Qlt_le_dec a b); lra. Qed.








Lemma dict_get_set_eq {A} (k : string) (v : A) (d : list (string * A)) :
  dict_get k (dict_set k v d) = Some v.
Proof.
  induction d as [|[k' v'] d IH]; simpl.
  - now rewrite String.eqb_refl.
  - destruct (String.eqb k k') eqn:E; simpl.
    + now rewrite String.eqb_refl.
    + now rewrite E.
Qed.

Lemma dict_get_set_ne {A} (k k' : string) (v : A) (d : list (string * A)) :
  k <> k' -> dict_get k (dict_set k' v d) = dict_get k d.
Proof.
  intros Hne. induction d as [|[k0 v0] d IH]; simpl.
  - apply String.eqb_neq in Hne. now rewrite Hne.
  - destruct (String.eqb k' k0) eqn:E; simpl.
    + apply String.eqb_eq in E. subst k0.
      apply String.eqb_neq in Hne. now rewrite Hne.
    + destruct (String.eqb k k0); auto.
Qed.

Lemma dict_get_None {A} (k : string) (d : list (string * A)) :
  dict_get k d = None <-> ~ In k (keys d).
Proof.
  induction d as [|[k' v'] d IH]; simpl; [tauto|].
  destruct (String.eqb_spec k k') as [->|Hne].
  - split; [discriminate | intros H; exfalso; apply H; now left].
  - rewrite IH. split; [intros H [E|H']; congruence | tauto].
Qed.

Lemma keys_dict_set {A} (k : string) (v : A) (d : list (string * A)) :
  keys (dict_set k v d)
  = if dict_mem k d then keys d else (keys d ++ [k])%list.
Proof.
  unfold dict_mem. induction d as [|[k' v'] d IH]; simpl; [reflexivity|].
  destruct (String.eqb_spec k k') as [->|Hne]; simpl; [reflexivity|].
  rewrite IH. destruct (dict_get k d); reflexivity.
Qed.

Lemma NoDup_dict_set {A} (k : string) (v : A) (d : list (string * A)) :
  NoDup (keys d) -> NoDup (keys (dict_set k v d)).
Proof.
  intros Hd. rewrite keys_dict_set. unfold dict_mem.
  destruct (dict_get k d) eqn:E; [assumption|].
  apply dict_get_None in E.
  apply NoDup_app. split; [assumption|]. split.
  - intros x Hx Hx'. apply list_elem_of_In in Hx. apply list_elem_of_In in Hx'.
    destruct Hx' as [<-|[]]. contradiction.
  - constructor; [intros H; inversion H | constructor].
Qed.

Lemma NoDup_dict_update {A} (d u : list (string * A)) :
  NoDup (keys d) -> NoDup (keys (dict_update d u)).
Proof.
  unfold dict_update. revert d.
  induction u as [|[k v] u IH]; intros d Hd; simpl; [assumption|].
  apply IH. now apply NoDup_dict_set.
Qed.

Lemma NoDup_loads {A} (items : list (string * A)) : NoDup (keys (loads items)).
Proof. apply NoDup_dict_update. constructor. Qed.

(** [d.update(u)] read back: the keys of [u] win. *)
Lemma dict_get_update {A} (k : string) (d u : list (string * A)) :
  NoDup (keys u) ->
  dict_get k (dict_update d u)
  = match dict_get k u with Some v => Some v | None => dict_get k d end.
Proof.
  unfold dict_update. revert d.
  induction u as [|[k' v'] u IH]; intros d Hu; simpl; [reflexivity|].
  inversion Hu as [|? ? Hnotin Hu']; subst.
  rewrite (IH _ Hu').
  destruct (String.eqb_spec k k') as [->|Hne].
  - assert (E : dict_get k' u = None).
    { apply dict_get_None. intros H. apply Hnotin. now apply list_elem_of_In. }
    rewrite E. apply dict_get_set_eq.
  - destruct (dict_get k u); [reflexivity|]. now apply dict_get_set_ne.
Qed.

Lemma dict_update_fresh {A} (d u : list (string * A)) :
  NoDup (keys (d ++ u)) -> dict_update d u = (d ++ u)%list.
Proof.
  unfold dict_update. revert d.
  induction u as [|[k v] u IH]; intros d Hd; simpl.
  - now rewrite app_nil_r.
  - assert (Hset : dict_set k v d = (d ++ [(k, v)])%list).
    { assert (Hk : ~ In k (keys d)).
      { unfold keys in Hd. rewrite map_app in Hd.
        apply NoDup_app in Hd as (_ & Hdisj & _).
        intros H. apply (Hdisj k); [now apply list_elem_of_In|].
        apply list_elem_of_In. now left. }
      clear -Hk. induction d as [|[k' v'] d IH]; simpl; [reflexivity|].
      simpl in Hk. destruct (String.eqb_spec k k') as [->|Hne]; [tauto|].
      rewrite IH; [reflexivity | tauto]. }
    rewrite Hset. rewrite IH; rewrite <- app_assoc; [reflexivity|exact Hd].
Qed.

(** Reading back what [json.dumps] wrote for a dict gives the dict. *)
Lemma loads_id {A} (d : list (string * A)) : NoDup (keys d) -> loads d = d.
Proof. intros Hd. unfold loads. now rewrite dict_update_fresh. Qed.

Lemma slice_last_length {A} (n : Z) (l : list A) :
  (0 < n)%Z -> (Z.of_nat (length (slice_last n l)) <= n)%Z.
Proof.
  intros Hn. unfold slice_last.
  destruct (Z.ltb_spec 0 n); [|lia]. rewrite length_skipn. lia.
Qed.

Lemma slice_last_suffix {A} (n : Z) (l : list A) :
  exists dropped, l = (dropped ++ slice_last n l)%list.
Proof.
  unfold slice_last. destruct (0 <? n)%Z.
  - exists (firstn (length l - Z.to_nat n) l). now rewrite firstn_skipn.
  - exists (firstn (Z.to_nat (- n)) l). now rewrite firstn_skipn.
Qed.

End PyFacts.

(** ** Reinforcement engine *)

Section ReinforcementFacts.

Import Reinforcement.
Local Open Scope Q_scope.

Context (rt : Runtime).




Lemma fmax_floor (lo x : Q) : lo <= fmax lo x.
Proof. apply fmax_ge_l. Qed.

(** One update never leaves the rate below the floor, and under a sane
    configuration it does not raise a rate that was at or above it. *)
Lemma exploration_step (self : ReinforcementLearning) (c : QUpdate) :
  min_exploration_rate self <= exploration_rate (apply_update rt self c) /\
  (0 <= min_exploration_rate self ->
   exploration_decay self <= 1 ->
   min_exploration_rate self <= exploration_rate self ->
   exploration_rate (apply_update rt self c) <= exploration_rate self).
Proof.
  unfold apply_update, update_q_value; simpl. split.
  - apply fmax_ge_l.
  - intros Hmin Hdec Hge. unfold fmax.
    destruct (Qlt_le_dec _ _) as [Hlt|Hle]; [|assumption].
    assert (0 <= exploration_rate self) by lra.
    nra.
Qed.

Lemma apply_update_params (self : ReinforcementLearning) (c : QUpdate) :
  min_exploration_rate (apply_update rt self c) = min_exploration_rate self /\
  exploration_decay (apply_update rt self c) = exploration_decay self.
Proof. split; reflexivity. Qed.

End ReinforcementFacts.

Section ReinforcementKeys.

Import Reinforcement.
Local Open Scope Q_scope.

Context (rt : Runtime).













End ReinforcementKeys.

Section ReinforcementClaims.

Import Reinforcement.
Local Open Scope Q_scope.

Context (rt : Runtime).

Lemma exploration_trace_floor (self : ReinforcementLearning)
    (calls : list QUpdate) :
  Forall (fun r => min_exploration_rate self <= r)
         (exploration_trace rt self calls).
Proof.
  revert self. induction calls as [|c cs IH]; intros self;
    cbn [exploration_trace].
  - constructor.
  - constructor; [apply (proj1 (exploration_step rt self c))|].
    specialize (IH (apply_update rt self c)).
    now rewrite (proj1 (apply_update_params rt self c)) in IH.
Qed.

Lemma exploration_trace_head (self : ReinforcementLearning)
    (calls : list QUpdate) (r : Q) :
  0 <= min_exploration_rate self ->
  exploration_decay self <= 1 ->
  min_exploration_rate self <= exploration_rate self ->
  head (exploration_trace rt self calls) = Some r ->
  r <= exploration_rate self.
Proof.
  intros Hmin Hdec Hge.
  destruct calls as [|c cs]; cbn [exploration_trace head]; [discriminate|].
  intros [= <-]. now apply (proj2 (exploration_step rt self c)).
Qed.

(** C8: across any sequence of [update_q_value] calls the exploration
    rate observed after each update never drops below
    [min_exploration_rate]; when the floor is non-negative and the decay
    factor is at most 1 (neither is checked by the configuration), the
    rate does not increase from one update to the next, and the first
    update does not raise it either when the engine starts at or above
    the floor. *)
Theorem exploration_rate_non_increasing (self : ReinforcementLearning)
    (calls : list QUpdate) :
  let trace := exploration_trace rt self calls in
  Forall (fun r => min_exploration_rate self <= r) trace /\
  (0 <= min_exploration_rate self ->
   exploration_decay self <= 1 ->
   (forall i r1 r2,
       nth_error trace i = Some r1 -> nth_error trace (S i) = Some r2 ->
       r2 <= r1) /\
   (min_exploration_rate self <= exploration_rate self ->
    forall r, head trace = Some r -> r <= exploration_rate self)).
Proof.
  intros trace. split; [apply exploration_trace_floor|].
  intros Hmin Hdec. split.
  - subst trace. revert self Hmin Hdec.
    induction calls as [|c cs IH]; intros self Hmin Hdec i r1 r2;
      cbn [exploration_trace]; [destruct i; discriminate|].
    destruct (apply_update_params rt self c) as [Hm Hd].
    destruct i as [|i]; cbn [nth_error].
    + intros [= <-] H2.
      apply (exploration_trace_head (apply_update rt self c) cs r2).
      * now rewrite Hm.
      * now rewrite Hd.
      * rewrite Hm. apply (proj1 (exploration_step rt self c)).
      * destruct (exploration_trace rt (apply_update rt self c) cs);
          cbn [head nth_error] in *; congruence.
    + apply IH; [now rewrite Hm | now rewrite Hd].
  - intros Hge r. now apply exploration_trace_head.
Qed.


Lemma insert_desc_in (x y : pyval * Q) (l : list (pyval * Q)) :
  In y (insert_desc x l) <-> y = x \/ In y l.
Proof.
  induction l as [|z l IH]; simpl; [intuition|].
  destruct (Qlt_le_dec (snd x) (snd z)); simpl; rewrite ?IH; intuition.
Qed.

Lemma sort_desc_in (y : pyval * Q) (l : list (pyval * Q)) :
  In y (sort_desc l) <-> In y l.
Proof.
  induction l as [|z l IH]; simpl; [tauto|].
  rewrite insert_desc_in, IH. intuition.
Qed.

(** C10: with no candidate [select_action] returns [None] and leaves the
    engine, hence its action history, unchanged; with at least one
    candidate it returns one of the candidates and appends exactly one
    entry, recording that action, to the action history. *)
Theorem select_action_total (self : ReinforcementLearning) (u : Q)
    (k : nat) (state : pyval) (possible_actions : list pyval) :
  select_action rt self u k state [] = (None, self) /\
  (possible_actions <> [] ->
   exists a r self',
     select_action rt self u k state possible_actions = (Some a, self') /\
     In a possible_actions /\
     action_history self' = (action_history self ++ [r])%list /\
     ar_action r = a /\
     q_values self' = q_values self /\
     exploration_rate self' = exploration_rate self).
Proof.
  split; [reflexivity|]. intros Hne.
  destruct possible_actions as [|a0 rest]; [congruence|].
  unfold select_action.
  destruct (Qlt_le_dec u (exploration_rate self)) as [Hlt|Hge].
  - eexists _, _, _. split; [reflexivity|]. split; [|repeat split].
    apply nth_In. apply Nat.mod_upper_bound. simpl. lia.
  - set (scored := map _ (a0 :: rest)).
    destruct (sort_desc scored) as [|best tl] eqn:Hs.
    + exfalso.
      assert (Hin : In (a0, default 0
                 (q_values self !!
                    _get_state_action_key (_get_state_key rt state)
                      (_get_action_key rt a0))) (sort_desc scored)).
      { apply sort_desc_in. subst scored. simpl. now left. }
      rewrite Hs in Hin. destruct Hin.
    + eexists _, _, _. split; [reflexivity|]. split; [|repeat split].
      assert (Hin : In best scored).
      { apply sort_desc_in. rewrite Hs. now left. }
      subst scored. apply in_map_iff in Hin as [a [<- Ha]]. exact Ha.
Qed.

End ReinforcementClaims.

Section ReinforcementWitnesses.

Import Reinforcement.
Local Open Scope Q_scope.

Lemma exploration_rate_non_increasing_witness :
  0 <= min_exploration_rate sample_engine /\
  exploration_decay sample_engine <= 1 /\
  min_exploration_rate sample_engine <= exploration_rate sample_engine /\
  Forall (fun r => min_exploration_rate sample_engine <= r)
         (exploration_trace Reference.runtime sample_engine sample_calls) /\
  (forall i r1 r2,
      nth_error (exploration_trace Reference.runtime sample_engine
                   sample_calls) i = Some r1 ->
      nth_error (exploration_trace Reference.runtime sample_engine
                   sample_calls) (S i) = Some r2 ->
      r2 <= r1) /\
  (forall r,
      head (exploration_trace Reference.runtime sample_engine sample_calls)
      = Some r ->
      r <= exploration_rate sample_engine).
Proof.
  assert (H0 : 0 <= min_exploration_rate sample_engine)
    by (vm_compute; discriminate).
  assert (H1 : exploration_decay sample_engine <= 1)
    by (vm_compute; discriminate).
  assert (H2 : min_exploration_rate sample_engine
               <= exploration_rate sample_engine)
    by (vm_compute; discriminate).
  split; [exact H0|]. split; [exact H1|]. split; [exact H2|].
  destruct (exploration_rate_non_increasing Reference.runtime
              sample_engine sample_calls) as [Hfloor Hmono].
  destruct (Hmono H0 H1) as [Hstep Hfirst].
  split; [exact Hfloor|]. split; [exact Hstep|]. exact (Hfirst H2).
Defined.

(** With a decay factor of 1.5 the first two updates take the rate from
    0.2 to 0.3 and then to 0.45: it rises from one update to the next. *)
Lemma exploration_rate_rises :
  exists r1 r2,
    nth_error (exploration_trace Reference.runtime (__init__ growing_config)
                 sample_calls) 0 = Some r1 /\
    nth_error (exploration_trace Reference.runtime (__init__ growing_config)
                 sample_calls) 1 = Some r2 /\
    r1 == 3 # 10 /\ r2 == 9 # 20 /\ r1 < r2.
Proof.
  eexists _, _. split; [reflexivity|]. split; [reflexivity|].
  split; [vm_compute; reflexivity|]. split; vm_compute; reflexivity.
Qed.



Lemma select_action_total_witness :
  exists a r self',
    select_action Reference.runtime sample_engine (1 # 2) 7 (PStr "s1")
      [PStr "a1"; PStr "a2"] = (Some a, self') /\
    In a [PStr "a1"; PStr "a2"] /\
    action_history self' = (action_history sample_engine ++ [r])%list /\
    ar_action r = a /\
    q_values self' = q_values sample_engine /\
    exploration_rate self' = exploration_rate sample_engine.
Proof.
  apply (proj2 (select_action_total Reference.runtime sample_engine
                  (1 # 2) 7 (PStr "s1") [PStr "a1"; PStr "a2"])).
  discriminate.
Defined.

(** Scenario E of the specification: one update takes the default rate
    0.2 to 0.199. *)
Example exploration_decay_scenario :
  map Qred
    (exploration_trace Reference.runtime sample_engine
       (firstn 1 sample_calls))
  = [199 # 1000].
Proof. vm_compute. reflexivity. Qed.

End ReinforcementWitnesses.

(** ** Performance engine *)

Section PerformanceClaims.

Import Performance.
Local Open Scope Q_scope.

Lemma _get_trade_outcomes_total (w : World) (timeframe : string) :
  _get_trade_outcomes timeframe w = (Ok (retrieved w timeframe), w).
Proof.
  unfold _get_trade_outcomes, try_except, db_get_trade_outcomes, retrieved.
  destruct (get_trade_outcomes (db w) timeframe); reflexivity.
Qed.

Lemma true_div_ok (a b : Q) (w : World) :
  ~ b == 0 -> true_div a b w = (Ok (a / b), w).
Proof.
  intros Hb. unfold true_div.
  destruct (Qeq_bool b 0) eqn:E; [|reflexivity].
  apply Qeq_bool_iff in E. contradiction.
Qed.

Lemma inject_Z_nonzero (z : Z) : z <> 0%Z -> ~ inject_Z z == 0.
Proof.
  intros Hz H. apply Hz. unfold Qeq in H. simpl in H. lia.
Qed.

(** C7: when fewer outcomes than [min_sample_size] are retrieved,
    [calculate_metrics] returns the sentinel (insufficient_data with
    total_trades and min_sample_size) and computes, records and persists
    nothing; otherwise, for a non-zero metrics window, it returns full
    metrics with success_rate = successes/total, total_profit the sum of
    the positive P&L, total_loss the sum of the negative P&L and
    net_profit their sum; on the six outcomes of scenario C this gives
    6, 3, 2, 1, 0.5, 120, -30 and 90. *)
Theorem calculate_metrics_spec (w : World) (timeframe : string) :
  let outcomes := retrieved w timeframe in
  let total := Z.of_nat (length outcomes) in
  let self := tracker w in
  ((total < min_sample_size self)%Z ->
   calculate_metrics timeframe w =
     (Ok (InsufficientData timeframe total (min_sample_size self)), w)) /\
  ((min_sample_size self <= total)%Z ->
   metrics_window_size self <> 0%Z ->
   exists m w',
     calculate_metrics timeframe w = (Ok (FullMetrics m), w') /\
     m_total_trades m = total /\
     m_successful_trades m = count_outcome "success" outcomes /\
     m_failed_trades m = count_outcome "failure" outcomes /\
     m_neutral_trades m =
       (total - m_successful_trades m - m_failed_trades m)%Z /\
     ((0 < total)%Z ->
      m_success_rate m ==
        inject_Z (m_successful_trades m) / inject_Z total) /\
     m_total_profit m =
       sum (List.filter positive (map profit_loss outcomes)) /\
     m_total_loss m =
       sum (List.filter negative (map profit_loss outcomes)) /\
     m_net_profit m == m_total_profit m + m_total_loss m /\
     (outcomes = scenario_outcomes ->
      m_total_trades m = 6%Z /\ m_successful_trades m = 3%Z /\
      m_failed_trades m = 2%Z /\ m_neutral_trades m = 1%Z /\
      m_success_rate m == 1 # 2 /\ m_total_profit m == 120 /\
      m_total_loss m == -30 /\ m_net_profit m == 90)).
Proof.
  intros outcomes total self. split.
  - intros Hlt. unfold calculate_metrics, bind.
    rewrite _get_trade_outcomes_total. unfold gets.
    fold outcomes. fold total. fold self.
    destruct (Z.ltb_spec total (min_sample_size self)); [reflexivity|lia].
  - intros Hge Hwin. unfold calculate_metrics, bind.
    rewrite _get_trade_outcomes_total. unfold gets.
    fold outcomes. fold total. fold self.
    destruct (Z.ltb_spec total (min_sample_size self)); [lia|].
    rewrite (true_div_ok _ _ w (inject_Z_nonzero _ Hwin)).
    unfold uuid4, utcnow, modify, ret.
    destruct (take_uuid (env w)) as [u e1] eqn:Hu. cbn [env set_env].
    destruct (take_now e1) as [t e2] eqn:Ht.
    match goal with
    | |- context [_store_metrics ?m ?w0] =>
        destruct (_store_metrics m w0) as [[[]|ex] w1] eqn:Hs
    end.
    + eexists _, _. split; [reflexivity|]. cbn.
      repeat split; try reflexivity.
      * intros Hpos. destruct (Z.ltb_spec 0 total); [reflexivity|lia].
      * subst total. rewrite H0. reflexivity.
      * subst total. rewrite H0. reflexivity.
      * subst total. rewrite H0. reflexivity.
      * subst total. rewrite H0. reflexivity.
      * subst total. rewrite H0. vm_compute. reflexivity.
      * rewrite H0. vm_compute. reflexivity.
      * rewrite H0. vm_compute. reflexivity.
      * rewrite H0. vm_compute. reflexivity.
    + exfalso. unfold _store_metrics, try_except, db_store_metrics, ret in Hs.
      destruct (store_metrics_fails _); discriminate.
Qed.

Lemma calculate_metrics_spec_witness :
  (5 <= 6)%Z /\ (100 <> 0)%Z /\
  exists m w',
    calculate_metrics "all" perf_world = (Ok (FullMetrics m), w') /\
    m_total_trades m = 6%Z /\ m_successful_trades m = 3%Z /\
    m_failed_trades m = 2%Z /\ m_neutral_trades m = 1%Z /\
    m_success_rate m == 1 # 2 /\ m_total_profit m == 120 /\
    m_total_loss m == -30 /\ m_net_profit m == 90.
Proof.
  assert (H1 : (5 <= 6)%Z) by lia.
  assert (H2 : (100 <> 0)%Z) by lia.
  split; [exact H1|]. split; [exact H2|].
  destruct (proj2 (calculate_metrics_spec perf_world "all") H1 H2)
    as (m & w' & Hc & _ & _ & _ & _ & _ & _ & _ & _ & Hs).
  exists m, w'. split; [exact Hc|]. apply Hs. reflexivity.
Defined.

(** Below the minimum sample size only the sentinel comes back. *)
Example calculate_metrics_insufficient :
  fst (calculate_metrics "all"
         {| tracker := tracker perf_world;
            db := {| get_trade_outcomes := fun _ => Ok (firstn 4 scenario_outcomes);
                     store_metrics_fails := false; stored_metrics := [] |};
            env := sample_env |})
  = Ok (InsufficientData "all" 4 5).
Proof. reflexivity. Qed.

End PerformanceClaims.

(** ** Procedural tier and the strategy-feedback path *)

Section ProceduralFacts.

Import Store State.
Local Open Scope Q_scope.

Lemma matches_refl (r : ActionPattern) :
  matches (ap_pattern_type r) (ap_pattern_key r) r = true.
Proof. unfold matches. now rewrite !String.eqb_refl. Qed.

Lemma matches_spec (t k : string) (r : ActionPattern) :
  matches t k r = true <-> ap_pattern_type r = t /\ ap_pattern_key r = k.
Proof.
  unfold matches. rewrite andb_true_iff, !String.eqb_eq. tauto.
Qed.

Lemma find_replace_first (p : ActionPattern -> bool) (r r' : ActionPattern)
    (l : list ActionPattern) :
  List.find p l = Some r -> p r' = true ->
  List.find p (replace_first p r' l) = Some r'.
Proof.
  intros Hf Hp. induction l as [|x l IH]; simpl in *; [discriminate|].
  destruct (p x) eqn:Hx.
  - simpl. now rewrite Hp.
  - simpl. rewrite Hx. auto.
Qed.

Lemma inject_Z_pos_nonzero (z : Z) : (0 < z)%Z -> ~ inject_Z z == 0.
Proof. intros Hz H. unfold Qeq in H. simpl in H. lia. Qed.

Context (rt : Runtime).

(** [store_pattern] on a key that already has a record: the record is
    replaced by [observed]. *)
Lemma store_pattern_existing (w : World) (pattern_type : string)
    (pattern_data : pyval) (success : bool) (existing : ActionPattern) :
  let pattern_key := Procedural._generate_pattern_key rt pattern_data in
  stored_pattern w pattern_type pattern_key = Some existing ->
  failing (db w) ActionPatterns = false ->
  (0 <= ap_success_count existing)%Z ->
  (0 <= ap_failure_count existing)%Z ->
  exists w',
    Procedural.store_pattern rt pattern_type pattern_data success w
      = (Ok (observed existing success), w') /\
    stored_pattern w' pattern_type pattern_key
      = Some (observed existing success) /\
    failing (db w') = failing (db w) /\
    feedback_processor w' = feedback_processor w.
Proof.
  intros key Hfind Hnf Hs Hf. unfold stored_pattern in Hfind.
  assert (Hpos : (0 <? ap_success_count existing
                        + (if success then 1 else 0)
                        + (ap_failure_count existing
                           + (if success then 0 else 1)))%Z = true).
  { apply Z.ltb_lt. destruct success; lia. }
  cbv beta iota zeta delta [Procedural.store_pattern bind
    Database.get_action_pattern Database.update_action_pattern
    Database.session gets modify ret].
  fold key.
  repeat (cbv beta iota; first [rewrite Hnf | rewrite Hfind | rewrite Hpos]).
  cbn [default pu_success_count pu_failure_count pu_effectiveness pu_data].
  eexists. split; [reflexivity|]. split; [|split; reflexivity].
  unfold stored_pattern. cbn [db set_db set_action_patterns action_patterns
    set_procedural_memory Procedural.set_pattern_cache].
  apply (find_replace_first _ existing); [exact Hfind|].
  apply find_some in Hfind as [_ Hm]. apply matches_spec in Hm as [Ht Hk].
  apply matches_spec. cbn. auto.
Qed.

Lemma observed_consistent (existing : ActionPattern) (success : bool) :
  (0 <= ap_success_count existing)%Z ->
  (0 <= ap_failure_count existing)%Z ->
  consistent (observed existing success) /\
  (0 <= ap_success_count (observed existing success))%Z /\
  (0 <= ap_failure_count (observed existing success))%Z.
Proof.
  intros Hs Hf. unfold consistent, observed. cbn.
  destruct success; repeat split; try lia; reflexivity.
Qed.

(** The strategy-feedback path on a key that has a record: the record is
    replaced by [rated]. *)
Lemma update_strategy_existing (w : World) (data : pydict) (value : Q)
    (t k : string) (existing : ActionPattern) :
  dict_get "pattern_type" data = Some (PStr t) -> t <> EmptyString ->
  dict_get "pattern_key" data = Some (PStr k) -> k <> EmptyString ->
  stored_pattern w t k = Some existing ->
  failing (db w) ActionPatterns = false ->
  exists w',
    Feedback._update_strategy_model data value w = (Ok tt, w') /\
    stored_pattern w' t k = Some (rated (feedback_processor w) existing value).
Proof.
  intros Ht Htne Hk Hkne Hfind Hnf. unfold stored_pattern in Hfind.
  assert (Et : String.eqb t EmptyString = false) by now apply String.eqb_neq.
  assert (Ek : String.eqb k EmptyString = false) by now apply String.eqb_neq.
  unfold Feedback._update_strategy_model, dict_mem. rewrite Ht, Hk.
  cbn [Feedback.field_truthy truthy]. rewrite Et, Ek.
  cbn [negb andb]. rewrite !andb_false_r.
  cbv beta iota zeta delta [try_except bind Feedback.as_key
    Database.get_action_pattern Database.update_action_pattern
    Database.session gets modify ret default from_option id].
  repeat (cbv beta iota; first [rewrite Hnf | rewrite Hfind]).
  unfold rated, stored_pattern.
  destruct (Qlt_le_dec (positive_threshold (feedback_processor w)) value);
  [| destruct (Qlt_le_dec value (negative_threshold (feedback_processor w)))];
  (repeat (cbv beta iota; first [rewrite Hnf | rewrite Hfind]);
   eexists; split; [reflexivity|];
   cbn [db set_db set_action_patterns action_patterns
        pu_success_count pu_failure_count pu_effectiveness pu_data];
   apply (find_replace_first _ existing); [exact Hfind|];
   apply find_some in Hfind as [_ Hm]; apply matches_spec in Hm as [Hx Hy];
   apply matches_spec; cbn; auto).
Qed.

End ProceduralFacts.

Section ProceduralClaims.

Import Store State.
Local Open Scope Q_scope.

Context (rt : Runtime).

Lemma store_all_existing (pattern_type : string) (pattern_data : pyval)
    (observations : list bool) :
  forall (w : World) (existing : ActionPattern),
  stored_pattern w pattern_type
    (Procedural._generate_pattern_key rt pattern_data) = Some existing ->
  failing (db w) ActionPatterns = false ->
  (0 <= ap_success_count existing)%Z ->
  (0 <= ap_failure_count existing)%Z ->
  exists r,
    stored_pattern (store_all rt pattern_type pattern_data observations w)
      pattern_type (Procedural._generate_pattern_key rt pattern_data)
      = Some r /\
    ap_success_count r
      = (ap_success_count existing + successes observations)%Z /\
    ap_failure_count r
      = (ap_failure_count existing + failures observations)%Z /\
    (observations <> [] -> consistent r).
Proof.
  induction observations as [|b rest IH]; intros w existing Hfind Hnf Hs Hf.
  - exists existing. unfold successes, failures. cbn.
    split; [assumption|]. split; [lia|]. split; [lia|]. congruence.
  - destruct (store_pattern_existing rt w pattern_type pattern_data b
                existing Hfind Hnf Hs Hf) as (w' & Hrun & Hst & Hfl & _).
    destruct (observed_consistent existing b Hs Hf) as (Hc & Hs' & Hf').
    cbn [store_all]. rewrite Hrun. cbn [snd].
    destruct (IH w' (observed existing b) Hst) as (r & Hr & Hsc & Hfc & Hcons);
      [now rewrite Hfl | assumption | assumption |].
    exists r. split; [exact Hr|].
    unfold successes, failures in *. cbn [observed ap_success_count
      ap_failure_count] in Hsc, Hfc.
    split; [|split].
    + rewrite Hsc. destruct b; cbn [List.filter negb length]; lia.
    + rewrite Hfc. destruct b; cbn [List.filter negb length]; lia.
    + intros _. destruct rest as [|b' rest'].
      * cbn in Hr. rewrite Hst in Hr. injection Hr as <-. exact Hc.
      * apply Hcons. discriminate.
Qed.

(** C2 (amended): on a pattern key that has a record (with non-negative
    counters, the pattern table answering), after any non-empty sequence
    of [store_pattern] observations the stored record has counted every
    observation and satisfies
    [effectiveness == success_count / (success_count + failure_count)]
    exactly; the strategy-feedback path instead stores
    [clamp01(effectiveness * decay + value * (1 - decay))] and moves a
    counter only when the value passes a threshold. *)
Theorem effectiveness_recomputed (w : World) (pattern_type : string)
    (pattern_data : pyval) (existing : ActionPattern) :
  let pattern_key := Procedural._generate_pattern_key rt pattern_data in
  stored_pattern w pattern_type pattern_key = Some existing ->
  failing (db w) ActionPatterns = false ->
  (0 <= ap_success_count existing)%Z ->
  (0 <= ap_failure_count existing)%Z ->
  (forall observations, observations <> [] ->
   exists r,
     stored_pattern (store_all rt pattern_type pattern_data observations w)
       pattern_type pattern_key = Some r /\
     ap_success_count r
       = (ap_success_count existing + successes observations)%Z /\
     ap_failure_count r
       = (ap_failure_count existing + failures observations)%Z /\
     (0 < ap_success_count r + ap_failure_count r)%Z /\
     ap_effectiveness r ==
       inject_Z (ap_success_count r)
       / inject_Z (ap_success_count r + ap_failure_count r)) /\
  (forall data value,
   dict_get "pattern_type" data = Some (PStr pattern_type) ->
   pattern_type <> EmptyString ->
   dict_get "pattern_key" data = Some (PStr pattern_key) ->
   pattern_key <> EmptyString ->
   exists w' r,
     Feedback._update_strategy_model data value w = (Ok tt, w') /\
     stored_pattern w' pattern_type pattern_key = Some r /\
     ap_effectiveness r =
       Feedback.clamp01
         (ap_effectiveness existing * feedback_decay (feedback_processor w)
          + value * (1 - feedback_decay (feedback_processor w))) /\
     ap_success_count r =
       (if Qlt_le_dec (positive_threshold (feedback_processor w)) value
        then ap_success_count existing + 1 else ap_success_count existing)%Z).
Proof.
  intros key Hfind Hnf Hs Hf. split.
  - intros obs Hne.
    destruct (store_all_existing pattern_type pattern_data obs w existing
                Hfind Hnf Hs Hf) as (r & Hr & Hsc & Hfc & Hc).
    exists r. destruct (Hc Hne) as [Hpos Heq]. auto 10.
  - intros data value Ht Htne Hk Hkne.
    destruct (update_strategy_existing w data value pattern_type key existing
                Ht Htne Hk Hkne Hfind Hnf) as (w' & Hrun & Hst).
    exists w', (rated (feedback_processor w) existing value).
    repeat split; assumption.
Qed.

End ProceduralClaims.

Section ProceduralWitnesses.

Import Store State.
Local Open Scope Q_scope.

Lemma effectiveness_recomputed_witness :
  stored_pattern seeded_world "tool_usage"
    (Procedural._generate_pattern_key Reference.runtime tool_payload)
    = Some seeded_record /\
  exists r,
    stored_pattern
      (store_all Reference.runtime "tool_usage" tool_payload [true; false]
         seeded_world) "tool_usage"
      (Procedural._generate_pattern_key Reference.runtime tool_payload)
      = Some r /\
    ap_success_count r
      = (ap_success_count seeded_record + successes [true; false])%Z /\
    ap_failure_count r
      = (ap_failure_count seeded_record + failures [true; false])%Z /\
    ap_effectiveness r ==
      inject_Z (ap_success_count r)
      / inject_Z (ap_success_count r + ap_failure_count r).
Proof.
  assert (Hfind : stored_pattern seeded_world "tool_usage"
                    (Procedural._generate_pattern_key Reference.runtime
                       tool_payload)
                  = Some seeded_record) by (vm_compute; reflexivity).
  assert (Hnf : failing (db seeded_world) ActionPatterns = false)
    by (vm_compute; reflexivity).
  split; [exact Hfind|].
  pose proof (effectiveness_recomputed Reference.runtime seeded_world
                "tool_usage" tool_payload seeded_record) as H.
  cbv zeta in H.
  destruct (proj1 (H Hfind Hnf (Z.le_refl 0) (Z.le_refl 0))
              [true; false] ltac:(discriminate))
    as (r & Hr & Hsc & Hfc & _ & Heq).
  exists r. split; [exact Hr|]. split; [exact Hsc|]. split; [exact Hfc|].
  exact Heq.
Defined.

(** C2 as stated fails: two successful observations of a tool-usage
    pattern followed by one neutral strategy feedback (value 0.5) leave the
    record with counters 1/0 and effectiveness 0.95, not 1/(1+0). *)
Lemma effectiveness_invariant_broken :
  let w2 :=
    store_all Reference.runtime "tool_usage" tool_payload [true; true]
      initial_world in
  let w3 := snd (Feedback.process_user_feedback (strategy_feedback (1 # 2)) w2) in
  exists r,
    stored_pattern w3 "tool_usage" tool_key = Some r /\
    ap_success_count r = 1%Z /\ ap_failure_count r = 0%Z /\
    ap_effectiveness r == 95 # 100 /\
    ~ ap_effectiveness r ==
        inject_Z (ap_success_count r)
        / inject_Z (ap_success_count r + ap_failure_count r).
Proof.
  cbv zeta. eexists. split; [vm_compute; reflexivity|].
  split; [reflexivity|]. split; [reflexivity|].
  split; vm_compute; congruence.
Qed.

End ProceduralWitnesses.

(** ** Reinforcement engine: the model dict shares the engine's tables *)

Section PersistenceFacts.

Import Persistence.
Local Open Scope Q_scope.

Context (rt : Runtime).

Lemma load_model_store (other : Engine) (model_data : ModelData)
    (st : Store) :
  snd (load_model other model_data st)
  = {| q_tables := <[next_addr st := ∅]> (q_tables st);
       transition_tables :=
         <[S (next_addr st) := ∅]> (transition_tables st);
       next_addr := S (S (next_addr st)) |}.
Proof. reflexivity. Qed.

(** Objects that were there before [load_model] are left as they were. *)
Lemma load_model_keeps (other self : Engine) (model_data : ModelData)
    (st : Store) :
  allocated st self ->
  contents (snd (load_model other model_data st)) self = contents st self.
Proof.
  intros [Hq Ht]. rewrite load_model_store. unfold contents.
  cbn [q_tables transition_tables].
  rewrite !lookup_insert_ne by lia. reflexivity.
Qed.

(** After an update through [self], an engine bound to the same dicts
    reads the updated tables. *)
Lemma update_q_value_tables (self e : Engine) (state action : pyval)
    (reward : Q) (next_state : pyval) (st : Store) :
  q_values e = q_values self ->
  state_transitions e = state_transitions self ->
  let after := update_q_value rt self state action reward next_state st in
  let value :=
    Reinforcement.update_q_value rt (contents st self) state action reward
      next_state in
  fst (fst after) = fst value /\
  Reinforcement.q_values (contents (snd after) e)
  = Reinforcement.q_values (snd value) /\
  Reinforcement.state_transitions (contents (snd after) e)
  = Reinforcement.state_transitions (snd value).
Proof.
  intros Hq Ht after value. subst after. unfold update_q_value, contents.
  fold (contents st self). fold value.
  cbn [fst snd q_tables transition_tables Reinforcement.q_values
       Reinforcement.state_transitions].
  rewrite Hq, Ht, !lookup_insert_eq. repeat split; reflexivity.
Qed.

Lemma update_q_value_stored (self : Reinforcement.ReinforcementLearning)
    (state action : pyval) (reward : Q) (next_state : pyval) :
  default 0
    (Reinforcement.q_values
       (snd (Reinforcement.update_q_value rt self state action reward
               next_state))
     !! Reinforcement._get_state_action_key
          (Reinforcement._get_state_key rt state)
          (Reinforcement._get_action_key rt action))
  = fst (Reinforcement.update_q_value rt self state action reward
           next_state).
Proof.
  unfold Reinforcement.update_q_value.
  cbn [fst snd Reinforcement.q_values]. now rewrite lookup_insert_eq.
Qed.

(** X3: [load_model (save_model self)] binds the loading engine to the
    very dicts of [self], keeping its own parameters and action history
    and taking the exploration rate by value.  The two engines then share
    their tables: an [update_q_value] through either of them is seen
    through the other, while the exploration rate of the other stays as
    it was.  A model dict without [q_values] binds the engine to a new
    empty dict that is not shared, and one without [exploration_rate]
    keeps the current rate. *)
Theorem load_model_shares_tables (self other : Engine) (st : Store)
    (state action next_state : pyval) (reward : Q) :
  allocated st self ->
  let restored := fst (load_model other (save_model self) st) in
  let st1 := snd (load_model other (save_model self) st) in
  (q_values restored = q_values self /\
   state_transitions restored = state_transitions self /\
   exploration_rate restored = exploration_rate self /\
   Reinforcement.q_values (contents st1 restored)
   = Reinforcement.q_values (contents st self) /\
   Reinforcement.state_transitions (contents st1 restored)
   = Reinforcement.state_transitions (contents st self)) /\
  (learning_rate restored = learning_rate other /\
   discount_factor restored = discount_factor other /\
   min_exploration_rate restored = min_exploration_rate other /\
   exploration_decay restored = exploration_decay other /\
   reward_scale restored = reward_scale other /\
   action_history restored = action_history other) /\
  (let after := update_q_value rt self state action reward next_state st1 in
   let self' := snd (fst after) in
   q_of rt (contents (snd after) restored) state action = fst (fst after) /\
   Reinforcement.q_values (contents (snd after) restored)
   = Reinforcement.q_values (contents (snd after) self') /\
   Reinforcement.state_transitions (contents (snd after) restored)
   = Reinforcement.state_transitions (contents (snd after) self')) /\
  (let after :=
     update_q_value rt restored state action reward next_state st1 in
   let restored' := snd (fst after) in
   q_of rt (contents (snd after) self) state action = fst (fst after) /\
   Reinforcement.q_values (contents (snd after) self)
   = Reinforcement.q_values (contents (snd after) restored') /\
   exploration_rate self = exploration_rate restored) /\
  (forall t e,
     let loaded :=
       load_model other
         {| md_q_values := None; md_state_transitions := t;
            md_exploration_rate := e |} st in
     q_values (fst loaded) <> q_values self /\
     Reinforcement.q_values (contents (snd loaded) (fst loaded)) = ∅ /\
     Reinforcement.q_values
       (contents
          (snd (update_q_value rt self state action reward next_state
                  (snd loaded)))
          (fst loaded)) = ∅) /\
  (forall q t,
     exploration_rate
       (fst (load_model other
               {| md_q_values := q; md_state_transitions := t;
                  md_exploration_rate := None |} st))
     = exploration_rate other).
Proof.
  intros Ha restored st1.
  assert (Hrq : q_values restored = q_values self) by reflexivity.
  assert (Hrt : state_transitions restored = state_transitions self)
    by reflexivity.
  split; [|split; [|split; [|split; [|split]]]].
  - split; [reflexivity|]. split; [reflexivity|]. split; [reflexivity|].
    pose proof (load_model_keeps other self (save_model self) st Ha) as Hk.
    fold st1 in Hk. rewrite <- Hk. unfold contents.
    cbn [Reinforcement.q_values Reinforcement.state_transitions].
    rewrite Hrq, Hrt. split; reflexivity.
  - repeat split; reflexivity.
  - cbv zeta.
    destruct (update_q_value_tables self restored state action reward
                next_state st1 Hrq Hrt) as (Hv & Hq1 & Ht1).
    destruct (update_q_value_tables self
                (snd (fst (update_q_value rt self state action reward
                             next_state st1)))
                state action reward next_state st1 eq_refl eq_refl)
      as (_ & Hq2 & Ht2).
    unfold q_of. rewrite Hq1, Hq2, Ht1, Ht2, Hv.
    split; [apply update_q_value_stored | split; reflexivity].
  - cbv zeta.
    destruct (update_q_value_tables restored self state action reward
                next_state st1 (eq_sym Hrq) (eq_sym Hrt)) as (Hv & Hq1 & _).
    destruct (update_q_value_tables restored
                (snd (fst (update_q_value rt restored state action reward
                             next_state st1)))
                state action reward next_state st1 eq_refl eq_refl)
      as (_ & Hq2 & _).
    unfold q_of. rewrite Hq1, Hq2, Hv.
    split; [apply update_q_value_stored | split; reflexivity].
  - intros t e loaded. subst loaded. destruct Ha as [Hq Ht].
    split; [cbn; lia|]. rewrite load_model_store.
    unfold update_q_value, contents.
    cbn [fst snd Reinforcement.q_values q_tables q_values
         load_model new_q_table new_transition_table].
    split.
    + now rewrite lookup_insert_eq.
    + rewrite lookup_insert_ne by (cbn; lia). now rewrite lookup_insert_eq.
  - reflexivity.
Qed.

End PersistenceFacts.

Section PersistenceWitnesses.

Import Persistence.
Local Open Scope Q_scope.

Lemma load_model_shares_tables_witness :
  allocated (snd newcomer) (fst trained) /\
  Reinforcement.q_values
    (contents (snd (load_model (fst newcomer) (save_model (fst trained))
                      (snd newcomer)))
       (fst (load_model (fst newcomer) (save_model (fst trained))
               (snd newcomer))))
  = Reinforcement.q_values (contents (snd newcomer) (fst trained)) /\
  q_of Reference.runtime
    (contents
       (snd (update_q_value Reference.runtime (fst trained)
               (PStr "s2") (PStr "a2") (-1 # 2) (PStr "s1")
               (snd (load_model (fst newcomer) (save_model (fst trained))
                       (snd newcomer)))))
       (fst (load_model (fst newcomer) (save_model (fst trained))
               (snd newcomer))))
    (PStr "s2") (PStr "a2")
  = fst (fst (update_q_value Reference.runtime (fst trained)
                (PStr "s2") (PStr "a2") (-1 # 2) (PStr "s1")
                (snd (load_model (fst newcomer) (save_model (fst trained))
                        (snd newcomer))))).
Proof.
  assert (Ha : allocated (snd newcomer) (fst trained))
    by (split; vm_compute; lia).
  split; [exact Ha|].
  destruct (load_model_shares_tables Reference.runtime (fst trained)
              (fst newcomer) (snd newcomer)
              (PStr "s2") (PStr "a2") (PStr "s1") (-1 # 2) Ha)
    as ((_ & _ & _ & Hq & _) & _ & (Hseen & _) & _).
  split; [exact Hq | exact Hseen].
Defined.

(** The table loaded from a saved model is not a copy: the update made
    through the first engine afterwards shows in the second. *)
Example loaded_table_follows_updates :
  let restored :=
    fst (load_model (fst newcomer) (save_model (fst trained))
           (snd newcomer)) in
  let st1 :=
    snd (load_model (fst newcomer) (save_model (fst trained))
           (snd newcomer)) in
  let after :=
    update_q_value Reference.runtime (fst trained)
      (PStr "s2") (PStr "a2") (-1 # 2) (PStr "s1") st1 in
  q_of Reference.runtime (contents st1 restored) (PStr "s2") (PStr "a2")
  = 0 /\
  Qred (q_of Reference.runtime (contents (snd after) restored)
          (PStr "s2") (PStr "a2"))
  = -41 # 1000.
Proof. vm_compute. split; reflexivity. Qed.

End PersistenceWitnesses.

(** ** Reinforcement engine: growth of the tables, greedy choice *)

Section ReinforcementExtras.

Import Reinforcement.
Local Open Scope Q_scope.

Context (rt : Runtime).

Lemma apply_update_tables (self : ReinforcementLearning) (c : QUpdate)
    (key : string) :
  (is_Some (q_values self !! key) ->
   is_Some (q_values (apply_update rt self c) !! key)) /\
  (default 0%Z (state_transitions self !! key)
   <= default 0%Z (state_transitions (apply_update rt self c) !! key))%Z.
Proof.
  unfold apply_update, update_q_value. cbn [snd q_values state_transitions].
  split.
  - intros Hs. rewrite lookup_insert. case_decide; [eauto | exact Hs].
  - rewrite lookup_insert. case_decide; [subst; cbn; lia | lia].
Qed.

(** The tables only grow: over any sequence of [update_q_value] calls no
    state-action entry of the Q-table disappears and no transition count
    decreases, and a single call raises the count of its own transition by
    exactly one. *)
Theorem tables_only_grow (self : ReinforcementLearning)
    (calls : list QUpdate) (key : string) :
  (is_Some (q_values self !! key) ->
   is_Some (q_values (run_updates rt calls self) !! key)) /\
  (default 0%Z (state_transitions self !! key)
   <= default 0%Z (state_transitions (run_updates rt calls self) !! key))%Z /\
  (forall c,
     let transition_key :=
       (_get_state_key rt (qu_state c) ++ "|"
        ++ _get_state_key rt (qu_next_state c))%string in
     (default 0%Z
        (state_transitions (apply_update rt self c) !! transition_key)
      = default 0%Z (state_transitions self !! transition_key) + 1)%Z).
Proof.
  split; [|split].
  - revert self. induction calls as [|c cs IH]; intros self Hs; [exact Hs|].
    cbn [run_updates fold_left]. apply IH.
    now apply apply_update_tables.
  - revert self. induction calls as [|c cs IH]; intros self; [cbn; lia|].
    cbn [run_updates fold_left].
    pose proof (proj2 (apply_update_tables self c key)).
    specialize (IH (apply_update rt self c)). unfold run_updates in IH. lia.
  - intros c tk. unfold apply_update, update_q_value.
    cbn [snd state_transitions]. fold tk. now rewrite lookup_insert_eq.
Qed.

Lemma sort_desc_head (l : list (pyval * Q)) (best : pyval * Q)
    (tl : list (pyval * Q)) :
  sort_desc l = best :: tl ->
  exists pre post,
    l = (pre ++ best :: post)%list /\
    (forall x, In x pre -> snd x < snd best) /\
    (forall x, In x post -> snd x <= snd best).
Proof.
  revert best tl. induction l as [|x l IH]; intros best tl Hs;
    [discriminate|].
  cbn [sort_desc fold_right] in Hs. fold (sort_desc l) in Hs.
  destruct (sort_desc l) as [|h t] eqn:Hl.
  - cbn in Hs. injection Hs as <- <-.
    assert (l = []) as ->.
    { destruct l as [|y l']; [reflexivity|]. exfalso.
      assert (Hin : In y (sort_desc (y :: l')))
        by (apply sort_desc_in; now left).
      rewrite Hl in Hin. destruct Hin. }
    exists [], []. repeat split; intros ? [].
  - destruct (IH h t eq_refl) as (pre & post & -> & Hpre & Hpost).
    cbn [insert_desc] in Hs.
    destruct (Qlt_le_dec (snd x) (snd h)) as [Hlt|Hge].
    + injection Hs as <- <-. exists (x :: pre), post.
      split; [reflexivity|]. split; [|exact Hpost].
      intros y [<-|Hy]; [exact Hlt | now apply Hpre].
    + injection Hs as <- <-. exists [], (pre ++ h :: post)%list.
      split; [reflexivity|]. split; [intros ? []|].
      intros y Hy. apply in_app_or in Hy as [Hy|[<-|Hy]].
      * specialize (Hpre y Hy). lra.
      * exact Hge.
      * specialize (Hpost y Hy). lra.
Qed.

(** Exploitation is greedy with ties broken by candidate order: when the
    draw is not below the exploration rate, [select_action] returns the
    first candidate whose Q-value (0 when unknown) is maximal, and logs it
    as "exploitation" with that Q-value. *)
Theorem select_action_greedy (self : ReinforcementLearning) (u : Q) (k : nat)
    (state : pyval) (possible_actions : list pyval) :
  exploration_rate self <= u ->
  possible_actions <> [] ->
  exists a pre post self',
    select_action rt self u k state possible_actions = (Some a, self') /\
    possible_actions = (pre ++ a :: post)%list /\
    (forall b, In b pre -> q_of rt self state b < q_of rt self state a) /\
    (forall b, In b post -> q_of rt self state b <= q_of rt self state a) /\
    action_history self' =
      (action_history self ++
         [{| ar_state := state; ar_action := a; ar_type := "exploitation";
             ar_q_value := Some (q_of rt self state a) |}])%list.
Proof.
  intros Hu Hne. destruct possible_actions as [|a0 rest]; [congruence|].
  unfold select_action.
  destruct (Qlt_le_dec u (exploration_rate self)) as [Hlt|_]; [lra|].
  set (scored := map _ (a0 :: rest)).
  assert (Hscored : scored = map (fun b => (b, q_of rt self state b))
                                 (a0 :: rest)) by reflexivity.
  destruct (sort_desc scored) as [|best tl] eqn:Hs.
  - exfalso.
    assert (Hin : In (a0, q_of rt self state a0) (sort_desc scored)).
    { apply sort_desc_in. rewrite Hscored. now left. }
    rewrite Hs in Hin. destruct Hin.
  - destruct (sort_desc_head scored best tl Hs)
      as (pre & post & Hsplit & Hpre & Hpost).
    assert (Hbest : snd best = q_of rt self state (fst best)).
    { assert (Hin : In best scored)
        by (rewrite Hsplit; apply in_or_app; right; now left).
      rewrite Hscored in Hin. apply in_map_iff in Hin as [b [<- _]].
      reflexivity. }
    assert (Hall : forall x, In x scored -> snd x = q_of rt self state (fst x)).
    { intros x Hin. rewrite Hscored in Hin.
      apply in_map_iff in Hin as [b [<- _]]. reflexivity. }
    exists (fst best), (map fst pre), (map fst post).
    eexists. split; [reflexivity|]. split; [|split; [|split]].
    + assert (Hm : map fst scored = a0 :: rest).
      { rewrite Hscored, map_map. cbn [fst]. apply map_id. }
      rewrite <- Hm, Hsplit, map_app. reflexivity.
    + intros b Hb. apply in_map_iff in Hb as [x [<- Hx]].
      rewrite <- Hbest, <- (Hall x); [now apply Hpre|].
      rewrite Hsplit. apply in_or_app. now left.
    + intros b Hb. apply in_map_iff in Hb as [x [<- Hx]].
      rewrite <- Hbest, <- (Hall x); [now apply Hpost|].
      rewrite Hsplit. apply in_or_app. right. now right.
    + cbn [log_action action_history]. now rewrite Hbest.
Qed.

End ReinforcementExtras.

Section ReinforcementExtraWitnesses.

Import Reinforcement.
Local Open Scope Q_scope.

Lemma tables_only_grow_witness :
  is_Some (q_values (run_updates Reference.runtime (firstn 1 sample_calls)
                       sample_engine) !! "state:s1|action:a1") /\
  is_Some (q_values (run_updates Reference.runtime sample_calls sample_engine)
             !! "state:s1|action:a1").
Proof.
  assert (H : is_Some (q_values (run_updates Reference.runtime
                                   (firstn 1 sample_calls) sample_engine)
                         !! "state:s1|action:a1"))
    by (vm_compute; eexists; reflexivity).
  split; [exact H|].
  exact (proj1 (tables_only_grow Reference.runtime
                  (run_updates Reference.runtime (firstn 1 sample_calls)
                     sample_engine)
                  (skipn 1 sample_calls) "state:s1|action:a1") H).
Defined.

Lemma select_action_greedy_witness :
  exploration_rate sample_engine <= 1 # 2 /\
  exists a pre post self',
    select_action Reference.runtime sample_engine (1 # 2) 0 (PStr "s1")
      [PStr "a1"; PStr "a2"] = (Some a, self') /\
    [PStr "a1"; PStr "a2"] = (pre ++ a :: post)%list /\
    (forall b, In b pre ->
       q_of Reference.runtime sample_engine (PStr "s1") b
       < q_of Reference.runtime sample_engine (PStr "s1") a) /\
    (forall b, In b post ->
       q_of Reference.runtime sample_engine (PStr "s1") b
       <= q_of Reference.runtime sample_engine (PStr "s1") a) /\
    action_history self' =
      (action_history sample_engine ++
         [{| ar_state := PStr "s1"; ar_action := a;
             ar_type := "exploitation";
             ar_q_value :=
               Some (q_of Reference.runtime sample_engine (PStr "s1") a) |}])%list.
Proof.
  assert (H : exploration_rate sample_engine <= 1 # 2)
    by (vm_compute; discriminate).
  split; [exact H|].
  apply (select_action_greedy Reference.runtime sample_engine (1 # 2) 0
           (PStr "s1") [PStr "a1"; PStr "a2"] H).
  discriminate.
Defined.

End ReinforcementExtraWitnesses.

(** ** Canonical keys do not depend on the order of dict items *)

Section CanonicalFacts.

Lemma leb_iff (a b : string) :
  String.leb a b = true <-> a = b \/ String_as_OT.lt a b.
Proof.
  unfold String.leb. destruct (String.compare a b) eqn:E.
  - apply String.compare_eq_iff in E. tauto.
  - apply (proj1 (String_as_OT.cmp_lt a b)) in E. tauto.
  - split; [discriminate|]. intros [->|Hlt].
    + assert (H : String.compare b b = Eq)
        by (apply (proj2 (String_as_OT.cmp_eq b b)); reflexivity).
      congruence.
    + apply (proj2 (String_as_OT.cmp_lt a b)) in Hlt.
      change (String_as_OT.cmp a b) with (String.compare a b) in Hlt.
      congruence.
Qed.

Lemma leb_false_lt (a b : string) :
  String.leb a b = false -> String_as_OT.lt b a.
Proof.
  intros H. destruct (String.leb_total a b) as [H'|H']; [congruence|].
  apply leb_iff in H' as [->|Hlt]; [|exact Hlt].
  assert (String.leb a a = true) by (apply leb_iff; now left). congruence.
Qed.

Lemma insert_item_perm (x : string * string) (l : list (string * string)) :
  Permutation (insert_item x l) (x :: l).
Proof.
  induction l as [|y l IH]; cbn [insert_item]; [reflexivity|].
  destruct (String.leb (fst x) (fst y)); [reflexivity|].
  rewrite IH. apply perm_swap.
Qed.

Lemma sort_items_perm (l : list (string * string)) :
  Permutation (sort_items l) l.
Proof.
  induction l as [|x l IH]; cbn [sort_items fold_right]; [reflexivity|].
  fold (sort_items l). rewrite insert_item_perm. now rewrite IH.
Qed.

Lemma insert_item_sorted (x : string * string) (l : list (string * string)) :
  StronglySorted key_lt l -> ~ In (fst x) (map fst l) ->
  StronglySorted key_lt (insert_item x l).
Proof.
  induction l as [|y l IH]; intros Hs Hx; cbn [insert_item].
  - repeat constructor.
  - apply StronglySorted_inv in Hs as [Hs Hy].
    destruct (String.leb (fst x) (fst y)) eqn:E.
    + assert (Hxy : key_lt x y).
      { apply leb_iff in E as [E|E]; [|exact E].
        exfalso. apply Hx. left. now symmetry. }
      constructor; [constructor; assumption|].
      constructor; [exact Hxy|].
      rewrite List.Forall_forall in Hy |- *. intros z Hz.
      eapply String_as_OT.lt_trans; [exact Hxy | now apply Hy].
    + constructor.
      * apply IH; [exact Hs|]. intros H. apply Hx. now right.
      * apply leb_false_lt in E.
        rewrite List.Forall_forall in Hy |- *. intros z Hz.
        apply (Permutation_in _ (insert_item_perm x l)) in Hz as [<-|Hz];
          [exact E | now apply Hy].
Qed.

Lemma sort_items_sorted (l : list (string * string)) :
  NoDup (map fst l) -> StronglySorted key_lt (sort_items l).
Proof.
  induction l as [|x l IH]; intros Hnd; cbn [sort_items fold_right].
  - constructor.
  - fold (sort_items l). cbn [map] in Hnd.
    apply NoDup_cons in Hnd as [Hx Hnd].
    apply insert_item_sorted; [now apply IH|].
    intros Hin. apply Hx. apply list_elem_of_In.
    apply (Permutation_in _ (Permutation_map fst (sort_items_perm l))).
    exact Hin.
Qed.

Lemma sorted_perm_unique (l1 l2 : list (string * string)) :
  StronglySorted key_lt l1 -> StronglySorted key_lt l2 ->
  Permutation l1 l2 -> l1 = l2.
Proof.
  revert l2. induction l1 as [|a l1 IH]; intros l2 H1 H2 Hp.
  - apply Permutation_nil in Hp. now subst.
  - destruct l2 as [|b l2];
      [apply Permutation_sym, Permutation_nil in Hp; discriminate|].
    apply StronglySorted_inv in H1 as [H1 Ha].
    apply StronglySorted_inv in H2 as [H2 Hb].
    rewrite List.Forall_forall in Ha, Hb.
    assert (a = b) as ->.
    { assert (Hina : In a (b :: l2))
        by (apply (Permutation_in _ Hp); now left).
      assert (Hinb : In b (a :: l1))
        by (apply (Permutation_in _ (Permutation_sym Hp)); now left).
      destruct Hina as [->|Hina]; [reflexivity|].
      destruct Hinb as [->|Hinb]; [reflexivity|].
      exfalso. specialize (Ha b Hinb). specialize (Hb a Hina).
      unfold key_lt in Ha, Hb.
      exact (String_as_OT.lt_not_eq _ _
               (String_as_OT.lt_trans _ _ _ Ha Hb) eq_refl). }
    f_equal. apply IH; [assumption | assumption|].
    now apply Permutation_cons_inv in Hp.
Qed.

(** Sorting the items of two orderings of the same dict gives the same
    list. *)
Lemma sort_items_permutation (l1 l2 : list (string * string)) :
  NoDup (map fst l1) -> Permutation l1 l2 -> sort_items l1 = sort_items l2.
Proof.
  intros Hnd Hp. apply sorted_perm_unique.
  - now apply sort_items_sorted.
  - apply sort_items_sorted.
    pose proof (Permutation_map fst Hp) as Hk. now rewrite <- Hk.
  - rewrite !sort_items_perm. exact Hp.
Qed.

Context (rt : Runtime).

Lemma reordered_dumps (v1 v2 : pyval) :
  reordered v1 v2 -> dumps rt v1 = dumps rt v2.
Proof.
  revert v1 v2. fix IH 3. intros v1 v2 H.
  destruct H as [v | l1 l2 HF | d1 d1' d2 Hnd HF Hp].
  - reflexivity.
  - cbn [dumps]. f_equal. f_equal. f_equal.
    induction HF as [|x y l l' Hxy HF IHF]; [reflexivity|].
    cbn [map]. f_equal; [apply IH, Hxy | exact IHF].
  - cbn [dumps]. f_equal. f_equal. f_equal. f_equal.
    assert (Hmap : map (fun kv => (fst kv, dumps rt (snd kv))) d1
                   = map (fun kv => (fst kv, dumps rt (snd kv))) d1').
    { clear Hnd Hp. induction HF as [|x y l l' [Hk Hv] HF IHF];
        [reflexivity|].
      cbn [map]. f_equal; [|exact IHF].
      f_equal; [exact Hk | apply IH, Hv]. }
    rewrite Hmap. apply sort_items_permutation.
    + rewrite <- Hmap, map_map. cbn [fst]. exact Hnd.
    + now apply Permutation_map.
Qed.

(** The canonical keys are order-independent: for two dict payloads that
    are equal up to the order of the items of their dicts (at any depth),
    the reinforcement engine derives the same state key and the same action
    key, and the procedural tier the same pattern key; the pattern key is
    the same for any two payloads so related. *)
Theorem canonical_keys_order_independent (d1 d2 : pydict) :
  reordered (PDict d1) (PDict d2) ->
  Reinforcement._get_state_key rt (PDict d1)
    = Reinforcement._get_state_key rt (PDict d2) /\
  Reinforcement._get_action_key rt (PDict d1)
    = Reinforcement._get_action_key rt (PDict d2) /\
  Procedural._generate_pattern_key rt (PDict d1)
    = Procedural._generate_pattern_key rt (PDict d2) /\
  (forall v1 v2, reordered v1 v2 ->
     Procedural._generate_pattern_key rt v1
       = Procedural._generate_pattern_key rt v2).
Proof.
  intros H. pose proof (reordered_dumps _ _ H) as Hd.
  unfold Reinforcement._get_state_key, Reinforcement._get_action_key,
    Procedural._generate_pattern_key.
  rewrite Hd. repeat split.
  intros v1 v2 Hv. now rewrite (reordered_dumps _ _ Hv).
Qed.

End CanonicalFacts.

Section CanonicalWitnesses.

Lemma order_payload_reordered :
  reordered (PDict order_payload) (PDict order_payload_permuted).
Proof.
  apply (reordered_dict _
           [ ("symbol", PStr "AAPL"); ("action", PStr "buy");
             ("limits", PDict [("high", PInt 2); ("low", PInt 1)]) ]).
  - apply (bool_decide_unpack _). vm_compute. exact I.
  - repeat constructor.
    apply (reordered_dict _ [("low", PInt 1); ("high", PInt 2)]).
    + apply (bool_decide_unpack _). vm_compute. exact I.
    + repeat constructor.
    + apply perm_swap.
  - eapply perm_trans; [apply perm_swap|]. apply perm_skip. apply perm_swap.
Defined.

Lemma canonical_keys_order_independent_witness :
  Reinforcement._get_state_key Reference.runtime (PDict order_payload)
    = Reinforcement._get_state_key Reference.runtime
        (PDict order_payload_permuted) /\
  Procedural._generate_pattern_key Reference.runtime (PDict order_payload)
    = Procedural._generate_pattern_key Reference.runtime
        (PDict order_payload_permuted).
Proof.
  pose proof (canonical_keys_order_independent Reference.runtime
                order_payload order_payload_permuted
                order_payload_reordered) as (Hs & _ & Hp & _).
  split; [exact Hs | exact Hp].
Defined.

(** The key both orderings hash to, as the interpreter computes it. *)
Example order_payload_key :
  Procedural._generate_pattern_key Reference.runtime
    (PDict order_payload_permuted)
  = "1a29a5bbb9cf9588bf9c5552cafd280c".
Proof. vm_compute. reflexivity. Qed.

End CanonicalWitnesses.

(** ** Working memory *)

Section WorkingFacts.

Import Working.

Lemma update_max_history (self : WorkingMemory) (a b c : pyval) (t : string) :
  max_history (update self a b c t) = max_history self /\
  state (update self a b c t) = state self.
Proof. split; reflexivity. Qed.

Lemma record_all_max_history (turns : list Turn) (self : WorkingMemory) :
  max_history (record_all turns self) = max_history self /\
  state (record_all turns self) = state self.
Proof.
  revert self. induction turns as [|t ts IH]; intros self; [split; reflexivity|].
  unfold record_all. cbn [fold_left].
  destruct (IH (update self (t_input t) (t_response t) (t_result t)
                  (t_timestamp t))) as [Hm Hs].
  unfold record_all in Hm, Hs. rewrite Hm, Hs. split; reflexivity.
Qed.

(** What one [update] leaves for a positive capacity: the last
    [max_history] items of the history with the new interaction appended. *)
Lemma update_history (self : WorkingMemory) (a b c : pyval) (t : string) :
  (0 < max_history self)%Z ->
  let appended :=
    (conversation_history self
     ++ [{| i_input := a; i_response := b; i_result := c;
            i_timestamp := t |}])%list in
  conversation_history (update self a b c t)
  = skipn (length appended - Z.to_nat (max_history self)) appended.
Proof.
  intros Hpos appended. unfold update. cbn [conversation_history].
  fold appended.
  destruct (Z.ltb_spec (max_history self) (Z.of_nat (length appended)))
    as [Hlt|Hge].
  - unfold slice_last. destruct (Z.ltb_spec 0 (max_history self)); [|lia].
    reflexivity.
  - replace (length appended - Z.to_nat (max_history self))%nat with 0%nat
      by lia.
    reflexivity.
Qed.

(** For a positive capacity the conversation history is a ring buffer:
    after any sequence of updates of a memory whose history was within
    capacity, it holds exactly the last [max_history] interactions of all
    those recorded so far (the oldest are dropped first) and never more
    than [max_history]; the freeform state is untouched. *)
Theorem working_history_bounded (self : WorkingMemory) (turns : list Turn) :
  (0 < max_history self)%Z ->
  (Z.of_nat (length (conversation_history self)) <= max_history self)%Z ->
  let all :=
    (conversation_history self ++ map interaction_of turns)%list in
  conversation_history (record_all turns self)
  = skipn (length all - Z.to_nat (max_history self)) all /\
  (Z.of_nat (length (conversation_history (record_all turns self)))
   <= max_history self)%Z /\
  state (record_all turns self) = state self.
Proof.
  intros Hpos Hlen all.
  assert (Hmain : conversation_history (record_all turns self)
                  = skipn (length all - Z.to_nat (max_history self)) all).
  { subst all. revert self Hpos Hlen.
    induction turns as [|t ts IH]; intros self Hpos Hlen.
    - cbn [record_all fold_left map]. rewrite app_nil_r.
      replace (length (conversation_history self)
               - Z.to_nat (max_history self))%nat with 0%nat by lia.
      reflexivity.
    - unfold record_all. cbn [fold_left map].
      set (self' := update self (t_input t) (t_response t) (t_result t)
                      (t_timestamp t)).
      fold (record_all ts self').
      assert (Hh := update_history self (t_input t) (t_response t)
                      (t_result t) (t_timestamp t) Hpos).
      cbv zeta in Hh. fold self' in Hh.
      assert (Hm : max_history self' = max_history self) by reflexivity.
      rewrite IH; rewrite ?Hm; [|exact Hpos|].
      + rewrite Hh. fold (interaction_of t).
        change (conversation_history self ++ interaction_of t
                  :: map interaction_of ts)%list
          with (conversation_history self
                ++ ([interaction_of t] ++ map interaction_of ts))%list.
        rewrite app_assoc.
        set (l := (conversation_history self ++ [interaction_of t])%list).
        set (n := Z.to_nat (max_history self)).
        set (rest := map interaction_of ts).
        assert (Hl : (length (skipn (length l - n) l) <= n)%nat)
          by (rewrite length_skipn; lia).
        rewrite !length_app.
        destruct (Nat.le_gt_cases (length l) n) as [Hle|Hgt].
        * replace (length l - n)%nat with 0%nat by lia. reflexivity.
        * rewrite length_skipn.
          rewrite (skipn_app (length l - (length l - n) + length rest - n)).
          rewrite length_skipn, skipn_skipn.
          rewrite (skipn_app (length l + length rest - n) l rest).
          replace (length l - (length l - n) + length rest - n
                   - (length l - (length l - n)))%nat
            with (length rest - n)%nat by lia.
          replace (length l + length rest - n - length l)%nat
            with (length rest - n)%nat by lia.
          f_equal.
          destruct (Nat.le_gt_cases (length rest) n) as [Hr|Hr].
          -- f_equal. lia.
          -- rewrite !skipn_all2 by lia. reflexivity.
      + rewrite Hh. rewrite length_skipn, length_app. cbn [length]. lia. }
  split; [exact Hmain|]. split.
  - rewrite Hmain, length_skipn. lia.
  - apply record_all_max_history.
Qed.

(** With [max_history = 0] the trim [history[-0:]] keeps the whole list:
    no interaction is ever dropped and the history grows by one entry per
    update. *)
Theorem working_history_zero_capacity (self : WorkingMemory)
    (turns : list Turn) :
  max_history self = 0%Z ->
  conversation_history (record_all turns self)
  = (conversation_history self ++ map interaction_of turns)%list.
Proof.
  revert self. induction turns as [|t ts IH]; intros self H0.
  - cbn. now rewrite app_nil_r.
  - unfold record_all. cbn [fold_left map].
    set (self' := update self (t_input t) (t_response t) (t_result t)
                    (t_timestamp t)).
    fold (record_all ts self'). rewrite IH by exact H0.
    subst self'. unfold update. cbn [conversation_history]. rewrite H0.
    assert (Hs : forall l : list Interaction, slice_last 0 l = l)
      by reflexivity.
    rewrite Hs. destruct (0 <? _)%Z; rewrite <- app_assoc; reflexivity.
Qed.

(** The freeform state is a map: a value set under a key is read back,
    other keys are unaffected, a missing key reads the default, and
    [reset] empties both the state and the history. *)
Theorem working_state_round_trip (self : WorkingMemory) (key other : string)
    (value dflt : pyval) :
  get_state (set_state self key value) key dflt = value /\
  (other <> key ->
   get_state (set_state self key value) other dflt
   = get_state self other dflt) /\
  get_state (clear_state self) key dflt = dflt /\
  conversation_history (set_state self key value)
  = conversation_history self /\
  conversation_history (reset self) = [] /\
  state (reset self) = [].
Proof.
  unfold get_state, set_state, clear_state, reset, clear_history.
  cbn [state conversation_history].
  repeat split.
  - now rewrite dict_get_set_eq.
  - intros Hne. now rewrite dict_get_set_ne.
Qed.

End WorkingFacts.

Section WorkingWitnesses.

Import Working.

Lemma working_history_bounded_witness :
  (0 < max_history (__init__ 2))%Z /\
  conversation_history (record_all sample_turns (__init__ 2))
  = map interaction_of (skipn 1 sample_turns) /\
  (Z.of_nat (length (conversation_history
                       (record_all sample_turns (__init__ 2)))) <= 2)%Z.
Proof.
  assert (H1 : (0 < max_history (__init__ 2))%Z) by (cbn; lia).
  assert (H2 : (Z.of_nat (length (conversation_history (__init__ 2)))
                <= max_history (__init__ 2))%Z) by (cbn; lia).
  destruct (working_history_bounded (__init__ 2) sample_turns H1 H2)
    as (Hh & Hl & _).
  split; [exact H1|]. split; [exact Hh | exact Hl].
Defined.

Lemma working_history_zero_capacity_witness :
  max_history (__init__ 0) = 0%Z /\
  length (conversation_history (record_all sample_turns (__init__ 0)))
  = 3%nat.
Proof.
  split; [reflexivity|].
  rewrite (working_history_zero_capacity (__init__ 0) sample_turns eq_refl).
  reflexivity.
Defined.

Lemma working_state_round_trip_witness :
  "mode" <> "risk" /\
  get_state (set_state (set_state (__init__ 5) "mode" (PStr "live"))
               "risk" (PInt 3)) "mode" PNone = PStr "live".
Proof.
  assert (H : "mode" <> "risk") by discriminate.
  split; [exact H|].
  rewrite (proj1 (proj2 (working_state_round_trip
                           (set_state (__init__ 5) "mode" (PStr "live"))
                           "risk" "mode" (PInt 3) PNone)) H).
  apply (proj1 (working_state_round_trip (__init__ 5) "mode" "mode"
                  (PStr "live") PNone)).
Defined.

End WorkingWitnesses.

(** ** Performance tracker: invariants and failure behaviour *)

Section PerformanceExtras.

Import Performance.
Local Open Scope Q_scope.

Lemma fold_plus_shift (l : list Q) (a : Q) : fold_left Qplus l a == a + sum l.
Proof.
  unfold sum. revert a. induction l as [|x l IH]; intros a; cbn [fold_left].
  - lra.
  - rewrite IH. rewrite (IH (0 + x)). lra.
Qed.

Lemma sum_cons (x : Q) (l : list Q) : sum (x :: l) == x + sum l.
Proof. unfold sum at 1. cbn [fold_left]. rewrite fold_plus_shift. lra. Qed.

Lemma sum_positive_nonneg (l : list Q) : 0 <= sum (List.filter positive l).
Proof.
  induction l as [|x l IH]; [unfold sum; cbn; lra|].
  cbn [List.filter]. unfold positive at 1.
  destruct (Qlt_le_dec 0 x); [rewrite sum_cons; lra | exact IH].
Qed.

Lemma sum_negative_nonpos (l : list Q) : sum (List.filter negative l) <= 0.
Proof.
  induction l as [|x l IH]; [unfold sum; cbn; lra|].
  cbn [List.filter]. unfold negative at 1.
  destruct (Qlt_le_dec x 0); [rewrite sum_cons; lra | exact IH].
Qed.

Lemma sum_split (l : list Q) :
  sum (List.filter positive l) + sum (List.filter negative l) == sum l.
Proof.
  induction l as [|x l IH]; [unfold sum; cbn; lra|].
  cbn [List.filter]. unfold positive at 1, negative at 1.
  destruct (Qlt_le_dec 0 x), (Qlt_le_dec x 0);
    rewrite ?sum_cons; lra.
Qed.

Lemma count_outcome_nonneg (label : string) (l : list TradeOutcome) :
  (0 <= count_outcome label l)%Z.
Proof. unfold count_outcome. lia. Qed.

Lemma count_outcome_disjoint (l : list TradeOutcome) :
  (count_outcome "success" l + count_outcome "failure" l
   <= Z.of_nat (length l))%Z.
Proof.
  unfold count_outcome. induction l as [|o l IH]; [cbn; lia|].
  cbn [List.filter].
  destruct (has_outcome "success" o) eqn:E1,
           (has_outcome "failure" o) eqn:E2; cbn [length]; try lia.
  unfold has_outcome in E1, E2. destruct (o_outcome o); [|discriminate].
  apply String.eqb_eq in E1, E2. subst. discriminate.
Qed.

(** What a call with enough data and a non-zero window returns and leaves
    behind. *)
Lemma calculate_metrics_full (w : World) (timeframe : string) :
  let outcomes := retrieved w timeframe in
  let total := Z.of_nat (length outcomes) in
  let self := tracker w in
  (min_sample_size self <= total)%Z ->
  metrics_window_size self <> 0%Z ->
  exists m w',
    calculate_metrics timeframe w = (Ok (FullMetrics m), w') /\
    (m_total_trades m = total /\
     m_successful_trades m = count_outcome "success" outcomes /\
     m_failed_trades m = count_outcome "failure" outcomes /\
     m_neutral_trades m =
       (total - count_outcome "success" outcomes
        - count_outcome "failure" outcomes)%Z) /\
    (m_success_rate m =
       (if (0 <? total)%Z
        then inject_Z (count_outcome "success" outcomes) / inject_Z total
        else 0) /\
     m_total_profit m = sum_profit outcomes /\
     m_total_loss m = sum_loss outcomes /\
     m_net_profit m = sum_profit outcomes + sum_loss outcomes /\
     m_confidence m =
       fmin 1 (inject_Z total / inject_Z (metrics_window_size self))) /\
    (metrics_history (tracker w') =
       (let h := (metrics_history self ++ [m])%list in
        if (metrics_window_size self <? Z.of_nat (length h))%Z
        then slice_last (metrics_window_size self) h else h) /\
     metrics_window_size (tracker w') = metrics_window_size self /\
     min_sample_size (tracker w') = min_sample_size self) /\
    (stored_metrics (db w') =
       (if store_metrics_fails (db w) then stored_metrics (db w)
        else (stored_metrics (db w) ++ [m])%list) /\
     get_trade_outcomes (db w') = get_trade_outcomes (db w) /\
     store_metrics_fails (db w') = store_metrics_fails (db w)).
Proof.
  intros outcomes total self Hge Hwin. unfold calculate_metrics, bind.
  rewrite _get_trade_outcomes_total. unfold gets.
  fold outcomes. fold total. fold self.
  destruct (Z.ltb_spec total (min_sample_size self)); [lia|].
  rewrite (true_div_ok _ _ w (inject_Z_nonzero _ Hwin)).
  unfold uuid4, utcnow, modify, ret.
  destruct (take_uuid (env w)) as [u e1] eqn:Hu. cbn [env set_env].
  destruct (take_now e1) as [t e2] eqn:Ht.
  unfold _store_metrics, try_except, db_store_metrics, ret.
  cbn [db set_history set_env tracker store_metrics_fails metrics_history
       metrics_window_size].
  fold self.
  destruct (metrics_window_size self <? _)%Z eqn:Hcut;
    cbn [db set_history set_env tracker store_metrics_fails];
    destruct (store_metrics_fails (db w)) eqn:Hf;
    (eexists _, _; split; [reflexivity|]);
    cbn [m_total_trades m_successful_trades m_failed_trades m_neutral_trades
         m_success_rate m_total_profit m_total_loss m_net_profit m_confidence
         tracker db set_history metrics_history metrics_window_size
         min_sample_size stored_metrics get_trade_outcomes
         store_metrics_fails set_env];
    fold self; rewrite ?Hcut, ?Hf; repeat split; reflexivity.
Qed.

(** X10: the figures of a full metrics record are consistent whatever
    the outcomes are: the three counts are non-negative and add up to the
    total, the success rate lies in [0, 1], the total profit is
    non-negative and the total loss non-positive, and for a positive
    window the confidence lies in [0, 1] and reaches 1 exactly when at
    least a window's worth of trades is present. *)
Theorem calculate_metrics_invariants (w : World) (timeframe : string) :
  let outcomes := retrieved w timeframe in
  let total := Z.of_nat (length outcomes) in
  let self := tracker w in
  (min_sample_size self <= total)%Z ->
  (0 < metrics_window_size self)%Z ->
  exists m w',
    calculate_metrics timeframe w = (Ok (FullMetrics m), w') /\
    (0 <= m_successful_trades m)%Z /\ (0 <= m_failed_trades m)%Z /\
    (0 <= m_neutral_trades m)%Z /\
    (m_successful_trades m + m_failed_trades m + m_neutral_trades m
     = m_total_trades m)%Z /\
    0 <= m_success_rate m <= 1 /\
    0 <= m_total_profit m /\ m_total_loss m <= 0 /\
    0 <= m_confidence m <= 1 /\
    (m_confidence m == 1 <-> (metrics_window_size self <= total)%Z).
Proof.
  intros outcomes total self Hge Hwin.
  assert (Hnz : metrics_window_size self <> 0%Z) by lia.
  destruct (calculate_metrics_full w timeframe Hge Hnz)
    as (m & w' & Hc & (Ht & Hs & Hf & Hn) & (Hr & Hp & Hl & _ & Hconf) & _).
  fold outcomes in Hs, Hf, Hn, Hr, Hp, Hl. fold total in Ht, Hn, Hr, Hconf.
  fold self in Hconf.
  pose proof (count_outcome_disjoint outcomes) as Hd. fold total in Hd.
  pose proof (count_outcome_nonneg "success" outcomes) as Hs0.
  pose proof (count_outcome_nonneg "failure" outcomes) as Hf0.
  exists m, w'. split; [exact Hc|].
  rewrite Ht, Hs, Hf, Hn, Hr, Hp, Hl, Hconf.
  assert (Hwq : 0 < inject_Z (metrics_window_size self)).
  { rewrite <- (Zlt_Qlt 0). exact Hwin. }
  assert (Htq : 0 <= inject_Z total).
  { rewrite <- (Zle_Qle 0). unfold total. lia. }
  change (Z.of_nat (length (retrieved w timeframe))) with total.
  repeat match goal with |- _ /\ _ => split end; try lia.
  - destruct (Z.ltb_spec 0 total) as [Hpos|]; [|lra].
    apply Qle_shift_div_l; [rewrite <- (Zlt_Qlt 0); exact Hpos|].
    rewrite Qmult_0_l, <- (Zle_Qle 0). exact Hs0.
  - destruct (Z.ltb_spec 0 total) as [Hpos|]; [|lra].
    apply Qle_shift_div_r; [rewrite <- (Zlt_Qlt 0); exact Hpos|].
    rewrite Qmult_1_l, <- Zle_Qle. lia.
  - apply sum_positive_nonneg.
  - apply sum_negative_nonpos.
  - unfold fmin. destruct (Qlt_le_dec _ 1); [|lra].
    apply Qle_shift_div_l; [exact Hwq|]. lra.
  - unfold fmin. destruct (Qlt_le_dec _ 1); lra.
  - assert (Hdiv : 1 <= inject_Z total / inject_Z (metrics_window_size self)
                   <-> (metrics_window_size self <= total)%Z).
    { rewrite Zle_Qle. split; intros Hle.
      - apply (Qmult_le_r _ _ (/ inject_Z (metrics_window_size self)));
          [apply Qinv_lt_0_compat; exact Hwq|].
        rewrite Qmult_inv_r by lra. exact Hle.
      - apply Qle_shift_div_l; [exact Hwq|]. lra. }
    unfold fmin. destruct (Qlt_le_dec _ 1) as [Hlt|Hle]; split.
    + intros Heq. rewrite Heq in Hlt. lra.
    + intros Hle. apply Hdiv in Hle. lra.
    + intros _. apply Hdiv. exact Hle.
    + intros _. lra.
Qed.

(** X11: with a window of at least one, the in-memory metrics history
    never exceeds the window: after a full calculation it holds the last
    [metrics_window_size] records computed, ending with the one just
    returned; and a failing metrics store is swallowed: the same record is
    returned and kept in memory, only the stored copy is missing. *)
Theorem metrics_history_bounded (w : World) (timeframe : string) :
  let outcomes := retrieved w timeframe in
  let self := tracker w in
  (min_sample_size self <= Z.of_nat (length outcomes))%Z ->
  (0 < metrics_window_size self)%Z ->
  exists m w',
    calculate_metrics timeframe w = (Ok (FullMetrics m), w') /\
    (let all := (metrics_history self ++ [m])%list in
     exists dropped, all = (dropped ++ metrics_history (tracker w'))%list /\
       (Z.of_nat (length (metrics_history self)) <= metrics_window_size self ->
        Z.of_nat (length (metrics_history (tracker w')))
        <= metrics_window_size self /\ (length dropped <= 1)%nat)%Z) /\
    last (metrics_history (tracker w')) = Some m /\
    stored_metrics (db w') =
      (if store_metrics_fails (db w) then stored_metrics (db w)
       else (stored_metrics (db w) ++ [m])%list).
Proof.
  intros outcomes self Hge Hwin.
  assert (Hnz : metrics_window_size self <> 0%Z) by lia.
  destruct (calculate_metrics_full w timeframe Hge Hnz)
    as (m & w' & Hc & _ & _ & (Hh & _ & _) & (Hst & _ & _)).
  fold self in Hh. cbv zeta in Hh.
  exists m, w'. split; [exact Hc|].
  set (all := (metrics_history self ++ [m])%list) in *.
  assert (Hlen : length all = S (length (metrics_history self))).
  { unfold all. rewrite length_app. cbn. lia. }
  destruct (Z.ltb_spec (metrics_window_size self) (Z.of_nat (length all)))
    as [Hlt|Hle].
  - rewrite Hh. unfold slice_last.
    destruct (Z.ltb_spec 0 (metrics_window_size self)); [|lia].
    set (k := (length all - Z.to_nat (metrics_window_size self))%nat).
    assert (Hk : (k <= length (metrics_history self))%nat) by (unfold k; lia).
    repeat split.
    + exists (firstn k all). split; [now rewrite firstn_skipn|].
      intros Hin. rewrite length_skipn, length_firstn. unfold k. lia.
    + unfold all. rewrite skipn_app.
      replace (k - length (metrics_history self))%nat with O by lia.
      cbn [skipn]. apply last_snoc.
    + exact Hst.
  - rewrite Hh. repeat split.
    + exists []. split; [reflexivity|]. intros _. cbn. lia.
    + unfold all. apply last_snoc.
    + exact Hst.
Qed.

(** X12: a window of zero makes a calculation with enough data raise
    ZeroDivisionError (the confidence divides by the window) before
    anything is recorded: the history, the store and the clock are
    untouched. *)
Theorem calculate_metrics_zero_window (w : World) (timeframe : string) :
  (min_sample_size (tracker w)
   <= Z.of_nat (length (retrieved w timeframe)))%Z ->
  metrics_window_size (tracker w) = 0%Z ->
  calculate_metrics timeframe w = (Raise ZeroDivisionError, w).
Proof.
  intros Hge Hwin. unfold calculate_metrics, bind.
  rewrite _get_trade_outcomes_total. unfold gets.
  destruct (Z.ltb_spec (Z.of_nat (length (retrieved w timeframe)))
              (min_sample_size (tracker w))); [lia|].
  rewrite Hwin. reflexivity.
Qed.

(** X13: when the collaborator raises while the outcomes are fetched, the
    error is swallowed and the call goes on with no outcomes: for a
    minimum sample size of at least one it answers the insufficient-data
    sentinel with total_trades 0 and changes nothing. *)
Theorem calculate_metrics_fetch_failure (w : World) (timeframe : string)
    (e : exn) :
  get_trade_outcomes (db w) timeframe = Raise e ->
  (0 < min_sample_size (tracker w))%Z ->
  calculate_metrics timeframe w =
    (Ok (InsufficientData timeframe 0 (min_sample_size (tracker w))), w).
Proof.
  intros Hraise Hmin. unfold calculate_metrics, bind.
  rewrite _get_trade_outcomes_total. unfold gets, retrieved.
  rewrite Hraise. cbn [length]. change (Z.of_nat 0) with 0%Z.
  destruct (Z.ltb_spec 0 (min_sample_size (tracker w))); [reflexivity|lia].
Qed.

End PerformanceExtras.

Section PerformanceExtraWitnesses.

Import Performance.
Local Open Scope Q_scope.

Lemma calculate_metrics_invariants_witness :
  (5 <= 6)%Z /\ (0 < 100)%Z /\
  exists m w',
    calculate_metrics "all" perf_world = (Ok (FullMetrics m), w') /\
    (m_successful_trades m + m_failed_trades m + m_neutral_trades m
     = m_total_trades m)%Z /\
    0 <= m_success_rate m <= 1 /\
    0 <= m_total_profit m /\ m_total_loss m <= 0 /\
    0 <= m_confidence m <= 1 /\
    ~ m_confidence m == 1.
Proof.
  assert (H1 : (5 <= 6)%Z) by lia.
  assert (H2 : (0 < 100)%Z) by lia.
  split; [exact H1|]. split; [exact H2|].
  destruct (calculate_metrics_invariants perf_world "all" H1 H2)
    as (m & w' & Hc & _ & _ & _ & Hsum & Hrate & Hp & Hl & Hconf & Hfull).
  exists m, w'.
  split; [exact Hc|]. split; [exact Hsum|]. split; [exact Hrate|].
  split; [exact Hp|]. split; [exact Hl|]. split; [exact Hconf|].
  intros Hone. apply Hfull in Hone. vm_compute in Hone. now apply Hone.
Defined.

Lemma metrics_history_bounded_witness :
  (5 <= 6)%Z /\ (0 < 1)%Z /\
  exists m w',
    calculate_metrics "all" (perf_world_with 1 true)
      = (Ok (FullMetrics m), w') /\
    last (metrics_history (tracker w')) = Some m /\
    stored_metrics (db w') = [].
Proof.
  assert (H1 : (5 <= 6)%Z) by lia.
  assert (H2 : (0 < 1)%Z) by lia.
  split; [exact H1|]. split; [exact H2|].
  destruct (metrics_history_bounded (perf_world_with 1 true) "all" H1 H2)
    as (m & w' & Hc & _ & Hlast & Hst).
  exists m, w'. repeat split; [exact Hc | exact Hlast | exact Hst].
Defined.

Lemma calculate_metrics_zero_window_witness :
  (5 <= 6)%Z /\ 0%Z = 0%Z /\
  calculate_metrics "all" (perf_world_with 0 false)
    = (Raise ZeroDivisionError, perf_world_with 0 false).
Proof.
  assert (H1 : (5 <= 6)%Z) by lia.
  split; [exact H1|]. split; [reflexivity|].
  exact (calculate_metrics_zero_window (perf_world_with 0 false) "all"
           H1 eq_refl).
Defined.

Lemma calculate_metrics_fetch_failure_witness :
  (0 < 5)%Z /\
  calculate_metrics "week" perf_world_offline
    = (Ok (InsufficientData "week" 0 5), perf_world_offline).
Proof.
  assert (H : (0 < 5)%Z) by lia.
  split; [exact H|].
  exact (calculate_metrics_fetch_failure perf_world_offline "week"
           (CollaboratorError "database") eq_refl H).
Defined.

End PerformanceExtraWitnesses.

(** ** Feedback processor: what a call records and what it swallows *)

Section Frames.

Import Store State Database Feedback.
Local Open Scope Q_scope.

Context {B : Type} (f : World -> B).

Lemma preserves_ret {A} (a : A) : preserves f (ret a).
Proof. intros w. reflexivity. Qed.

Lemma preserves_raise {A} (e : exn) : preserves f (@raise World A e).
Proof. intros w. reflexivity. Qed.

Lemma preserves_gets {A} (g : World -> A) : preserves f (gets g).
Proof. intros w. reflexivity. Qed.

Lemma preserves_bind {A C} (c : M World A) (k : A -> M World C) :
  preserves f c -> (forall a, preserves f (k a)) -> preserves f (bind c k).
Proof.
  intros Hc Hk w. unfold bind. specialize (Hc w).
  destruct (c w) as [[a|e] w1]; cbn [snd] in *; [|exact Hc].
  rewrite Hk. exact Hc.
Qed.

Lemma preserves_try {A} (c : M World A) (h : exn -> M World A) :
  preserves f c -> (forall e, preserves f (h e)) ->
  preserves f (try_except c h).
Proof.
  intros Hc Hh w. unfold try_except. specialize (Hc w).
  destruct (c w) as [[a|e] w1]; cbn [snd] in *; [exact Hc|].
  rewrite Hh. exact Hc.
Qed.

Lemma preserves_modify (g : World -> World) :
  (forall w, f (g w) = f w) -> preserves f (modify g).
Proof. intros Hg w. apply Hg. Qed.

Lemma preserves_session (t : table) : preserves f (session t).
Proof. intros w. unfold session. destruct (failing (db w) t); reflexivity. Qed.

Lemma preserves_uuid4 : env_free f -> preserves f uuid4.
Proof.
  intros He w. unfold uuid4. destruct (take_uuid (env w)). apply He.
Qed.

Lemma preserves_utcnow : env_free f -> preserves f utcnow.
Proof.
  intros He w. unfold utcnow. destruct (take_now (env w)). apply He.
Qed.

Lemma preserves_as_number (v : pyval) : preserves f (as_number v).
Proof. intros w. destruct v; reflexivity. Qed.

Lemma preserves_as_key (v : pyval) : preserves f (as_key v).
Proof. intros w. destruct v; reflexivity. Qed.

End Frames.

Ltac frame_step :=
  first
    [ apply preserves_ret | apply preserves_raise | apply preserves_gets
    | apply preserves_session | apply preserves_as_number
    | apply preserves_as_key
    | apply preserves_uuid4; assumption
    | apply preserves_utcnow; assumption
    | apply preserves_bind; [|intros ?]
    | apply preserves_try; [|intros ?]
    | apply preserves_modify; intros ?; solve [auto]
    | match goal with
      | |- preserves _ (match ?x with _ => _ end) => destruct x
      end ].

Ltac frame := repeat frame_step.

Section FeedbackFacts.

Import Store State Database Feedback.
Local Open Scope Q_scope.

Lemma get_market_knowledge_preserves {B} (f : World -> B) (symbol : string) :
  preserves f (get_market_knowledge symbol).
Proof. unfold get_market_knowledge. frame. Qed.

Lemma create_market_knowledge_preserves {B} (f : World -> B)
    (symbol : string) (data : pydict) :
  env_free f -> markets_free f ->
  preserves f (create_market_knowledge symbol data).
Proof. intros He Hm. unfold create_market_knowledge. frame. Qed.

Lemma update_market_knowledge_preserves {B} (f : World -> B)
    (symbol : string) (data : MarketUpdate) :
  markets_free f -> preserves f (update_market_knowledge symbol data).
Proof. intros Hm. unfold update_market_knowledge. frame. Qed.

Lemma get_trader_profile_preserves {B} (f : World -> B) (trader_id : string) :
  preserves f (get_trader_profile trader_id).
Proof. unfold get_trader_profile. frame. Qed.

Lemma create_trader_profile_preserves {B} (f : World -> B)
    (trader_id : string) (data : pydict) :
  env_free f -> traders_free f ->
  preserves f (create_trader_profile trader_id data).
Proof. intros He Hm. unfold create_trader_profile. frame. Qed.

Lemma update_trader_profile_preserves {B} (f : World -> B)
    (trader_id : string) (data : TraderUpdate) :
  traders_free f -> preserves f (update_trader_profile trader_id data).
Proof. intros Hm. unfold update_trader_profile. frame. Qed.

Lemma get_action_pattern_preserves {B} (f : World -> B)
    (pattern_type pattern_key : string) :
  preserves f (get_action_pattern pattern_type pattern_key).
Proof. unfold get_action_pattern. frame. Qed.

Lemma update_action_pattern_preserves {B} (f : World -> B)
    (pattern_type pattern_key : string) (data : PatternUpdate) :
  patterns_free f ->
  preserves f (update_action_pattern pattern_type pattern_key data).
Proof. intros Hm. unfold update_action_pattern. frame. Qed.

Lemma blend_and_log_preserves {B} (f : World -> B)
    (record_data data : pydict) (value : Q) :
  env_free f -> preserves f (blend_and_log record_data data value).
Proof. intros He. unfold blend_and_log. frame. Qed.

Lemma _update_signal_model_preserves {B} (f : World -> B)
    (data : pydict) (value : Q) :
  env_free f -> markets_free f ->
  preserves f (_update_signal_model data value).
Proof.
  intros He Hm. unfold _update_signal_model.
  destruct (dict_get "symbol" data); [|apply preserves_ret].
  apply preserves_try; [|intros ?; apply preserves_ret].
  apply preserves_bind; [apply preserves_as_key|intros symbol].
  apply preserves_bind; [apply get_market_knowledge_preserves|intros found].
  apply preserves_bind.
  { destruct found; [apply preserves_ret|].
    apply create_market_knowledge_preserves; assumption. }
  intros k.
  apply preserves_bind; [apply blend_and_log_preserves; assumption|intros d].
  apply preserves_bind;
    [apply update_market_knowledge_preserves; assumption|intros ?].
  apply preserves_ret.
Qed.

Lemma _update_trader_model_preserves {B} (f : World -> B)
    (data : pydict) (value : Q) :
  env_free f -> traders_free f ->
  preserves f (_update_trader_model data value).
Proof.
  intros He Hm. unfold _update_trader_model.
  destruct (dict_get "trader_id" data); [|apply preserves_ret].
  apply preserves_try; [|intros ?; apply preserves_ret].
  apply preserves_bind; [apply preserves_as_key|intros trader_id].
  apply preserves_bind; [apply get_trader_profile_preserves|intros found].
  apply preserves_bind.
  { destruct found; [apply preserves_ret|].
    apply create_trader_profile_preserves; assumption. }
  intros k.
  apply preserves_bind; [apply blend_and_log_preserves; assumption|intros d].
  apply preserves_bind;
    [apply update_trader_profile_preserves; assumption|intros ?].
  apply preserves_ret.
Qed.

Lemma _update_strategy_model_preserves {B} (f : World -> B)
    (data : pydict) (value : Q) :
  patterns_free f -> preserves f (_update_strategy_model data value).
Proof.
  intros Hp. unfold _update_strategy_model.
  destruct (_ && _)%bool; [apply preserves_ret|].
  destruct (_ && _)%bool; [apply preserves_ret|].
  apply preserves_try; [|intros ?; apply preserves_ret].
  destruct (_ && _)%bool; [|apply preserves_ret].
  apply preserves_bind; [apply preserves_as_key|intros ptype].
  apply preserves_bind; [apply preserves_as_key|intros pkey].
  apply preserves_bind; [apply get_action_pattern_preserves|intros found].
  destruct found as [p|]; [|apply preserves_ret].
  apply preserves_bind; [apply preserves_gets|intros self].
  destruct (Qlt_le_dec _ _); [|destruct (Qlt_le_dec _ _)];
    (apply preserves_bind;
     [apply update_action_pattern_preserves; assumption|intros ?];
     apply preserves_ret).
Qed.

(** A body guarded by [except Exception: print(...)] returns [None]. *)
Lemma try_except_total (c : M World unit) (w : World) :
  fst (try_except c (fun _ => ret tt) w) = Ok tt.
Proof.
  unfold try_except. destruct (c w) as [[[]|e] w']; reflexivity.
Qed.

Lemma _update_signal_model_total (data : pydict) (value : Q) (w : World) :
  fst (_update_signal_model data value w) = Ok tt.
Proof.
  unfold _update_signal_model. destruct (dict_get "symbol" data);
    [apply try_except_total | reflexivity].
Qed.

Lemma _update_trader_model_total (data : pydict) (value : Q) (w : World) :
  fst (_update_trader_model data value w) = Ok tt.
Proof.
  unfold _update_trader_model. destruct (dict_get "trader_id" data);
    [apply try_except_total | reflexivity].
Qed.

Lemma _update_strategy_model_total (data : pydict) (value : Q) (w : World) :
  fst (_update_strategy_model data value w) = Ok tt.
Proof.
  unfold _update_strategy_model.
  destruct (_ && _)%bool; [reflexivity|].
  destruct (_ && _)%bool; [reflexivity|].
  apply try_except_total.
Qed.

End FeedbackFacts.

Section FeedbackExtras.

Import Store State Database Feedback.
Local Open Scope Q_scope.

Lemma fmax_fmin_range (lo hi x : Q) :
  lo <= hi -> lo <= fmax lo (fmin hi x) <= hi.
Proof.
  intros H. unfold fmax, fmin.
  destruct (Qlt_le_dec x hi); destruct (Qlt_le_dec lo _); lra.
Qed.

Lemma fmin_fmax_range (lo hi x : Q) :
  lo <= hi -> lo <= fmin hi (fmax lo x) <= hi.
Proof.
  intros H. unfold fmax, fmin.
  destruct (Qlt_le_dec lo x); destruct (Qlt_le_dec _ hi); lra.
Qed.

Lemma normalize_accepted (v : pyval) (w : World) :
  accepted v = true ->
  exists q, normalize v w = (Ok q, w) /\ -1 <= q <= 1.
Proof.
  destruct v; try discriminate; intros _; unfold normalize.
  - eexists; split; [reflexivity|]. apply fmax_fmin_range. lra.
  - eexists; split; [reflexivity|]. apply fmax_fmin_range. lra.
  - eexists; split; [reflexivity|]. apply fmax_fmin_range. lra.
  - destruct (among ["positive"; "good"; "yes"] (lower s));
      [eexists; split; [reflexivity|lra]|].
    destruct (among ["negative"; "bad"; "no"] (lower s));
      eexists; (split; [reflexivity|lra]).
Qed.

Lemma normalize_rejected (v : pyval) (w : World) :
  accepted v = false -> normalize v w = (Raise TypeError, w).
Proof. destruct v; try discriminate; reflexivity. Qed.

Lemma _store_feedback_spec (feedback_record : pydict) (w : World) :
  _store_feedback feedback_record w
  = (Ok (default PNone (dict_get "id" feedback_record)),
     if failing (db w) FeedbackLog then w
     else set_db (set_stored_feedback
                    (stored_feedback (db w) ++ [feedback_record])%list
                    (db w)) w).
Proof.
  unfold _store_feedback, try_except, store_feedback, bind, session, modify,
    ret.
  destruct (failing (db w) FeedbackLog); reflexivity.
Qed.

Lemma _store_trade_outcome_spec (outcome_record : pydict) (w : World) :
  _store_trade_outcome outcome_record w
  = (Ok (default PNone (dict_get "id" outcome_record)),
     if failing (db w) OutcomeLog then w
     else set_db (set_stored_outcomes
                    (stored_outcomes (db w) ++ [outcome_record])%list
                    (db w)) w).
Proof.
  unfold _store_trade_outcome, try_except, store_trade_outcome, bind, session,
    modify, ret.
  destruct (failing (db w) OutcomeLog); reflexivity.
Qed.

(** The model update a piece of user feedback is routed to. *)
Lemma route_total (feedback_type : pyval) (data : pydict) (value : Q)
    (w : World) :
  let route :=
    if is_str "trade_signal" feedback_type
    then _update_signal_model data value
    else if is_str "trader_reliability" feedback_type
         then _update_trader_model data value
         else if is_str "strategy" feedback_type
              then _update_strategy_model data value
              else ret tt in
  fst (route w) = Ok tt /\
  in_memory_history (snd (route w)) = in_memory_history w /\
  stored_feedback (db (snd (route w))) = stored_feedback (db w) /\
  stored_outcomes (db (snd (route w))) = stored_outcomes (db w) /\
  failing (db (snd (route w))) = failing (db w).
Proof.
  cbv zeta.
  destruct (is_str "trade_signal" feedback_type);
    [|destruct (is_str "trader_reliability" feedback_type);
      [|destruct (is_str "strategy" feedback_type)]].
  - split; [apply _update_signal_model_total|].
    repeat split;
      [ apply (_update_signal_model_preserves in_memory_history data value)
      | apply (_update_signal_model_preserves
                 (fun w => stored_feedback (db w)) data value)
      | apply (_update_signal_model_preserves
                 (fun w => stored_outcomes (db w)) data value)
      | apply (_update_signal_model_preserves
                 (fun w => failing (db w)) data value) ];
      intros ? ?; reflexivity.
  - split; [apply _update_trader_model_total|].
    repeat split;
      [ apply (_update_trader_model_preserves in_memory_history data value)
      | apply (_update_trader_model_preserves
                 (fun w => stored_feedback (db w)) data value)
      | apply (_update_trader_model_preserves
                 (fun w => stored_outcomes (db w)) data value)
      | apply (_update_trader_model_preserves
                 (fun w => failing (db w)) data value) ];
      intros ? ?; reflexivity.
  - split; [apply _update_strategy_model_total|].
    repeat split;
      [ apply (_update_strategy_model_preserves in_memory_history data value)
      | apply (_update_strategy_model_preserves
                 (fun w => stored_feedback (db w)) data value)
      | apply (_update_strategy_model_preserves
                 (fun w => stored_outcomes (db w)) data value)
      | apply (_update_strategy_model_preserves
                 (fun w => failing (db w)) data value) ];
      intros ? ?; reflexivity.
  - repeat split; reflexivity.
Qed.

(** What one call of [process_user_feedback] with an accepted value
    returns and leaves behind. *)
Lemma process_user_feedback_effect (feedback_data : pydict) (w : World) :
  accepted (default (PFloat 0) (dict_get "value" feedback_data)) = true ->
  exists r record w',
    process_user_feedback feedback_data w = (Ok r, w') /\
    in_memory_history w' = (in_memory_history w ++ [record])%list /\
    stored_feedback (db w')
      = (if failing (db w) FeedbackLog then stored_feedback (db w)
         else (stored_feedback (db w) ++ [record])%list) /\
    (dict_get "id" record = Some (feedback_id r) /\
     dict_get "value" record = Some (PFloat (normalized_value r)) /\
     dict_get "source" record = Some (PStr "user")) /\
    (uf_status r = "processed" /\
     applied_to r = default (PStr "general") (dict_get "type" feedback_data) /\
     -1 <= normalized_value r <= 1) /\
    failing (db w') = failing (db w).
Proof.
  intros Hacc. unfold process_user_feedback.
  unfold bind at 1.
  destruct (normalize_accepted _ w Hacc) as (q & Hn & Hq). rewrite Hn.
  unfold bind at 1. unfold uuid4.
  destruct (take_uuid (env w)) as [id e1] eqn:Hu.
  unfold bind at 1. unfold utcnow. cbn [env set_env].
  destruct (take_now e1) as [ts e2] eqn:Ht.
  unfold bind at 1. unfold modify at 1.
  unfold bind at 1. rewrite _store_feedback_spec.
  match goal with
  | |- context [bind ?route _ ?w0] =>
      pose proof (route_total
                    (default (PStr "general") (dict_get "type" feedback_data))
                    feedback_data q w0) as Hroute
  end.
  cbv zeta in Hroute. destruct Hroute as (Hok & Hmem & Hsf & _ & Hfl).
  unfold bind at 1.
  match type of Hok with
  | fst (?c ?w0) = _ => destruct (c w0) as [o w5] eqn:Hrun
  end.
  cbn [fst snd] in Hok, Hmem, Hsf, Hfl. subst o. unfold ret.
  eexists _, _, _. split; [reflexivity|].
  cbn [uf_status applied_to normalized_value feedback_id].
  rewrite Hmem, Hsf, Hfl. unfold in_memory_history.
  cbn [db set_env set_feedback_history set_feedback_processor
       feedback_processor feedback_history].
  split; [destruct (failing (db w) FeedbackLog); reflexivity|].
  split; [destruct (failing (db w) FeedbackLog); reflexivity|].
  split; [repeat split; reflexivity|].
  split; [repeat split; solve [reflexivity | apply Hq]|].
  destruct (failing (db w) FeedbackLog); reflexivity.
Qed.

(** X14: [process_user_feedback] never fails on an accepted value (a
    string or a number), whatever the state of the database: it answers
    "processed" with a normalized value in [-1, 1], appends exactly one
    record (source "user", that value, the returned id) to the in-memory
    history, and stores the same record unless the feedback store is
    failing.  A value that is neither a string nor a number raises
    TypeError before anything is recorded. *)
Theorem process_user_feedback_total (feedback_data : pydict) (w : World) :
  let value := default (PFloat 0) (dict_get "value" feedback_data) in
  (accepted value = true ->
   exists r record w',
     process_user_feedback feedback_data w = (Ok r, w') /\
     uf_status r = "processed" /\
     applied_to r = default (PStr "general") (dict_get "type" feedback_data) /\
     -1 <= normalized_value r <= 1 /\
     dict_get "id" record = Some (feedback_id r) /\
     dict_get "value" record = Some (PFloat (normalized_value r)) /\
     dict_get "source" record = Some (PStr "user") /\
     in_memory_history w' = (in_memory_history w ++ [record])%list /\
     stored_feedback (db w')
       = (if failing (db w) FeedbackLog then stored_feedback (db w)
          else (stored_feedback (db w) ++ [record])%list)) /\
  (accepted value = false ->
   process_user_feedback feedback_data w = (Raise TypeError, w)).
Proof.
  intros value. split.
  - intros Hacc.
    destruct (process_user_feedback_effect feedback_data w Hacc)
      as (r & record & w' & Hrun & Hmem & Hst & (Hid & Hv & Hs)
          & (Hstatus & Happ & Hrange) & _).
    exists r, record, w'. repeat split; solve [assumption | apply Hrange].
  - intros Hrej. unfold process_user_feedback, bind.
    fold value. rewrite (normalize_rejected value w Hrej). reflexivity.
Qed.

(** X16: the reward of a trade outcome follows the label, not the
    amount: a "success" (in any letter case) earns between 0.1 and 1 even
    at a loss, a "failure" between -1 and -0.1 even at a profit, any other
    label earns 0 without the amount being read; inside [10, 100] (resp.
    [-100, -10]) the reward is the amount over 100. *)
Theorem _calculate_reward_range (outcome : string) (profit_loss : pyval)
    (w : World) :
  numeric profit_loss = true \/
  (lower outcome <> "success" /\ lower outcome <> "failure") ->
  exists r,
    _calculate_reward (PStr outcome) profit_loss w = (Ok r, w) /\
    -1 <= r <= 1 /\
    (lower outcome = "success" ->
     1 # 10 <= r /\
     (10 <= number_of profit_loss <= 100 ->
      r == number_of profit_loss / 100)) /\
    (lower outcome = "failure" ->
     r <= - (1 # 10) /\
     (-100 <= number_of profit_loss <= -10 ->
      r == number_of profit_loss / 100)) /\
    (lower outcome <> "success" -> lower outcome <> "failure" -> r = 0).
Proof.
  intros Hin. unfold _calculate_reward.
  destruct (String.eqb_spec (lower outcome) "success") as [Hs|Hs].
  - destruct Hin as [Hnum|[Hne _]]; [|contradiction].
    assert (Hn : as_number profit_loss w = (Ok (number_of profit_loss), w)).
    { destruct profit_loss; try discriminate; reflexivity. }
    unfold bind. rewrite Hn. unfold ret.
    set (p := number_of profit_loss).
    eexists. split; [reflexivity|].
    assert (Hr : 1 # 10 <= fmin 1 (fmax (1 # 10) (p / 100)) <= 1)
      by (apply fmin_fmax_range; lra).
    split; [lra|]. split; [|split].
    + intros _. split; [lra|]. intros Hp.
      assert (Hx : p == 100 * (p / 100)) by (field; lra).
      clear Hr. set (x := p / 100) in *. unfold fmin, fmax.
      destruct (Qlt_le_dec (1 # 10) x); destruct (Qlt_le_dec _ 1); lra.
    + intros Hf. rewrite Hs in Hf. discriminate.
    + intros Hne. contradiction.
  - destruct (String.eqb_spec (lower outcome) "failure") as [Hf|Hf].
    + destruct Hin as [Hnum|[_ Hne]]; [|contradiction].
      assert (Hn : as_number profit_loss w = (Ok (number_of profit_loss), w)).
      { destruct profit_loss; try discriminate; reflexivity. }
      unfold bind. rewrite Hn. unfold ret.
      set (p := number_of profit_loss).
      eexists. split; [reflexivity|].
      assert (Hr : -1 <= fmax (-1) (fmin (- (1 # 10)) (p / 100))
                   <= - (1 # 10))
        by (apply fmax_fmin_range; lra).
      split; [lra|]. split; [|split].
      * intros Hs'. contradiction.
      * intros _. split; [lra|]. intros Hp.
        assert (Hx : p == 100 * (p / 100)) by (field; lra).
        clear Hr. set (x := p / 100) in *. unfold fmin, fmax.
        destruct (Qlt_le_dec x (- (1 # 10)));
          destruct (Qlt_le_dec (-1) _); lra.
      * intros _ Hne. contradiction.
    + eexists. split; [reflexivity|]. split; [lra|].
      split; [intros; contradiction|]. split; [intros; contradiction|].
      reflexivity.
Qed.

Lemma bind_total_unit {A} (c : M World unit) (k : unit -> M World A)
    (w : World) :
  fst (c w) = Ok tt -> bind c k w = k tt (snd (c w)).
Proof.
  unfold bind. destruct (c w) as [o w']. cbn [fst snd]. intros ->. reflexivity.
Qed.

Lemma _calculate_reward_returns (outcome : string) (profit_loss : pyval) :
  numeric profit_loss = true \/
  (lower outcome <> "success" /\ lower outcome <> "failure") ->
  exists r,
    (forall w : World,
       _calculate_reward (PStr outcome) profit_loss w = (Ok r, w)) /\
    -1 <= r <= 1.
Proof.
  intros Hin. unfold _calculate_reward.
  assert (Hn : numeric profit_loss = true ->
               forall w : World,
                 as_number profit_loss w = (Ok (number_of profit_loss), w)).
  { intros Hnum w. destruct profit_loss; try discriminate; reflexivity. }
  destruct (String.eqb_spec (lower outcome) "success") as [Hs|Hs].
  - destruct Hin as [Hnum|[Hne _]]; [|contradiction].
    eexists. split.
    + intros w. unfold bind. rewrite (Hn Hnum w). reflexivity.
    + pose proof (fmin_fmax_range (1 # 10) 1 (number_of profit_loss / 100)).
      lra.
  - destruct (String.eqb_spec (lower outcome) "failure") as [Hf|Hf].
    + destruct Hin as [Hnum|[_ Hne]]; [|contradiction].
      eexists. split.
      * intros w. unfold bind. rewrite (Hn Hnum w). reflexivity.
      * pose proof (fmax_fmin_range (-1) (- (1 # 10))
                      (number_of profit_loss / 100)).
        lra.
    + exists 0. split; [reflexivity|lra].
Qed.

(** What one call of [process_trade_outcome] returns and leaves behind
    when the outcome label is a string. *)
Lemma process_trade_outcome_effect (trade_data : pydict) (w : World)
    (label : string) :
  default (PStr "unknown") (dict_get "outcome" trade_data) = PStr label ->
  numeric (default (PFloat 0) (dict_get "profit_loss" trade_data)) = true \/
  (lower label <> "success" /\ lower label <> "failure") ->
  exists r record w',
    process_trade_outcome trade_data w = (Ok r, w') /\
    in_memory_history w' = (in_memory_history w ++ [record])%list /\
    stored_outcomes (db w')
      = (if failing (db w) OutcomeLog then stored_outcomes (db w)
         else (stored_outcomes (db w) ++ [record])%list) /\
    (dict_get "id" record = Some (outcome_id r) /\
     dict_get "reward" record = Some (PFloat (reward_of r)) /\
     dict_get "source" record = Some (PStr "system")) /\
    (to_status r = "processed" /\ -1 <= reward_of r <= 1 /\
     forall w0 : World,
       _calculate_reward (PStr label)
         (default (PFloat 0) (dict_get "profit_loss" trade_data)) w0
       = (Ok (reward_of r), w0)).
Proof.
  intros Hlabel Hin. unfold process_trade_outcome.
  unfold bind at 1. unfold uuid4 at 1.
  destruct (take_uuid (env w)) as [fresh e1] eqn:Hu.
  rewrite Hlabel.
  destruct (_calculate_reward_returns label _ Hin) as (reward & Hrew & Hrange).
  unfold bind at 1. rewrite Hrew.
  unfold bind at 1. unfold uuid4. cbn [env set_env].
  destruct (take_uuid e1) as [id e2] eqn:Hu2.
  unfold bind at 1. unfold utcnow. cbn [env set_env].
  destruct (take_now e2) as [ts e3] eqn:Ht.
  unfold bind at 1. unfold modify at 1.
  unfold bind at 1. rewrite _store_trade_outcome_spec.
  rewrite (bind_total_unit _ _ _ (_update_signal_model_total _ _ _)).
  match goal with
  | |- context [bind ?c _ (snd (_update_signal_model ?d ?v ?w4))] =>
      set (W4 := w4);
      pose proof (_update_signal_model_preserves in_memory_history d v
                    (fun _ _ => eq_refl) (fun _ _ => eq_refl) W4) as Hm;
      pose proof (_update_signal_model_preserves
                    (fun w => stored_outcomes (db w)) d v
                    (fun _ _ => eq_refl) (fun _ _ => eq_refl) W4) as Hs;
      cbv beta in Hs;
      set (W5 := snd (_update_signal_model d v W4)) in *;
      assert (Htr : fst (c W5) = Ok tt /\
                in_memory_history (snd (c W5)) = in_memory_history W5 /\
                stored_outcomes (db (snd (c W5))) = stored_outcomes (db W5));
      [|destruct Htr as (Hok & Hm2 & Hs2);
        rewrite (bind_total_unit _ _ _ Hok);
        set (W6 := snd (c W5)) in * ]
  end.
  { destruct (dict_get "trader_id" trade_data) as [t|].
    - split; [apply _update_trader_model_total|]. split.
      + apply (_update_trader_model_preserves in_memory_history);
          intros ? ?; reflexivity.
      + apply (_update_trader_model_preserves
                 (fun w => stored_outcomes (db w))); intros ? ?; reflexivity.
    - repeat split; reflexivity. }
  unfold ret. eexists _, _, W6. split; [reflexivity|].
  cbn [to_status reward_of outcome_id].
  rewrite Hm2, Hs2, Hm, Hs. unfold W4, in_memory_history.
  cbn [db set_env set_feedback_history set_feedback_processor
       feedback_processor feedback_history].
  split; [destruct (failing (db w) OutcomeLog); reflexivity|].
  split; [destruct (failing (db w) OutcomeLog); reflexivity|].
  split; [repeat split; reflexivity|].
  split; [reflexivity|]. split; [exact Hrange | exact Hrew].
Qed.

(** X17: [process_trade_outcome] never fails when the outcome label is
    a string and the amount a number, whatever the state of the database:
    it answers "processed" with the reward of the label, appends exactly
    one record (source "system", that reward, the returned id) to the
    in-memory history and stores it unless the outcome store is failing.
    An outcome that is not a string raises AttributeError, and nothing is
    recorded in memory or in the database. *)
Theorem process_trade_outcome_total (trade_data : pydict) (w : World) :
  let outcome := default (PStr "unknown") (dict_get "outcome" trade_data) in
  let profit_loss :=
    default (PFloat 0) (dict_get "profit_loss" trade_data) in
  (forall label, outcome = PStr label -> numeric profit_loss = true ->
   exists r record w',
     process_trade_outcome trade_data w = (Ok r, w') /\
     to_status r = "processed" /\ -1 <= reward_of r <= 1 /\
     _calculate_reward outcome profit_loss w = (Ok (reward_of r), w) /\
     dict_get "id" record = Some (outcome_id r) /\
     dict_get "reward" record = Some (PFloat (reward_of r)) /\
     dict_get "source" record = Some (PStr "system") /\
     in_memory_history w' = (in_memory_history w ++ [record])%list /\
     stored_outcomes (db w')
       = (if failing (db w) OutcomeLog then stored_outcomes (db w)
          else (stored_outcomes (db w) ++ [record])%list)) /\
  ((forall label, outcome <> PStr label) ->
   exists w',
     process_trade_outcome trade_data w = (Raise AttributeError, w') /\
     in_memory_history w' = in_memory_history w /\ db w' = db w).
Proof.
  intros outcome profit_loss. split.
  - intros label Hlabel Hnum.
    destruct (process_trade_outcome_effect trade_data w label Hlabel
                (or_introl Hnum))
      as (r & record & w' & Hrun & Hmem & Hst & (Hid & Hrw & Hsrc)
          & (Hstatus & Hrange & Hrew)).
    exists r, record, w'. rewrite Hlabel.
    repeat split; solve [assumption | apply Hrange | apply Hrew].
  - intros Hns. unfold process_trade_outcome.
    unfold bind at 1. unfold uuid4 at 1.
    destruct (take_uuid (env w)) as [fresh e1] eqn:Hu.
    fold outcome. unfold bind at 1.
    destruct outcome as [| | | |s| |] eqn:Ho;
      try (eexists; split; [reflexivity|split; reflexivity]).
    exfalso. apply (Hns s). reflexivity.
Qed.

(** X15: the in-memory feedback history is never trimmed: over any
    sequence of calls of [process_user_feedback] and
    [process_trade_outcome], in any order and each with its own input,
    whose inputs are processable, the history keeps every earlier record
    in place and gains exactly one record per call, in call order, each
    naming the source of its call ("user" or "system"). *)
Theorem feedback_history_never_trimmed (events : list Event) (w : World) :
  Forall (fun e => processable e = true) events ->
  exists records,
    in_memory_history (replay events w)
    = (in_memory_history w ++ records)%list /\
    Forall2 (fun e record =>
               dict_get "source" record = Some (PStr (source_of e)))
            events records.
Proof.
  intros Hall. revert w.
  induction Hall as [|e events He _ IH]; intros w.
  - exists []. split; [now rewrite app_nil_r | constructor].
  - unfold replay. cbn [fold_left]. fold (replay events (handle w e)).
    destruct (IH (handle w e)) as (records & Hmem & Hsrc).
    assert (Hone : exists record,
               in_memory_history (handle w e)
               = (in_memory_history w ++ [record])%list /\
               dict_get "source" record = Some (PStr (source_of e))).
    { destruct e as [feedback_data|trade_data]; cbn [handle source_of].
      - destruct (process_user_feedback_effect feedback_data w He)
          as (r & record & w' & Hrun & Hm & _ & (_ & _ & Hs) & _).
        exists record. rewrite Hrun. now split.
      - cbn [processable] in He.
        destruct (default (PStr "unknown") (dict_get "outcome" trade_data))
          as [| | | |label| |] eqn:Hlabel; try discriminate.
        destruct (process_trade_outcome_effect trade_data w label Hlabel
                    (or_introl He))
          as (r & record & w' & Hrun & Hm & _ & (_ & _ & Hs) & _).
        exists record. rewrite Hrun. now split. }
    destruct Hone as (record & Hm & Hs).
    exists (record :: records). split.
    + rewrite Hmem, Hm, <- app_assoc. reflexivity.
    + now constructor.
Qed.

End FeedbackExtras.

Section FeedbackExtraWitnesses.

Import Store State Database Feedback.
Local Open Scope Q_scope.

Lemma process_user_feedback_total_witness :
  accepted (PStr "Good") = true /\
  exists r w',
    process_user_feedback signal_feedback offline_world = (Ok r, w') /\
    uf_status r = "processed" /\
    length (in_memory_history w') = 1%nat /\
    stored_feedback (db w') = [].
Proof.
  split; [reflexivity|].
  destruct (proj1 (process_user_feedback_total signal_feedback offline_world)
              eq_refl)
    as (r & record & w' & Hrun & Hstatus & _ & _ & _ & _ & _ & Hmem & Hst).
  exists r, w'. split; [exact Hrun|]. split; [exact Hstatus|].
  split; [rewrite Hmem; reflexivity | exact Hst].
Defined.

Lemma feedback_history_never_trimmed_witness :
  Forall (fun e => processable e = true)
    [OfUser signal_feedback; OfTrade losing_success; OfUser trader_feedback] /\
  exists records,
    in_memory_history
      (replay [OfUser signal_feedback; OfTrade losing_success;
               OfUser trader_feedback] offline_world)
    = (in_memory_history offline_world ++ records)%list /\
    map (dict_get "source") records
    = [Some (PStr "user"); Some (PStr "system"); Some (PStr "user")].
Proof.
  assert (Hall : Forall (fun e => processable e = true)
            [OfUser signal_feedback; OfTrade losing_success;
             OfUser trader_feedback])
    by (repeat constructor).
  split; [exact Hall|].
  destruct (feedback_history_never_trimmed _ offline_world Hall)
    as (records & Hmem & Hsrc).
  exists records. split; [exact Hmem|].
  inversion Hsrc as [|e1 r1 es1 rs1 H1 Hs1]; subst.
  inversion Hs1 as [|e2 r2 es2 rs2 H2 Hs2]; subst.
  inversion Hs2 as [|e3 r3 es3 rs3 H3 Hs3]; subst.
  inversion Hs3; subst.
  cbn [map]. now rewrite H1, H2, H3.
Defined.

Lemma _calculate_reward_range_witness :
  numeric (PInt (-250)) = true /\
  exists r,
    _calculate_reward (PStr "Success") (PInt (-250)) offline_world
      = (Ok r, offline_world) /\
    1 # 10 <= r.
Proof.
  split; [reflexivity|].
  destruct (_calculate_reward_range "Success" (PInt (-250)) offline_world
              (or_introl eq_refl))
    as (r & Hrun & _ & Hs & _).
  exists r. split; [exact Hrun|]. apply Hs. reflexivity.
Defined.

Lemma process_trade_outcome_total_witness :
  numeric (PInt (-250)) = true /\
  exists r w',
    process_trade_outcome losing_success offline_world = (Ok r, w') /\
    to_status r = "processed" /\
    length (in_memory_history w') = 1%nat /\
    stored_outcomes (db w') = [].
Proof.
  split; [reflexivity|].
  destruct (proj1 (process_trade_outcome_total losing_success offline_world)
              "Success" eq_refl eq_refl)
    as (r & record & w' & Hrun & Hstatus & _ & _ & _ & _ & _ & Hmem & Hst).
  exists r, w'. split; [exact Hrun|]. split; [exact Hstatus|].
  split; [rewrite Hmem; reflexivity | exact Hst].
Defined.

End FeedbackExtraWitnesses.

(** ** Feedback processor: the per-record feedback history *)

Section FeedbackHistory.

Import Store State Database Feedback.
Local Open Scope Q_scope.

Lemma capped_length (l : list pyval) : (length (capped l) <= 100)%nat.
Proof.
  unfold capped, history_cap.
  destruct (Z.ltb_spec 100 (Z.of_nat (length l))) as [Hlt|Hle]; [|lia].
  pose proof (slice_last_length 100 l ltac:(lia)). lia.
Qed.

Lemma clamp01_range (x : Q) : 0 <= clamp01 x <= 1.
Proof. unfold clamp01. apply fmax_fmin_range. lra. Qed.

Lemma data_of_NoDup (column : option pydict) : NoDup (keys (data_of column)).
Proof. destruct column; [apply NoDup_loads | constructor]. Qed.

Lemma dict_get_loads (k : string) (d : pydict) :
  NoDup (keys d) -> dict_get k (loads d) = dict_get k d.
Proof. intros Hd. now rewrite loads_id. Qed.

(** What [blend_and_log] hands back when it returns. *)
Lemma blend_and_log_ok (record_data data : pydict) (value : Q)
    (w w' : World) (result : pydict) :
  NoDup (keys record_data) ->
  blend_and_log record_data data value w = (Ok result, w') ->
  well_formed record_data = true /\
  w' = set_env (snd (take_now (env w))) w /\
  NoDup (keys result) /\
  dict_get "feedback_history" result
    = Some (PList (capped (history_of record_data
                           ++ [feedback_entry value (fst (take_now (env w)))
                                 data])%list)) /\
  dict_get "reliability" result
    = Some (PFloat (clamp01 (reliability_of record_data
                             * feedback_decay (feedback_processor w)
                             + value
                               * (1 - feedback_decay (feedback_processor w))))).
Proof.
  intros Hnd. unfold blend_and_log, well_formed, reliability_of, history_of.
  unfold bind at 1. unfold gets. unfold bind at 1.
  set (decay := feedback_decay (feedback_processor w)).
  set (rel := default (PFloat (1 # 2)) (dict_get "reliability" record_data)).
  assert (Hnum : numeric rel = true ->
                 as_number rel w = (Ok (number_of rel), w)).
  { destruct rel; try discriminate; reflexivity. }
  destruct (numeric rel) eqn:Hrel;
    [|destruct rel; try discriminate Hrel; discriminate].
  rewrite (Hnum eq_refl).
  set (nr := clamp01 (number_of rel * decay + value * (1 - decay))).
  set (rd1 := dict_set "reliability" (PFloat nr) record_data).
  assert (Hfh1 : dict_get "feedback_history" rd1
                 = dict_get "feedback_history" record_data).
  { apply dict_get_set_ne. discriminate. }
  assert (Hnd1 : NoDup (keys rd1)) by (apply NoDup_dict_set, Hnd).
  unfold dict_mem. rewrite Hfh1.
  destruct (dict_get "feedback_history" record_data) as [h|] eqn:Hfh.
  - rewrite Hfh1. destruct h as [| | | | |h|]; try discriminate.
    unfold bind, utcnow. destruct (take_now (env w)) as [ts e] eqn:Ht.
    unfold ret. intros [= <- <-]. cbn [fst snd andb].
    split; [reflexivity|]. split; [reflexivity|].
    split; [apply NoDup_dict_set, Hnd1|].
    split; [rewrite dict_get_set_eq; reflexivity|].
    rewrite dict_get_set_ne by discriminate. apply dict_get_set_eq.
  - rewrite dict_get_set_eq.
    unfold bind, utcnow. destruct (take_now (env w)) as [ts e] eqn:Ht.
    unfold ret. intros [= <- <-]. cbn [fst snd andb].
    split; [reflexivity|]. split; [reflexivity|].
    split; [apply NoDup_dict_set, NoDup_dict_set, Hnd1|].
    split; [rewrite dict_get_set_eq; reflexivity|].
    rewrite !dict_get_set_ne by discriminate. apply dict_get_set_eq.
Qed.

(** It returns on every well-formed record. *)
Lemma blend_and_log_total (record_data data : pydict) (value : Q)
    (w : World) :
  well_formed record_data = true ->
  exists result w', blend_and_log record_data data value w = (Ok result, w').
Proof.
  unfold well_formed, blend_and_log. intros Hwf.
  apply andb_prop in Hwf. destruct Hwf as [Hrel Hh].
  unfold bind at 1. unfold gets. unfold bind at 1.
  set (rel := default (PFloat (1 # 2)) (dict_get "reliability" record_data))
    in *.
  assert (Hnum : as_number rel w = (Ok (number_of rel), w)).
  { destruct rel; try discriminate; reflexivity. }
  rewrite Hnum. unfold dict_mem.
  rewrite (dict_get_set_ne "feedback_history" "reliability") by discriminate.
  destruct (dict_get "feedback_history" record_data) as [h|] eqn:Hfh.
  - rewrite (dict_get_set_ne "feedback_history" "reliability") by discriminate.
    rewrite Hfh. destruct h; try discriminate.
    unfold bind, utcnow. destruct (take_now (env w)). eexists _, _. reflexivity.
  - rewrite dict_get_set_eq.
    unfold bind, utcnow. destruct (take_now (env w)). eexists _, _. reflexivity.
Qed.

(** What [_update_signal_model] does to the market table when the symbol
    is a string and the table can be reached. *)
Lemma _update_signal_model_market (data : pydict) (value : Q)
    (symbol : string) (w : World) :
  dict_get "symbol" data = Some (PStr symbol) ->
  failing (db w) Markets = false ->
  let w' := snd (_update_signal_model data value w) in
  if well_formed (market_data w symbol) then
    exists k' ts,
      market_knowledge (db w')
        = <[symbol := k']> (market_knowledge (db w)) /\
      dict_get "feedback_history" (data_of (mk_data k'))
        = Some (PList (capped (market_history w symbol
                               ++ [feedback_entry value ts data])%list)) /\
      dict_get "reliability" (data_of (mk_data k'))
        = Some (PFloat
                  (clamp01 (reliability_of (market_data w symbol)
                            * feedback_decay (feedback_processor w)
                            + value
                              * (1 - feedback_decay (feedback_processor w)))))
  else market_knowledge (db w') = market_knowledge (db w).
Proof.
  intros Hsym Hf. cbv zeta.
  destruct (_update_signal_model data value w) as [o w'] eqn:Hrun.
  cbn [snd]. revert Hrun.
  unfold _update_signal_model. rewrite Hsym.
  unfold try_except. unfold bind at 1. unfold as_key, ret.
  unfold bind at 1. unfold get_market_knowledge, bind at 1, session.
  rewrite Hf. unfold gets.
  unfold market_data, market_history.
  destruct (market_knowledge (db w) !! symbol) as [k|] eqn:Hk.
  - unfold bind at 1. unfold bind at 1.
    destruct (blend_and_log (data_of (mk_data k)) data value w)
      as [[md|e] w2] eqn:Hb.
    + destruct (blend_and_log_ok _ _ _ _ _ _ (data_of_NoDup _) Hb)
        as (Hwf & -> & Hnd & Hh & Hr).
      rewrite Hwf.
      unfold bind at 1. unfold update_market_knowledge, bind at 1, session.
      cbn [db set_env]. rewrite Hf. unfold bind at 1, gets. cbn [db set_env].
      rewrite Hk. unfold bind at 1, modify, ret. intros [= _ <-].
      cbn [snd db set_db set_market_knowledge market_knowledge set_env
           mk_data].
      eexists _, _. split; [reflexivity|]. cbn [mk_data data_of].
      assert (Hnd' : NoDup (keys (dict_update (data_of (mk_data k)) md)))
        by apply NoDup_dict_update, data_of_NoDup.
      rewrite !(dict_get_loads _ _ Hnd'), !(dict_get_update _ _ _ Hnd).
      rewrite Hh, Hr. split; reflexivity.
    + intros [= _ <-].
      pose proof (blend_and_log_preserves
                    (fun w => market_knowledge (db w))
                    (data_of (mk_data k)) data value
                    (fun _ _ => eq_refl) w) as Hp.
      rewrite Hb in Hp. cbn [snd] in Hp.
      destruct (well_formed (data_of (mk_data k))) eqn:Hwf; [|exact Hp].
      destruct (blend_and_log_total _ data value w Hwf) as (r & w3 & Hok).
      rewrite Hok in Hb. discriminate.
  - unfold bind at 1.
    unfold create_market_knowledge, bind at 1, uuid4.
    destruct (take_uuid (env w)) as [id e1] eqn:Hu.
    unfold bind at 1, session. cbn [db set_env]. rewrite Hf.
    unfold bind at 1, gets. cbn [db set_env]. rewrite Hk.
    unfold bind at 1, modify. unfold ret at 1.
    cbn [mk_data data_column data_of]. unfold bind at 1.
    match goal with
    | |- context [blend_and_log [] data value ?w1] =>
        set (W1 := w1);
        destruct (blend_and_log [] data value W1) as [[md|e] w2] eqn:Hb
    end.
    + destruct (blend_and_log_ok _ _ _ _ _ _ (NoDup_nil_2 : NoDup (keys []))
                  Hb)
        as (_ & -> & Hnd & Hh & Hr).
      change (well_formed []) with true. cbv iota.
      assert (HfW : failing (db W1) Markets = false) by exact Hf.
      assert (HmW : market_knowledge (db W1)
                    = <[symbol := {| mk_id := id; mk_symbol := symbol;
                                     mk_name := data_field "name" [];
                                     mk_sector := data_field "sector" [];
                                     mk_data := None |}]>
                        (market_knowledge (db w))) by reflexivity.
      assert (HpW : feedback_processor W1 = feedback_processor w)
        by reflexivity.
      rewrite HpW in Hr. clearbody W1.
      unfold bind at 1. unfold update_market_knowledge, bind at 1, session.
      cbn [db set_env]. rewrite HfW. unfold bind at 1, gets.
      cbn [db set_env]. rewrite HmW, lookup_insert_eq.
      unfold bind at 1, modify, ret.
      intros [= _ <-].
      cbn [snd db set_db set_market_knowledge market_knowledge set_env
           mk_data].
      rewrite HmW, insert_insert_eq.
      eexists _, _. split; [reflexivity|]. cbn [mk_data data_of].
      assert (Hnd' : NoDup (keys (dict_update [] md)))
        by (apply NoDup_dict_update; constructor).
      rewrite !(dict_get_loads _ _ Hnd'), !(dict_get_update _ _ _ Hnd).
      rewrite Hh, Hr. split; reflexivity.
    + destruct (blend_and_log_total [] data value W1 eq_refl)
        as (r & w3 & Hok).
      rewrite Hok in Hb. discriminate.
Qed.

(** What [_update_trader_model] does to the trader table when the id
    is a string and the table can be reached. *)
Lemma _update_trader_model_trader (data : pydict) (value : Q)
    (trader_id : string) (w : World) :
  dict_get "trader_id" data = Some (PStr trader_id) ->
  failing (db w) Traders = false ->
  let w' := snd (_update_trader_model data value w) in
  if well_formed (trader_data w trader_id) then
    exists k' ts,
      trader_profiles (db w')
        = <[trader_id := k']> (trader_profiles (db w)) /\
      dict_get "feedback_history" (data_of (tp_data k'))
        = Some (PList (capped (trader_history w trader_id
                               ++ [feedback_entry value ts data])%list)) /\
      dict_get "reliability" (data_of (tp_data k'))
        = Some (PFloat
                  (clamp01 (reliability_of (trader_data w trader_id)
                            * feedback_decay (feedback_processor w)
                            + value
                              * (1 - feedback_decay (feedback_processor w)))))
  else trader_profiles (db w') = trader_profiles (db w).
Proof.
  intros Htid Hf. cbv zeta.
  destruct (_update_trader_model data value w) as [o w'] eqn:Hrun.
  cbn [snd]. revert Hrun.
  unfold _update_trader_model. rewrite Htid.
  unfold try_except. unfold bind at 1. unfold as_key, ret.
  unfold bind at 1. unfold get_trader_profile, bind at 1, session.
  rewrite Hf. unfold gets.
  unfold trader_data, trader_history.
  destruct (trader_profiles (db w) !! trader_id) as [k|] eqn:Hk.
  - unfold bind at 1. unfold bind at 1.
    destruct (blend_and_log (data_of (tp_data k)) data value w)
      as [[md|e] w2] eqn:Hb.
    + destruct (blend_and_log_ok _ _ _ _ _ _ (data_of_NoDup _) Hb)
        as (Hwf & -> & Hnd & Hh & Hr).
      rewrite Hwf.
      unfold bind at 1. unfold update_trader_profile, bind at 1, session.
      cbn [db set_env]. rewrite Hf. unfold bind at 1, gets. cbn [db set_env].
      rewrite Hk. unfold bind at 1, modify, ret. intros [= _ <-].
      cbn [snd db set_db set_trader_profiles trader_profiles set_env
           tp_data].
      eexists _, _. split; [reflexivity|]. cbn [tp_data data_of].
      assert (Hnd' : NoDup (keys (dict_update (data_of (tp_data k)) md)))
        by apply NoDup_dict_update, data_of_NoDup.
      rewrite !(dict_get_loads _ _ Hnd'), !(dict_get_update _ _ _ Hnd).
      rewrite Hh, Hr. split; reflexivity.
    + intros [= _ <-].
      pose proof (blend_and_log_preserves
                    (fun w => trader_profiles (db w))
                    (data_of (tp_data k)) data value
                    (fun _ _ => eq_refl) w) as Hp.
      rewrite Hb in Hp. cbn [snd] in Hp.
      destruct (well_formed (data_of (tp_data k))) eqn:Hwf; [|exact Hp].
      destruct (blend_and_log_total _ data value w Hwf) as (r & w3 & Hok).
      rewrite Hok in Hb. discriminate.
  - unfold bind at 1.
    unfold create_trader_profile, bind at 1, uuid4.
    destruct (take_uuid (env w)) as [id e1] eqn:Hu.
    unfold bind at 1, session. cbn [db set_env]. rewrite Hf.
    unfold bind at 1, gets. cbn [db set_env]. rewrite Hk.
    unfold bind at 1, modify. unfold ret at 1.
    cbn [tp_data data_column data_of]. unfold bind at 1.
    match goal with
    | |- context [blend_and_log [] data value ?w1] =>
        set (W1 := w1);
        destruct (blend_and_log [] data value W1) as [[md|e] w2] eqn:Hb
    end.
    + destruct (blend_and_log_ok _ _ _ _ _ _ (NoDup_nil_2 : NoDup (keys []))
                  Hb)
        as (_ & -> & Hnd & Hh & Hr).
      change (well_formed []) with true. cbv iota.
      assert (HfW : failing (db W1) Traders = false) by exact Hf.
      assert (HmW : trader_profiles (db W1)
                    = <[trader_id := {| tp_id := id; tp_trader_id := trader_id;
                                     tp_username := data_field "username" [];
                                     tp_successful_trades := 0;
                                     tp_failed_trades := 0;
                                     tp_reliability := 1 # 2;
                                     tp_data := None |}]>
                        (trader_profiles (db w))) by reflexivity.
      assert (HpW : feedback_processor W1 = feedback_processor w)
        by reflexivity.
      rewrite HpW in Hr. clearbody W1.
      unfold bind at 1. unfold update_trader_profile, bind at 1, session.
      cbn [db set_env]. rewrite HfW. unfold bind at 1, gets.
      cbn [db set_env]. rewrite HmW, lookup_insert_eq.
      unfold bind at 1, modify, ret.
      intros [= _ <-].
      cbn [snd db set_db set_trader_profiles trader_profiles set_env
           tp_data].
      rewrite HmW, insert_insert_eq.
      eexists _, _. split; [reflexivity|]. cbn [tp_data data_of].
      assert (Hnd' : NoDup (keys (dict_update [] md)))
        by (apply NoDup_dict_update; constructor).
      rewrite !(dict_get_loads _ _ Hnd'), !(dict_get_update _ _ _ Hnd).
      rewrite Hh, Hr. split; reflexivity.
    + destruct (blend_and_log_total [] data value W1 eq_refl)
        as (r & w3 & Hok).
      rewrite Hok in Hb. discriminate.
Qed.

Lemma maintains_bind {A C} (P : World -> Prop) (c : M World A)
    (k : A -> M World C) :
  maintains P c -> (forall a, maintains P (k a)) -> maintains P (bind c k).
Proof.
  intros Hc Hk w HP. unfold bind. specialize (Hc w HP).
  destruct (c w) as [[a|e] w1]; cbn [snd] in *; [|exact Hc].
  apply Hk, Hc.
Qed.

Lemma maintains_tables {A} (c : M World A) :
  preserves tables c -> maintains capped_store c.
Proof.
  intros Hc w [Hm Ht]. specialize (Hc w). unfold tables in Hc.
  injection Hc as Hc1 Hc2. split.
  - intros s. unfold market_history. rewrite Hc1. apply Hm.
  - intros t. unfold trader_history. rewrite Hc2. apply Ht.
Qed.

Lemma _update_signal_model_maintains (data : pydict) (value : Q) :
  maintains capped_store (_update_signal_model data value).
Proof.
  intros w [Hm Ht]. split.
  - destruct (dict_get "symbol" data) as [v|] eqn:Hs;
      [|unfold _update_signal_model; rewrite Hs; exact Hm].
    assert (Hskip : (forall s, v <> PStr s) ->
                    snd (_update_signal_model data value w) = w).
    { intros Hv. unfold _update_signal_model. rewrite Hs.
      destruct v; try reflexivity. exfalso. apply (Hv s). reflexivity. }
    destruct v as [| | | |symbol| |];
      try (rewrite Hskip by discriminate; exact Hm).
    clear Hskip. destruct (failing (db w) Markets) eqn:Hf.
    { unfold _update_signal_model. rewrite Hs.
      unfold try_except, get_market_knowledge, bind, as_key, ret, session.
      rewrite Hf. exact Hm. }
    pose proof (_update_signal_model_market data value symbol w Hs Hf) as H.
    cbv zeta in H. intros s.
    destruct (well_formed (market_data w symbol)).
    + destruct H as (k' & ts & Hk & Hh & _).
      unfold market_history. rewrite Hk.
      destruct (decide (symbol = s)) as [->|Hne].
      * rewrite lookup_insert_eq. unfold history_of. rewrite Hh.
        apply capped_length.
      * rewrite lookup_insert_ne by exact Hne. apply Hm.
    + unfold market_history. rewrite H. apply Hm.
  - intros t. unfold trader_history.
    rewrite (_update_signal_model_preserves
               (fun w => trader_profiles (db w)) data value
               (fun _ _ => eq_refl) (fun _ _ => eq_refl) w).
    apply Ht.
Qed.

Lemma _update_trader_model_maintains (data : pydict) (value : Q) :
  maintains capped_store (_update_trader_model data value).
Proof.
  intros w [Hm Ht]. split.
  - intros s. unfold market_history.
    rewrite (_update_trader_model_preserves
               (fun w => market_knowledge (db w)) data value
               (fun _ _ => eq_refl) (fun _ _ => eq_refl) w).
    apply Hm.
  - destruct (dict_get "trader_id" data) as [v|] eqn:Hs;
      [|unfold _update_trader_model; rewrite Hs; exact Ht].
    assert (Hskip : (forall s, v <> PStr s) ->
                    snd (_update_trader_model data value w) = w).
    { intros Hv. unfold _update_trader_model. rewrite Hs.
      destruct v; try reflexivity. exfalso. apply (Hv s). reflexivity. }
    destruct v as [| | | |trader_id| |];
      try (rewrite Hskip by discriminate; exact Ht).
    clear Hskip. destruct (failing (db w) Traders) eqn:Hf.
    { unfold _update_trader_model. rewrite Hs.
      unfold try_except, get_trader_profile, bind, as_key, ret, session.
      rewrite Hf. exact Ht. }
    pose proof (_update_trader_model_trader data value trader_id w Hs Hf) as H.
    cbv zeta in H. intros t.
    destruct (well_formed (trader_data w trader_id)).
    + destruct H as (k' & ts & Hk & Hh & _).
      unfold trader_history. rewrite Hk.
      destruct (decide (trader_id = t)) as [->|Hne].
      * rewrite lookup_insert_eq. unfold history_of. rewrite Hh.
        apply capped_length.
      * rewrite lookup_insert_ne by exact Hne. apply Ht.
    + unfold trader_history. rewrite H. apply Ht.
Qed.

Lemma process_user_feedback_maintains (feedback_data : pydict) :
  maintains capped_store (process_user_feedback feedback_data).
Proof.
  unfold process_user_feedback.
  apply maintains_bind; [apply maintains_tables|intros q].
  { unfold normalize. destruct (default _ _); frame.
    all: destruct (among _ _); [|destruct (among _ _)]; frame. }
  apply maintains_bind;
    [apply maintains_tables, preserves_uuid4; intros ? ?; reflexivity
    |intros id].
  apply maintains_bind;
    [apply maintains_tables, preserves_utcnow; intros ? ?; reflexivity
    |intros ts].
  apply maintains_bind;
    [apply maintains_tables, preserves_modify; intros ?; reflexivity|intros _].
  apply maintains_bind; [apply maintains_tables|intros fid].
  { unfold _store_feedback, store_feedback. frame. }
  apply maintains_bind; [|intros _; apply maintains_tables, preserves_ret].
  destruct (is_str _ _); [apply _update_signal_model_maintains|].
  destruct (is_str _ _); [apply _update_trader_model_maintains|].
  destruct (is_str _ _); [|apply maintains_tables, preserves_ret].
  apply maintains_tables, _update_strategy_model_preserves.
  intros ? ?. reflexivity.
Qed.

Lemma process_trade_outcome_maintains (trade_data : pydict) :
  maintains capped_store (process_trade_outcome trade_data).
Proof.
  unfold process_trade_outcome.
  apply maintains_bind;
    [apply maintains_tables, preserves_uuid4; intros ? ?; reflexivity
    |intros fresh].
  apply maintains_bind; [apply maintains_tables|intros reward].
  { unfold _calculate_reward. destruct (default (PStr "unknown") _); frame. }
  apply maintains_bind;
    [apply maintains_tables, preserves_uuid4; intros ? ?; reflexivity
    |intros id].
  apply maintains_bind;
    [apply maintains_tables, preserves_utcnow; intros ? ?; reflexivity
    |intros ts].
  apply maintains_bind;
    [apply maintains_tables, preserves_modify; intros ?; reflexivity|intros _].
  apply maintains_bind; [apply maintains_tables|intros oid].
  { unfold _store_trade_outcome, store_trade_outcome. frame. }
  apply maintains_bind; [apply _update_signal_model_maintains|intros _].
  apply maintains_bind; [|intros _; apply maintains_tables, preserves_ret].
  destruct (dict_get "trader_id" trade_data);
    [apply _update_trader_model_maintains
    |apply maintains_tables, preserves_ret].
Qed.

(** X19: feedback on a trade signal is recorded on the market record of
    its symbol when the market table can be reached and the record is
    well formed (created empty if missing): the record's feedback history
    gets one entry appended and is cut to its last 100 entries, its
    reliability becomes the decayed blend
    clamp01(old * decay + value * (1 - decay)) and so lies in [0, 1]; no
    other market record and no trader record changes. *)
Theorem signal_feedback_recorded (data : pydict) (value : Q)
    (symbol : string) (w : World) :
  dict_get "symbol" data = Some (PStr symbol) ->
  failing (db w) Markets = false ->
  well_formed (market_data w symbol) = true ->
  let w' := snd (_update_signal_model data value w) in
  exists ts,
    market_history w' symbol
      = capped (market_history w symbol
                ++ [feedback_entry value ts data])%list /\
    (length (market_history w' symbol) <= 100)%nat /\
    dict_get "reliability" (market_data w' symbol)
      = Some (PFloat
                (clamp01 (reliability_of (market_data w symbol)
                          * feedback_decay (feedback_processor w)
                          + value
                            * (1 - feedback_decay (feedback_processor w))))) /\
    0 <= reliability_of (market_data w' symbol) <= 1 /\
    (forall other, other <> symbol ->
       market_knowledge (db w') !! other = market_knowledge (db w) !! other) /\
    trader_profiles (db w') = trader_profiles (db w).
Proof.
  intros Hsym Hf Hwf.
  pose proof (_update_signal_model_market data value symbol w Hsym Hf) as H.
  cbv zeta in *. rewrite Hwf in H. destruct H as (k' & ts & Hk & Hh & Hr).
  exists ts.
  assert (Hhist : market_history (snd (_update_signal_model data value w))
                    symbol
                  = capped (market_history w symbol
                            ++ [feedback_entry value ts data])%list).
  { unfold market_history at 1. rewrite Hk, lookup_insert_eq.
    unfold history_of. rewrite Hh. reflexivity. }
  assert (Hdata : market_data (snd (_update_signal_model data value w)) symbol
                  = data_of (mk_data k')).
  { unfold market_data at 1. rewrite Hk, lookup_insert_eq. reflexivity. }
  split; [exact Hhist|]. split; [rewrite Hhist; apply capped_length|].
  split; [rewrite Hdata; exact Hr|].
  split; [rewrite Hdata; unfold reliability_of; rewrite Hr;
          apply clamp01_range|].
  split.
  - intros other Hne. rewrite Hk. apply lookup_insert_ne. congruence.
  - apply (_update_signal_model_preserves
             (fun w => trader_profiles (db w)) data value
             (fun _ _ => eq_refl) (fun _ _ => eq_refl) w).
Qed.

(** X20: feedback on a trader is recorded on the profile of that trader
    when the trader table can be reached and the record is
    well formed (created empty if missing): the profile's feedback history
    gets one entry appended and is cut to its last 100 entries, its
    reliability becomes the decayed blend
    clamp01(old * decay + value * (1 - decay)) and so lies in [0, 1]; no
    other profile and no market record changes. *)
Theorem trader_feedback_recorded (data : pydict) (value : Q)
    (trader_id : string) (w : World) :
  dict_get "trader_id" data = Some (PStr trader_id) ->
  failing (db w) Traders = false ->
  well_formed (trader_data w trader_id) = true ->
  let w' := snd (_update_trader_model data value w) in
  exists ts,
    trader_history w' trader_id
      = capped (trader_history w trader_id
                ++ [feedback_entry value ts data])%list /\
    (length (trader_history w' trader_id) <= 100)%nat /\
    dict_get "reliability" (trader_data w' trader_id)
      = Some (PFloat
                (clamp01 (reliability_of (trader_data w trader_id)
                          * feedback_decay (feedback_processor w)
                          + value
                            * (1 - feedback_decay (feedback_processor w))))) /\
    0 <= reliability_of (trader_data w' trader_id) <= 1 /\
    (forall other, other <> trader_id ->
       trader_profiles (db w') !! other = trader_profiles (db w) !! other) /\
    market_knowledge (db w') = market_knowledge (db w).
Proof.
  intros Htid Hf Hwf.
  pose proof (_update_trader_model_trader data value trader_id w Htid Hf) as H.
  cbv zeta in *. rewrite Hwf in H. destruct H as (k' & ts & Hk & Hh & Hr).
  exists ts.
  assert (Hhist : trader_history (snd (_update_trader_model data value w))
                    trader_id
                  = capped (trader_history w trader_id
                            ++ [feedback_entry value ts data])%list).
  { unfold trader_history at 1. rewrite Hk, lookup_insert_eq.
    unfold history_of. rewrite Hh. reflexivity. }
  assert (Hdata : trader_data (snd (_update_trader_model data value w)) trader_id
                  = data_of (tp_data k')).
  { unfold trader_data at 1. rewrite Hk, lookup_insert_eq. reflexivity. }
  split; [exact Hhist|]. split; [rewrite Hhist; apply capped_length|].
  split; [rewrite Hdata; exact Hr|].
  split; [rewrite Hdata; unfold reliability_of; rewrite Hr;
          apply clamp01_range|].
  split.
  - intros other Hne. rewrite Hk. apply lookup_insert_ne. congruence.
  - apply (_update_trader_model_preserves
             (fun w => market_knowledge (db w)) data value
             (fun _ _ => eq_refl) (fun _ _ => eq_refl) w).
Qed.

Lemma handle_maintains (e : Event) (w : World) :
  capped_store w -> capped_store (handle w e).
Proof.
  destruct e as [d|d]; cbn [handle].
  - apply process_user_feedback_maintains.
  - apply process_trade_outcome_maintains.
Qed.

(** X21: the cap on stored feedback histories is an invariant of the
    feedback processor: if every market and trader record holds at most
    100 history entries, so it is after any sequence of
    [process_user_feedback] and [process_trade_outcome] calls, whatever
    their inputs, whether they return or raise and whether the database
    can be reached. *)
Theorem stored_histories_capped (events : list Event) (w : World) :
  capped_store w -> capped_store (replay events w).
Proof.
  revert w. induction events as [|e events IH]; intros w Hw; [exact Hw|].
  unfold replay. cbn [fold_left]. apply IH, handle_maintains, Hw.
Qed.

End FeedbackHistory.

Section FeedbackHistoryWitnesses.

Import Store State Database Feedback.
Local Open Scope Q_scope.

Lemma signal_feedback_recorded_witness :
  dict_get "symbol" signal_feedback = Some (PStr "AAPL") /\
  failing (db initial_world) Markets = false /\
  well_formed (market_data initial_world "AAPL") = true /\
  exists ts,
    market_history
      (snd (_update_signal_model signal_feedback 1 initial_world)) "AAPL"
    = capped (market_history initial_world "AAPL"
              ++ [feedback_entry 1 ts signal_feedback])%list.
Proof.
  split; [reflexivity|]. split; [reflexivity|]. split; [reflexivity|].
  destruct (signal_feedback_recorded signal_feedback 1 "AAPL" initial_world
              eq_refl eq_refl eq_refl) as (ts & H & _).
  exists ts. exact H.
Defined.

Lemma trader_feedback_recorded_witness :
  dict_get "trader_id" trader_feedback = Some (PStr "t-17") /\
  failing (db initial_world) Traders = false /\
  well_formed (trader_data initial_world "t-17") = true /\
  exists ts,
    trader_history
      (snd (_update_trader_model trader_feedback (-1) initial_world)) "t-17"
    = capped (trader_history initial_world "t-17"
              ++ [feedback_entry (-1) ts trader_feedback])%list.
Proof.
  split; [reflexivity|]. split; [reflexivity|]. split; [reflexivity|].
  destruct (trader_feedback_recorded trader_feedback (-1) "t-17" initial_world
              eq_refl eq_refl eq_refl) as (ts & H & _).
  exists ts. exact H.
Defined.

Lemma stored_histories_capped_witness :
  capped_store initial_world /\
  capped_store
    (replay [OfUser signal_feedback; OfTrade losing_success;
             OfUser trader_feedback] initial_world).
Proof.
  assert (H : capped_store initial_world).
  { split; intros k; [unfold market_history | unfold trader_history];
      cbn [initial_world db empty_db market_knowledge trader_profiles];
      rewrite lookup_empty; cbn; lia. }
  split; [exact H|].
  exact (stored_histories_capped _ initial_world H).
Defined.

End FeedbackHistoryWitnesses.

(** ** Procedural tier: queries, first observations and the cache *)

Section ProceduralQueries.

Import Store State Database.
Local Open Scope Q_scope.

Lemma insert_by_effectiveness_perm (x : ActionPattern)
    (l : list ActionPattern) :
  Permutation (insert_by_effectiveness x l) (x :: l).
Proof.
  induction l as [|y l IH]; cbn [insert_by_effectiveness]; [reflexivity|].
  destruct (Qlt_le_dec _ _); [|reflexivity].
  rewrite IH. apply perm_swap.
Qed.

Lemma sort_by_effectiveness_perm (l : list ActionPattern) :
  Permutation (sort_by_effectiveness l) l.
Proof.
  unfold sort_by_effectiveness.
  induction l as [|x l IH]; cbn [fold_right]; [reflexivity|].
  rewrite insert_by_effectiveness_perm. now rewrite IH.
Qed.

Lemma insert_by_effectiveness_descending (x : ActionPattern)
    (l : list ActionPattern) :
  descending l -> descending (insert_by_effectiveness x l).
Proof.
  unfold descending. induction l as [|y l IH]; intros Hl;
    cbn [insert_by_effectiveness].
  - constructor; constructor.
  - inversion Hl as [|? ? Hl' Hy]; subst.
    destruct (Qlt_le_dec (ap_effectiveness x) (ap_effectiveness y))
      as [Hlt|Hle].
    + constructor; [apply IH, Hl'|].
      apply List.Forall_forall. intros z Hz.
      apply (Permutation_in _ (insert_by_effectiveness_perm x l)) in Hz.
      destruct Hz as [<-|Hz].
      * unfold at_least_as_effective. lra.
      * rewrite List.Forall_forall in Hy. apply Hy, Hz.
    + constructor; [exact Hl|]. constructor; [exact Hle|].
      rewrite List.Forall_forall in Hy |- *. intros z Hz.
      specialize (Hy z Hz). unfold at_least_as_effective in *. lra.
Qed.

Lemma sort_by_effectiveness_descending (l : list ActionPattern) :
  descending (sort_by_effectiveness l).
Proof.
  unfold sort_by_effectiveness.
  induction l as [|x l IH]; cbn [fold_right]; [constructor|].
  apply insert_by_effectiveness_descending, IH.
Qed.

(** Sorting rows that are already in order changes nothing. *)
Lemma sort_by_effectiveness_id (l : list ActionPattern) :
  descending l -> sort_by_effectiveness l = l.
Proof.
  unfold sort_by_effectiveness, descending.
  induction l as [|x l IH]; intros Hl; cbn [fold_right]; [reflexivity|].
  inversion Hl as [|? ? Hl' Hx]; subst. rewrite (IH Hl').
  destruct l as [|y l]; [reflexivity|]. cbn [insert_by_effectiveness].
  inversion Hx as [|? ? Hxy _]; subst. unfold at_least_as_effective in Hxy.
  destruct (Qlt_le_dec (ap_effectiveness x) (ap_effectiveness y));
    [lra | reflexivity].
Qed.

Lemma descending_filter (f : ActionPattern -> bool) (l : list ActionPattern) :
  descending l -> descending (List.filter f l).
Proof.
  unfold descending. induction l as [|x l IH]; intros Hl; cbn [List.filter];
    [constructor|].
  inversion Hl as [|? ? Hl' Hx]; subst.
  destruct (f x); [|apply IH, Hl'].
  constructor; [apply IH, Hl'|].
  rewrite List.Forall_forall in Hx |- *. intros z Hz.
  apply List.filter_In in Hz. apply Hx, Hz.
Qed.

Lemma descending_app (l1 l2 : list ActionPattern) :
  descending (l1 ++ l2) ->
  descending l1 /\ descending l2 /\
  forall a b, In a l1 -> In b l2 -> ap_effectiveness b <= ap_effectiveness a.
Proof.
  unfold descending. induction l1 as [|x l1 IH]; cbn [app]; intros Hl.
  - split; [constructor|]. split; [exact Hl|]. intros a b [].
  - inversion Hl as [|? ? Hl' Hx]; subst.
    destruct (IH Hl') as (H1 & H2 & H12).
    rewrite List.Forall_forall in Hx.
    split; [|split; [exact H2|]].
    + constructor; [exact H1|]. apply List.Forall_forall.
      intros z Hz. apply Hx, in_or_app. now left.
    + intros a b [<-|Ha] Hb.
      * apply (Hx b), in_or_app. now right.
      * apply H12; assumption.
Qed.

Lemma descending_firstn (n : nat) (l : list ActionPattern) :
  descending l -> descending (firstn n l).
Proof.
  intros Hl. rewrite <- (firstn_skipn n l) in Hl.
  now apply descending_app in Hl.
Qed.

(** Everything a prefix of an ordered list leaves out is at most as
    effective as everything it keeps, and the prefix is full. *)
Lemma firstn_descending_top (n : nat) (l : list ActionPattern)
    (r : ActionPattern) :
  descending l -> In r l ->
  In r (firstn n l) \/
  (length (firstn n l) = n /\
   forall p, In p (firstn n l) -> ap_effectiveness r <= ap_effectiveness p).
Proof.
  intros Hl Hr. rewrite <- (firstn_skipn n l) in Hl, Hr.
  apply in_app_or in Hr. destruct Hr as [Hr|Hr]; [now left|right].
  split.
  - apply firstn_length_le.
    destruct (Nat.le_gt_cases n (length l)) as [Hle|Hgt]; [exact Hle|].
    rewrite skipn_all2 in Hr by lia. destruct Hr.
  - intros p Hp. apply descending_app in Hl. now apply Hl.
Qed.

End ProceduralQueries.

Section ProceduralExtras.

Import Store State Database.
Local Open Scope Q_scope.

Lemma filter_all_true {A} (f : A -> bool) (l : list A) :
  (forall x, In x l -> f x = true) -> List.filter f l = l.
Proof.
  induction l as [|x l IH]; intros H; cbn [List.filter]; [reflexivity|].
  rewrite (H x (or_introl eq_refl)). f_equal. apply IH.
  intros y Hy. apply H. now right.
Qed.

Lemma In_firstn {A} (n : nat) (l : list A) (x : A) :
  In x (firstn n l) -> In x l.
Proof.
  intros H. rewrite <- (firstn_skipn n l). apply in_or_app. now left.
Qed.

(** What [get_most_effective_patterns] returns on a reachable table. *)
Lemma most_effective_patterns_run (pattern_type : string)
    (min_effectiveness : Q) (limit : Z) (w : World) :
  (0 <= limit)%Z ->
  failing (db w) ActionPatterns = false ->
  exists result,
    Procedural.get_most_effective_patterns pattern_type min_effectiveness
      limit w = (Ok result, w) /\
    (Z.of_nat (length result) <= limit)%Z /\
    descending result /\
    (forall p, In p result ->
       eligible w pattern_type min_effectiveness p) /\
    (forall r, eligible w pattern_type min_effectiveness r ->
       In r result \/
       (Z.of_nat (length result) = limit /\
        forall p, In p result ->
          ap_effectiveness r <= ap_effectiveness p)).
Proof.
  intros Hlimit Hf.
  unfold Procedural.get_most_effective_patterns,
    Procedural.get_patterns_by_type, get_action_patterns_by_type,
    bind, session, gets, ret.
  rewrite Hf.
  unfold sql_limit, slice_to.
  destruct (Z.ltb_spec (limit * 2) 0); [lia|].
  destruct (Z.ltb_spec limit 0); [lia|].
  set (n := Z.to_nat limit).
  assert (Hn : Z.of_nat n = limit) by (unfold n; lia).
  replace (Z.to_nat (limit * 2)) with (2 * n)%nat by (unfold n; lia).
  set (T := List.filter
              (fun r => String.eqb (ap_pattern_type r) pattern_type)
              (action_patterns (db w))).
  set (S := sort_by_effectiveness T).
  set (A := firstn (2 * n) S).
  set (keep := fun p : ActionPattern =>
                 if Qlt_le_dec (ap_effectiveness p) min_effectiveness
                 then false else true).
  set (E := List.filter keep A).
  assert (HS : descending S) by apply sort_by_effectiveness_descending.
  assert (HE : descending E)
    by (apply descending_filter, descending_firstn, HS).
  assert (Hkeep : forall p, keep p = true <->
                            min_effectiveness <= ap_effectiveness p).
  { intros p. unfold keep. destruct (Qlt_le_dec _ _); split;
      intros; try discriminate; try reflexivity; try assumption; lra. }
  assert (HT : forall p, In p S <->
                 In p (action_patterns (db w)) /\
                 ap_pattern_type p = pattern_type).
  { intros p. unfold S. split.
    - intros Hp.
      apply (Permutation_in _ (sort_by_effectiveness_perm T)) in Hp.
      apply List.filter_In in Hp. now rewrite String.eqb_eq in Hp.
    - intros [Hp Ht].
      apply (Permutation_in _ (Permutation_sym
                                 (sort_by_effectiveness_perm T))).
      apply List.filter_In. now rewrite String.eqb_eq. }
  rewrite (sort_by_effectiveness_id E HE).
  exists (firstn n E). split; [reflexivity|].
  split; [rewrite length_firstn; lia|].
  split; [apply descending_firstn, HE|].
  split.
  - intros p Hp. apply In_firstn in Hp. apply List.filter_In in Hp.
    destruct Hp as [Hp Hk]. apply In_firstn in Hp. apply HT in Hp.
    apply Hkeep in Hk. unfold eligible. tauto.
  - intros r (Hr & Ht & Hm).
    assert (HrS : In r S) by (apply HT; tauto).
    destruct (firstn_descending_top (2 * n) S r HS HrS) as [HrA|[HlenA HtopA]].
    + assert (HrE : In r E)
        by (apply List.filter_In; split; [exact HrA | now apply Hkeep]).
      destruct (firstn_descending_top n E r HE HrE) as [Hin|[Hlen Htop]];
        [now left|right].
      split; [lia | exact Htop].
    + fold A in HlenA, HtopA. right.
      assert (HEA : E = A).
      { apply filter_all_true. intros p Hp. apply Hkeep.
        specialize (HtopA p Hp). lra. }
      rewrite HEA. split.
      * rewrite length_firstn, HlenA. lia.
      * intros p Hp. apply HtopA. now apply In_firstn in Hp.
Qed.

(** X22: on a reachable table and for a non-negative limit,
    [get_most_effective_patterns] returns the [limit] most effective rows
    of the requested type among those at or above the threshold: at most
    [limit] rows, in decreasing order of effectiveness, each of them a
    stored row of that type at or above the threshold, and every such row
    that is left out is at most as effective as each row returned, the
    result then being full.  Fetching only [2 * limit] rows before the
    filter loses nothing.  The world is not changed; an unreachable table
    makes the call raise. *)
Theorem most_effective_patterns_top (pattern_type : string)
    (min_effectiveness : Q) (limit : Z) (w : World) :
  (0 <= limit)%Z ->
  (failing (db w) ActionPatterns = false ->
   exists result,
     Procedural.get_most_effective_patterns pattern_type min_effectiveness
       limit w = (Ok result, w) /\
     (Z.of_nat (length result) <= limit)%Z /\
     descending result /\
     (forall p, In p result ->
        eligible w pattern_type min_effectiveness p) /\
     (forall r, eligible w pattern_type min_effectiveness r ->
        In r result \/
        (Z.of_nat (length result) = limit /\
         forall p, In p result ->
           ap_effectiveness r <= ap_effectiveness p))) /\
  (failing (db w) ActionPatterns = true ->
   Procedural.get_most_effective_patterns pattern_type min_effectiveness
     limit w = (Raise (CollaboratorError "database"), w)).
Proof.
  intros Hlimit. split; intros Hf.
  - apply most_effective_patterns_run; assumption.
  - unfold Procedural.get_most_effective_patterns,
      Procedural.get_patterns_by_type, get_action_patterns_by_type,
      bind, session, gets, ret.
    rewrite Hf. reflexivity.
Qed.

End ProceduralExtras.

Section ProceduralCache.

Import Store State Database.
Local Open Scope Q_scope.

Context (rt : Runtime).

Lemma find_app_none {A} (f : A -> bool) (l : list A) (x : A) :
  List.find f l = None -> f x = true -> List.find f (l ++ [x]) = Some x.
Proof.
  induction l as [|y l IH]; cbn [List.find app]; intros Hl Hx.
  - now rewrite Hx.
  - destruct (f y); [discriminate|]. now apply IH.
Qed.

(** X23: the first observation of a payload creates its record with the
    column defaults: both counters 0 and effectiveness 0.5, whether the
    observation was a success or a failure; the observed outcome only
    lands in the record's JSON data.  The record gets a fresh id, is
    appended to the table, is the one a later lookup finds, and is put in
    the cache. *)
Theorem store_pattern_first_observation (w : World) (pattern_type : string)
    (pattern_data : pyval) (success : bool) :
  let pattern_key := Procedural._generate_pattern_key rt pattern_data in
  stored_pattern w pattern_type pattern_key = None ->
  failing (db w) ActionPatterns = false ->
  exists r w',
    Procedural.store_pattern rt pattern_type pattern_data success w
      = (Ok r, w') /\
    (ap_success_count r = 0%Z /\ ap_failure_count r = 0%Z /\
     ap_effectiveness r = 1 # 2) /\
    (ap_pattern_type r = pattern_type /\ ap_pattern_key r = pattern_key /\
     ap_id r = fst (take_uuid (env w))) /\
    (dict_get "success_count" (data_of (ap_data r))
       = Some (PInt (if success then 1 else 0)) /\
     dict_get "failure_count" (data_of (ap_data r))
       = Some (PInt (if success then 0 else 1)) /\
     dict_get "data" (data_of (ap_data r))
       = Some (PDict [("pattern_data", pattern_data)])) /\
    action_patterns (db w') = (action_patterns (db w) ++ [r])%list /\
    stored_pattern w' pattern_type pattern_key = Some r /\
    pattern_cache (procedural_memory w')
      !! Procedural.cache_key pattern_type pattern_key = Some r.
Proof.
  intros key Hnone Hf. unfold stored_pattern in Hnone.
  unfold Procedural.store_pattern. fold key.
  unfold bind at 1. unfold get_action_pattern, bind at 1, session.
  rewrite Hf. unfold gets. rewrite Hnone.
  unfold bind at 1. unfold create_action_pattern, bind at 1, uuid4.
  destruct (take_uuid (env w)) as [id e1] eqn:Hu.
  unfold bind at 1, session. cbn [db set_env]. rewrite Hf.
  unfold bind at 1, modify. unfold ret at 1.
  unfold bind at 1, modify, ret.
  eexists _, _. split; [reflexivity|].
  cbn [ap_success_count ap_failure_count ap_effectiveness ap_pattern_type
       ap_pattern_key ap_id ap_data fst].
  split; [repeat split; reflexivity|].
  split; [repeat split; reflexivity|].
  split; [destruct success; repeat split; reflexivity|].
  split; [reflexivity|].
  split.
  - unfold stored_pattern.
    cbn [db set_db set_env set_action_patterns action_patterns
         Procedural.set_pattern_cache set_procedural_memory].
    apply find_app_none; [exact Hnone|].
    unfold matches. cbn [ap_pattern_type ap_pattern_key].
    now rewrite !String.eqb_refl.
  - cbn [procedural_memory Procedural.set_pattern_cache
         set_procedural_memory pattern_cache].
    apply lookup_insert_eq.
Qed.

(** X24: whatever [store_pattern] returns is what [get_pattern] answers
    for that payload afterwards, from the cache alone: the answer is the
    same, and nothing changes, even if the database can no longer be
    reached. *)
Theorem get_pattern_after_store (w w' : World) (pattern_type : string)
    (pattern_data : pyval) (success : bool) (r : ActionPattern)
    (f : table -> bool) :
  Procedural.store_pattern rt pattern_type pattern_data success w
    = (Ok r, w') ->
  let pattern_key := Procedural._generate_pattern_key rt pattern_data in
  let w'' := set_db (set_failing f (db w')) w' in
  Procedural.get_pattern pattern_type pattern_key w'' = (Ok (Some r), w'').
Proof.
  intros Hrun key w''.
  assert (Hc : pattern_cache (procedural_memory w')
                 !! Procedural.cache_key pattern_type key = Some r).
  { revert Hrun. unfold Procedural.store_pattern. fold key.
    unfold bind at 1. unfold get_action_pattern, bind at 1, session.
    destruct (failing (db w) ActionPatterns) eqn:Hf; [discriminate|].
    unfold gets.
    destruct (List.find (matches pattern_type key) (action_patterns (db w)))
      as [existing|] eqn:Hfind.
    - unfold bind at 1. unfold update_action_pattern, bind at 1, session.
      rewrite Hf. unfold bind at 1, gets. rewrite Hfind.
      unfold bind at 1, modify. unfold ret at 1.
      unfold bind at 1, modify, ret. intros [= <- <-].
      cbn [procedural_memory Procedural.set_pattern_cache
           set_procedural_memory pattern_cache].
      apply lookup_insert_eq.
    - unfold bind at 1. unfold create_action_pattern, bind at 1, uuid4.
      destruct (take_uuid (env w)) as [id e1] eqn:Hu.
      unfold bind at 1, session. cbn [db set_env]. rewrite Hf.
      unfold bind at 1, modify. unfold ret at 1.
      unfold bind at 1, modify, ret. intros [= <- <-].
      cbn [procedural_memory Procedural.set_pattern_cache
           set_procedural_memory pattern_cache].
      apply lookup_insert_eq. }
  unfold Procedural.get_pattern, bind, gets.
  change (procedural_memory w'') with (procedural_memory w').
  rewrite Hc. reflexivity.
Qed.

(** X25: the cache is not told about strategy feedback: when feedback
    rewrites the stored record of a cached key, [get_pattern] keeps
    answering the cached copy while the table holds the re-rated
    record. *)
Theorem cached_pattern_not_refreshed (w : World) (data : pydict) (value : Q)
    (t k : string) (existing cached : ActionPattern) :
  dict_get "pattern_type" data = Some (PStr t) -> t <> EmptyString ->
  dict_get "pattern_key" data = Some (PStr k) -> k <> EmptyString ->
  stored_pattern w t k = Some existing ->
  failing (db w) ActionPatterns = false ->
  pattern_cache (procedural_memory w) !! Procedural.cache_key t k
    = Some cached ->
  exists w',
    Feedback._update_strategy_model data value w = (Ok tt, w') /\
    stored_pattern w' t k
      = Some (rated (feedback_processor w) existing value) /\
    Procedural.get_pattern t k w' = (Ok (Some cached), w').
Proof.
  intros Ht Htne Hk Hkne Hfind Hf Hc.
  destruct (update_strategy_existing w data value t k existing
              Ht Htne Hk Hkne Hfind Hf) as (w' & Hrun & Hst).
  exists w'. split; [exact Hrun|]. split; [exact Hst|].
  pose proof (_update_strategy_model_preserves procedural_memory data value
                (fun _ _ => eq_refl) w) as Hp.
  rewrite Hrun in Hp. cbn [snd] in Hp.
  unfold Procedural.get_pattern, bind, gets. rewrite Hp, Hc. reflexivity.
Qed.

(** X26: the procedural tier handles no database error: while the
    pattern table cannot be reached, [store_pattern] raises, and so does
    [get_pattern] on a key that is not cached; neither changes
    anything. *)
Theorem procedural_errors_propagate (w : World) (pattern_type : string)
    (pattern_data : pyval) (success : bool) (pattern_key : string) :
  failing (db w) ActionPatterns = true ->
  Procedural.store_pattern rt pattern_type pattern_data success w
    = (Raise (CollaboratorError "database"), w) /\
  (pattern_cache (procedural_memory w)
     !! Procedural.cache_key pattern_type pattern_key = None ->
   Procedural.get_pattern pattern_type pattern_key w
     = (Raise (CollaboratorError "database"), w)).
Proof.
  intros Hf. split.
  - unfold Procedural.store_pattern, bind, get_action_pattern, bind, session.
    rewrite Hf. reflexivity.
  - intros Hc.
    unfold Procedural.get_pattern, bind, gets, get_action_pattern, bind,
      session.
    rewrite Hc, Hf. reflexivity.
Qed.

End ProceduralCache.

Section ProceduralExtraWitnesses.

Import Store State Database.
Local Open Scope Q_scope.

Lemma most_effective_patterns_top_witness :
  (0 <= 1)%Z /\ failing (db patterns_world) ActionPatterns = false /\
  exists result,
    Procedural.get_most_effective_patterns "general" (1 # 2) 1 patterns_world
      = (Ok result, patterns_world) /\
    (Z.of_nat (length result) <= 1)%Z /\
    (In (general_record "g-3" (7 # 10)) result \/
     (Z.of_nat (length result) = 1%Z /\
      forall p, In p result -> 7 # 10 <= ap_effectiveness p)).
Proof.
  assert (H0 : (0 <= 1)%Z) by lia.
  split; [exact H0|]. split; [reflexivity|].
  destruct (proj1 (most_effective_patterns_top "general" (1 # 2) 1
                     patterns_world H0) eq_refl)
    as (result & Hrun & Hlen & _ & _ & Htop).
  exists result. split; [exact Hrun|]. split; [exact Hlen|].
  apply (Htop (general_record "g-3" (7 # 10))).
  unfold eligible. split; [|split; [reflexivity|]].
  - cbn. tauto.
  - cbn. lra.
Defined.

Lemma store_pattern_first_observation_witness :
  stored_pattern initial_world "tool_usage"
    (Procedural._generate_pattern_key Reference.runtime tool_payload) = None /\
  failing (db initial_world) ActionPatterns = false /\
  exists r w',
    Procedural.store_pattern Reference.runtime "tool_usage" tool_payload true
      initial_world = (Ok r, w') /\
    ap_success_count r = 0%Z /\ ap_failure_count r = 0%Z /\
    ap_effectiveness r = 1 # 2.
Proof.
  split; [reflexivity|]. split; [reflexivity|].
  destruct (store_pattern_first_observation Reference.runtime initial_world
              "tool_usage" tool_payload true eq_refl eq_refl)
    as (r & w' & Hrun & Hcols & _).
  exists r, w'. split; [exact Hrun | exact Hcols].
Defined.

Lemma get_pattern_after_store_witness :
  Procedural.store_pattern Reference.runtime "tool_usage" (PStr "quote") false
    initial_world
  = (Ok (observed_first "quote"), first_world "quote") /\
  Procedural.get_pattern "tool_usage"
    (Procedural._generate_pattern_key Reference.runtime (PStr "quote"))
    (set_db (set_failing (fun _ => true) (db (first_world "quote")))
       (first_world "quote"))
  = (Ok (Some (observed_first "quote")),
     set_db (set_failing (fun _ => true) (db (first_world "quote")))
       (first_world "quote")).
Proof.
  assert (Hrun : Procedural.store_pattern Reference.runtime "tool_usage"
                   (PStr "quote") false initial_world
                 = (Ok (observed_first "quote"), first_world "quote"))
    by (vm_compute; reflexivity).
  split; [exact Hrun|].
  exact (get_pattern_after_store Reference.runtime _ _ _ _ _ _
           (fun _ => true) Hrun).
Defined.

Lemma cached_pattern_not_refreshed_witness :
  dict_get "pattern_type" (rating 1) = Some (PStr "tool_usage") /\
  "tool_usage" <> EmptyString /\
  dict_get "pattern_key" (rating 1) = Some (PStr "k1") /\
  "k1" <> EmptyString /\
  stored_pattern patterns_world "tool_usage" "k1" = Some plain_record /\
  failing (db patterns_world) ActionPatterns = false /\
  pattern_cache (procedural_memory patterns_world)
    !! Procedural.cache_key "tool_usage" "k1" = Some plain_record /\
  exists w',
    Feedback._update_strategy_model (rating 1) 1 patterns_world
      = (Ok tt, w') /\
    stored_pattern w' "tool_usage" "k1"
      = Some (rated (feedback_processor patterns_world) plain_record 1) /\
    Procedural.get_pattern "tool_usage" "k1" w' = (Ok (Some plain_record), w').
Proof.
  assert (H1 : "tool_usage" <> EmptyString) by discriminate.
  assert (H2 : "k1" <> EmptyString) by discriminate.
  assert (Hc : pattern_cache (procedural_memory patterns_world)
                 !! Procedural.cache_key "tool_usage" "k1"
               = Some plain_record) by (vm_compute; reflexivity).
  split; [reflexivity|]. split; [exact H1|]. split; [reflexivity|].
  split; [exact H2|]. split; [reflexivity|]. split; [reflexivity|].
  split; [exact Hc|].
  exact (cached_pattern_not_refreshed patterns_world (rating 1) 1
           "tool_usage" "k1" plain_record plain_record
           eq_refl H1 eq_refl H2 eq_refl eq_refl Hc).
Defined.

Lemma procedural_errors_propagate_witness :
  failing (db offline_world) ActionPatterns = true /\
  Procedural.store_pattern Reference.runtime "tool_usage" tool_payload true
    offline_world
  = (Raise (CollaboratorError "database"), offline_world).
Proof.
  split; [reflexivity|].
  exact (proj1 (procedural_errors_propagate Reference.runtime offline_world
                  "tool_usage" tool_payload true "k1" eq_refl)).
Defined.

End ProceduralExtraWitnesses.

(** ** Semantic tier: trader reliability *)

Section SemanticFacts.

Import Store State Database.
Local Open Scope Q_scope.

(** The profile semantic memory works on: the cached one, else the stored
    one, else a new one; afterwards it is both stored and cached. *)
Lemma semantic_get_trader_profile (trader_id : string) (w : World) :
  failing (db w) Traders = false ->
  coherent w trader_id ->
  exists p w1,
    Semantic.get_trader_profile trader_id w = (Ok p, w1) /\
    trader_profiles (db w1) !! trader_id = Some p /\
    trader_cache (semantic_memory w1) !! trader_id = Some p /\
    failing (db w1) = failing (db w) /\
    (tp_successful_trades p, tp_failed_trades p) = trades_of w trader_id /\
    (trader_profiles (db w) !! trader_id = None -> tp_reliability p = 1 # 2) /\
    (forall p0, trader_profiles (db w) !! trader_id = Some p0 -> p = p0).
Proof.
  intros Hf Hco. unfold Semantic.get_trader_profile, trades_of.
  unfold bind at 1. unfold gets at 1.
  destruct (trader_cache (semantic_memory w) !! trader_id) as [p|] eqn:Hc.
  - pose proof (Hco p Hc) as Hdb. unfold ret. exists p, w.
    rewrite Hdb. repeat split; try assumption; try reflexivity.
    + intros H. rewrite H in Hdb. discriminate.
    + intros p0 H. congruence.
  - unfold bind at 1. unfold get_trader_profile, bind at 1, session.
    rewrite Hf. unfold gets.
    destruct (trader_profiles (db w) !! trader_id) as [p|] eqn:Hdb.
    + unfold bind at 1. unfold ret at 1. unfold bind, modify, ret.
      eexists _, _. split; [reflexivity|].
      cbn [db set_semantic_memory Semantic.set_trader_cache semantic_memory
           trader_cache].
      rewrite Hdb, lookup_insert_eq.
      repeat split; try reflexivity. intros H. discriminate.
      intros p0 [= ->]. reflexivity.
    + unfold bind at 1. unfold create_trader_profile, bind at 1, uuid4.
      destruct (take_uuid (env w)) as [id e1] eqn:Hu.
      unfold bind at 1, session. cbn [db set_env]. rewrite Hf.
      unfold bind at 1, gets. cbn [db set_env]. rewrite Hdb.
      unfold bind at 1, modify. unfold ret at 1.
      unfold bind, modify, ret.
      eexists _, _. split; [reflexivity|].
      cbn [db set_semantic_memory Semantic.set_trader_cache semantic_memory
           trader_cache set_db set_trader_profiles trader_profiles set_env
           failing tp_successful_trades tp_failed_trades tp_reliability].
      rewrite !lookup_insert_eq.
      repeat split; try reflexivity. intros p0 H. discriminate.
Qed.

(** Updating a trader whose profile is stored and cached. *)
Lemma semantic_update_trader_profile (trader_id : string)
    (updates : TraderUpdate) (p : TraderProfile) (w : World) :
  failing (db w) Traders = false ->
  trader_profiles (db w) !! trader_id = Some p ->
  trader_cache (semantic_memory w) !! trader_id = Some p ->
  exists u w',
    Semantic.update_trader_profile trader_id updates w = (Ok u, w') /\
    trader_profiles (db w') !! trader_id = Some u /\
    trader_cache (semantic_memory w') !! trader_id = Some u /\
    failing (db w') = failing (db w) /\
    tp_successful_trades u
      = default (tp_successful_trades p) (tu_successful_trades updates) /\
    tp_failed_trades u
      = default (tp_failed_trades p) (tu_failed_trades updates) /\
    tp_reliability u = default (tp_reliability p) (tu_reliability updates).
Proof.
  intros Hf Hdb Hc. unfold Semantic.update_trader_profile.
  unfold bind at 1. unfold Semantic.get_trader_profile, bind at 1, gets.
  rewrite Hc. unfold ret at 1.
  unfold bind at 1. unfold update_trader_profile, bind at 1, session.
  rewrite Hf. unfold bind at 1, gets. rewrite Hdb.
  unfold bind at 1, modify. unfold ret at 1.
  unfold bind, modify, ret.
  eexists _, _. split; [reflexivity|].
  cbn [db set_semantic_memory Semantic.set_trader_cache semantic_memory
       trader_cache set_db set_trader_profiles trader_profiles failing
       tp_successful_trades tp_failed_trades tp_reliability].
  rewrite !lookup_insert_eq. repeat split; reflexivity.
Qed.

(** One reported outcome on a reachable table and a coherent cache. *)
Lemma update_trader_reliability_step (trader_id : string) (outcome : pyval)
    (w : World) :
  failing (db w) Traders = false ->
  coherent w trader_id ->
  exists u w',
    Semantic.update_trader_reliability trader_id outcome w = (Ok u, w') /\
    trader_profiles (db w') !! trader_id = Some u /\
    trader_cache (semantic_memory w') !! trader_id = Some u /\
    failing (db w') = failing (db w) /\
    tp_successful_trades u
      = (fst (trades_of w trader_id)
         + if Feedback.is_str "success" outcome then 1 else 0)%Z /\
    tp_failed_trades u
      = (snd (trades_of w trader_id)
         + if Feedback.is_str "failure" outcome then 1 else 0)%Z /\
    ((0 < tp_successful_trades u + tp_failed_trades u)%Z ->
     tp_reliability u
     = inject_Z (tp_successful_trades u)
       / inject_Z (tp_successful_trades u + tp_failed_trades u)) /\
    (forall p0, trader_profiles (db w) !! trader_id = Some p0 ->
       (tp_successful_trades u + tp_failed_trades u <= 0)%Z ->
       tp_reliability u = tp_reliability p0).
Proof.
  intros Hf Hco.
  destruct (semantic_get_trader_profile trader_id w Hf Hco)
    as (p & w1 & Hget & Hdb1 & Hc1 & Hf1 & Hcounts & _ & Hsame).
  unfold Semantic.update_trader_reliability. unfold bind at 1. rewrite Hget.
  match goal with
  | |- context [Semantic.update_trader_profile trader_id ?upd w1] =>
      destruct (semantic_update_trader_profile trader_id upd p w1
                  ltac:(congruence) Hdb1 Hc1)
        as (u & w' & Hrun & Hdb' & Hc' & Hf' & Hs & Hfl & Hr)
  end.
  exists u, w'. split; [exact Hrun|]. split; [exact Hdb'|].
  split; [exact Hc'|]. split; [congruence|].
  cbn [tu_successful_trades tu_failed_trades tu_reliability] in Hs, Hfl, Hr.
  rewrite <- Hcounts. cbn [fst snd].
  assert (Hlabels : Feedback.is_str "success" outcome = true ->
                    Feedback.is_str "failure" outcome = false).
  { destruct outcome; try discriminate. cbn.
    intros H. apply String.eqb_eq in H. subst. reflexivity. }
  assert (Hs' : tp_successful_trades u
                = (tp_successful_trades p
                   + if Feedback.is_str "success" outcome then 1 else 0)%Z).
  { rewrite Hs. destruct (Feedback.is_str "success" outcome); cbn; lia. }
  assert (Hfl' : tp_failed_trades u
                 = (tp_failed_trades p
                    + if Feedback.is_str "failure" outcome then 1 else 0)%Z).
  { rewrite Hfl. destruct (Feedback.is_str "success" outcome) eqn:E.
    - rewrite (Hlabels eq_refl). cbn. lia.
    - destruct (Feedback.is_str "failure" outcome); cbn; lia. }
  split; [exact Hs'|]. split; [exact Hfl'|].
  assert (Htot : (default (tp_successful_trades p)
                    (if Feedback.is_str "success" outcome
                     then Some (tp_successful_trades p + 1) else None)
                  + default (tp_failed_trades p)
                      (if Feedback.is_str "success" outcome then None
                       else if Feedback.is_str "failure" outcome
                            then Some (tp_failed_trades p + 1) else None))%Z
                 = (tp_successful_trades u + tp_failed_trades u)%Z)
    by (rewrite Hs, Hfl; reflexivity).
  rewrite Htot in Hr. rewrite <- Hs in Hr.
  split.
  - intros Hpos. rewrite Hr.
    destruct (Z.ltb_spec 0 (tp_successful_trades u + tp_failed_trades u));
      [reflexivity | lia].
  - intros p0 Hp0 Hle. rewrite Hr. rewrite <- (Hsame p0 Hp0).
    destruct (Z.ltb_spec 0 (tp_successful_trades u + tp_failed_trades u));
      [lia | reflexivity].
Qed.

Lemma reported_cons (label : string) (o : pyval) (outcomes : list pyval) :
  reported label (o :: outcomes)
  = ((if Feedback.is_str label o then 1 else 0) + reported label outcomes)%Z.
Proof.
  unfold reported. cbn [List.filter].
  destruct (Feedback.is_str label o); cbn [length]; lia.
Qed.

(** X27: the reliability semantic memory keeps for a trader follows the
    reported outcomes: on a reachable trader table and a cache that agrees
    with it, after any non-empty sequence of [update_trader_reliability]
    calls the stored (and cached) profile counts every reported "success"
    and "failure" on top of the counters it started from (0 and 0 for an
    unknown trader, whose profile is created), ignores any other label,
    and as soon as one trade is counted its reliability is exactly
    successful_trades / (successful_trades + failed_trades). *)
Theorem trader_reliability_tracks_counts (trader_id : string)
    (outcomes : list pyval) (w : World) :
  failing (db w) Traders = false ->
  coherent w trader_id ->
  (0 <= fst (trades_of w trader_id))%Z ->
  (0 <= snd (trades_of w trader_id))%Z ->
  outcomes <> [] ->
  let w' := report_all trader_id outcomes w in
  exists p,
    trader_profiles (db w') !! trader_id = Some p /\
    trader_cache (semantic_memory w') !! trader_id = Some p /\
    tp_successful_trades p
      = (fst (trades_of w trader_id) + reported "success" outcomes)%Z /\
    tp_failed_trades p
      = (snd (trades_of w trader_id) + reported "failure" outcomes)%Z /\
    ((0 < tp_successful_trades p + tp_failed_trades p)%Z ->
     tp_reliability p
     = inject_Z (tp_successful_trades p)
       / inject_Z (tp_successful_trades p + tp_failed_trades p)).
Proof.
  intros Hf Hco Hs Hfl Hne. cbv zeta. revert w Hf Hco Hs Hfl Hne.
  induction outcomes as [|o rest IH]; intros w Hf Hco Hs Hfl Hne;
    [congruence|].
  destruct (update_trader_reliability_step trader_id o w Hf Hco)
    as (u & w1 & Hrun & Hdb & Hc & Hf1 & Hsu & Hfu & Hrel & _).
  unfold report_all. cbn [fold_left]. rewrite Hrun. cbn [snd].
  fold (report_all trader_id rest w1). rewrite !reported_cons.
  destruct rest as [|o' rest'].
  - exists u. cbn [report_all fold_left]. unfold reported. cbn.
    split; [exact Hdb|]. split; [exact Hc|].
    split; [rewrite Hsu; lia|]. split; [rewrite Hfu; lia | exact Hrel].
  - assert (Ht1 : trades_of w1 trader_id
                  = (tp_successful_trades u, tp_failed_trades u))
      by (unfold trades_of; rewrite Hdb; reflexivity).
    assert (Hco1 : coherent w1 trader_id)
      by (intros q Hq; congruence).
    destruct (IH w1 ltac:(congruence) Hco1) as (p & Hp & Hpc & Hps & Hpf & Hpr).
    + rewrite Ht1. cbn [fst]. rewrite Hsu.
      destruct (Feedback.is_str "success" o); lia.
    + rewrite Ht1. cbn [snd]. rewrite Hfu.
      destruct (Feedback.is_str "failure" o); lia.
    + discriminate.
    + exists p. split; [exact Hp|]. split; [exact Hpc|].
      rewrite Ht1 in Hps, Hpf. cbn [fst snd] in Hps, Hpf.
      split; [rewrite Hps, Hsu; lia|].
      split; [rewrite Hpf, Hfu; lia | exact Hpr].
Qed.

End SemanticFacts.

Section SemanticWitnesses.

Import Store State Database.
Local Open Scope Q_scope.

Lemma trader_reliability_tracks_counts_witness :
  failing (db initial_world) Traders = false /\
  coherent initial_world "t-17" /\
  trader_reports <> [] /\
  exists p,
    trader_profiles (db (report_all "t-17" trader_reports initial_world))
      !! "t-17" = Some p /\
    tp_successful_trades p = 2%Z /\ tp_failed_trades p = 1%Z /\
    tp_reliability p = inject_Z 2 / inject_Z 3.
Proof.
  assert (Hco : coherent initial_world "t-17").
  { intros p Hp. cbn in Hp. rewrite lookup_empty in Hp. discriminate. }
  assert (Ht : trades_of initial_world "t-17" = (0, 0)%Z).
  { unfold trades_of. cbn [initial_world db empty_db trader_profiles].
    rewrite lookup_empty. reflexivity. }
  assert (Hne : trader_reports <> []) by discriminate.
  split; [reflexivity|]. split; [exact Hco|]. split; [exact Hne|].
  destruct (trader_reliability_tracks_counts "t-17" trader_reports
              initial_world eq_refl Hco
              ltac:(rewrite Ht; cbn; lia) ltac:(rewrite Ht; cbn; lia) Hne)
    as (p & Hp & _ & Hs & Hf & Hr).
  rewrite Ht in Hs, Hf. cbn in Hs, Hf.
  exists p. split; [exact Hp|]. split; [exact Hs|]. split; [exact Hf|].
  rewrite Hs, Hf in Hr. apply Hr. vm_compute. reflexivity.
Defined.

End SemanticWitnesses.

Section ProceduralRelevant.

Import Store State Database.
Local Open Scope Q_scope.

Context (rt : Runtime).

Lemma reaches_spec (x : Q) (p : ActionPattern) :
  reaches x p = true <-> x <= ap_effectiveness p.
Proof.
  unfold reaches. destruct (Qlt_le_dec _ _); split; intros;
    try discriminate; try reflexivity; try assumption; lra.
Qed.

(** In an ordered list the rows that reach a level form a prefix. *)
Lemma descending_reaches_prefix (x : Q) (l : list ActionPattern) :
  descending l ->
  List.filter (reaches x) l
  = firstn (length (List.filter (reaches x) l)) l.
Proof.
  unfold descending. induction l as [|a l IH]; intros Hl; [reflexivity|].
  inversion Hl as [|? ? Hl' Ha]; subst. cbn [List.filter].
  destruct (reaches x a) eqn:E.
  - cbn [length firstn]. f_equal. apply IH, Hl'.
  - assert (Hnone : List.filter (reaches x) l = []).
    { rewrite List.Forall_forall in Ha.
      clear IH Hl Hl'. induction l as [|b l IHl]; [reflexivity|].
      cbn [List.filter].
      assert (Hb : reaches x b = false).
      { destruct (reaches x b) eqn:Eb; [|reflexivity].
        apply reaches_spec in Eb.
        assert (Ea : reaches x a = true).
        { apply reaches_spec.
          specialize (Ha b (or_introl eq_refl)).
          unfold at_least_as_effective in Ha. lra. }
        congruence. }
      rewrite Hb. apply IHl. intros z Hz. apply Ha. now right. }
    rewrite Hnone. reflexivity.
Qed.

Lemma filter_length_perm {A} (f : A -> bool) (l l' : list A) :
  Permutation l l' ->
  length (List.filter f l) = length (List.filter f l').
Proof.
  induction 1 as [|x l l' _ IH|x y l|l l' l'' _ IH1 _ IH2];
    cbn [List.filter]; try reflexivity.
  - destruct (f x); cbn [length]; congruence.
  - destruct (f x), (f y); reflexivity.
  - congruence.
Qed.

(** If an ordered list holds [n] rows in a row-segment of a permutation
    of it that all reach a level, its first [n] rows reach it too. *)
Lemma firstn_reaches (n : nat) (x : Q) (S C pre R post : list ActionPattern) :
  descending S -> Permutation S C -> C = (pre ++ R ++ post)%list ->
  length R = n -> (forall p, In p R -> x <= ap_effectiveness p) ->
  length (firstn n S) = n /\
  forall p, In p (firstn n S) -> x <= ap_effectiveness p.
Proof.
  intros HS Hperm HC Hlen HR.
  assert (Hk : (n <= length (List.filter (reaches x) S))%nat).
  { rewrite (filter_length_perm _ _ _ Hperm), HC.
    rewrite !List.filter_app, !length_app.
    rewrite (filter_all_true (reaches x) R)
      by (intros p Hp; apply reaches_spec, HR, Hp).
    lia. }
  pose proof (descending_reaches_prefix x S HS) as Hpre.
  set (k := length (List.filter (reaches x) S)) in *.
  assert (HkS : (k <= length S)%nat).
  { unfold k. clear. induction S as [|a S IH]; cbn [List.filter length];
      [lia|]. destruct (reaches x a); cbn [length]; lia. }
  split; [apply firstn_length_le; lia|].
  intros p Hp. apply reaches_spec.
  assert (Hin : In p (List.filter (reaches x) S)).
  { rewrite Hpre. replace n with (Nat.min n k) in Hp by lia.
    rewrite <- firstn_firstn in Hp. now apply In_firstn in Hp. }
  apply List.filter_In in Hin. tauto.
Qed.

(** What the loop over the pattern types of a context gathers. *)
Lemma collect_patterns_run (pattern_types : list string) (limit : Z)
    (w : World) :
  (0 <= limit)%Z ->
  failing (db w) ActionPatterns = false ->
  exists C,
    Procedural.collect_patterns pattern_types limit w = (Ok C, w) /\
    (forall p, In p C -> relevant w pattern_types p) /\
    (forall r, relevant w pattern_types r ->
       In r C \/
       exists pre R post,
         C = (pre ++ R ++ post)%list /\ Z.of_nat (length R) = limit /\
         forall p, In p R -> ap_effectiveness r <= ap_effectiveness p).
Proof.
  intros Hlimit Hf. induction pattern_types as [|t ts IH].
  - exists []. split; [reflexivity|]. split; [intros p []|].
    intros r (t & [] & _).
  - destruct IH as (C' & Hrun' & Hsound' & Htop').
    destruct (most_effective_patterns_run t (6 # 10) limit w Hlimit Hf)
      as (R & HrunR & HlenR & _ & HsoundR & HtopR).
    exists (R ++ C')%list. split.
    { cbn [Procedural.collect_patterns]. unfold bind.
      rewrite HrunR, Hrun'. reflexivity. }
    split.
    + intros p Hp. apply in_app_or in Hp. destruct Hp as [Hp|Hp].
      * exists t. split; [now left | apply HsoundR, Hp].
      * destruct (Hsound' p Hp) as (t' & Ht' & He).
        exists t'. split; [now right | exact He].
    + intros r (t' & [<-|Ht'] & He).
      * destruct (HtopR r He) as [Hin|[Hfull Hall]].
        -- left. apply in_or_app. now left.
        -- right. exists [], R, C'. split; [reflexivity|].
           split; assumption.
      * destruct (Htop' r (ex_intro _ t' (conj Ht' He)))
          as [Hin|(pre & R' & post & HC & Hfull & Hall)].
        -- left. apply in_or_app. now right.
        -- right. exists (R ++ pre)%list, R', post.
           split; [rewrite HC, <- app_assoc; reflexivity|].
           split; assumption.
Qed.

(** X28: on a reachable table and for a non-negative limit,
    [get_relevant_patterns] returns the [limit] most effective stored rows
    among those of the pattern types of the context (trader, symbol and
    action when the context names them, and always "general") whose
    effectiveness is at least 0.6: at most [limit] rows, in decreasing
    order of effectiveness, each of them such a row, and any such row that
    is left out is at most as effective as every row returned, the result
    then being full.  Cutting each type to [limit] rows before the merge
    loses nothing.  The world is not changed. *)
Theorem relevant_patterns_top (context : pydict) (limit : Z) (w : World) :
  (0 <= limit)%Z ->
  failing (db w) ActionPatterns = false ->
  let pattern_types := Procedural.context_pattern_types rt context in
  In "general" pattern_types /\
  exists result,
    Procedural.get_relevant_patterns rt context limit w = (Ok result, w) /\
    (Z.of_nat (length result) <= limit)%Z /\
    descending result /\
    (forall p, In p result -> relevant w pattern_types p) /\
    (forall r, relevant w pattern_types r ->
       In r result \/
       (Z.of_nat (length result) = limit /\
        forall p, In p result ->
          ap_effectiveness r <= ap_effectiveness p)).
Proof.
  intros Hlimit Hf types. split.
  { unfold types, Procedural.context_pattern_types.
    rewrite !in_app_iff. right. right. right. now left. }
  destruct (collect_patterns_run types limit w Hlimit Hf)
    as (C & Hrun & Hsound & Htop).
  unfold Procedural.get_relevant_patterns, bind. fold types.
  rewrite Hrun. unfold ret, slice_to.
  destruct (Z.ltb_spec limit 0); [lia|].
  set (n := Z.to_nat limit).
  assert (Hn : Z.of_nat n = limit) by (unfold n; lia).
  set (S := sort_by_effectiveness C).
  assert (HS : descending S) by apply sort_by_effectiveness_descending.
  assert (HP : Permutation S C) by apply sort_by_effectiveness_perm.
  exists (firstn n S). split; [reflexivity|].
  split; [rewrite length_firstn; lia|].
  split; [apply descending_firstn, HS|].
  split.
  - intros p Hp. apply In_firstn in Hp.
    apply Hsound. apply (Permutation_in _ HP), Hp.
  - intros r Hr.
    destruct (Htop r Hr) as [Hin|(pre & R & post & HC & Hfull & Hall)].
    + apply (Permutation_in _ (Permutation_sym HP)) in Hin.
      destruct (firstn_descending_top n S r HS Hin) as [H'|[Hlen Hall]];
        [now left|right].
      split; [lia | exact Hall].
    + right.
      destruct (firstn_reaches n (ap_effectiveness r) S C pre R post
                  HS HP HC ltac:(lia) Hall) as [Hlen Hall'].
      split; [lia | exact Hall'].
Qed.

End ProceduralRelevant.

Section ProceduralRelevantWitnesses.

Import Store State Database.
Local Open Scope Q_scope.

Lemma relevant_patterns_top_witness :
  (0 <= 2)%Z /\ failing (db patterns_world) ActionPatterns = false /\
  exists result,
    Procedural.get_relevant_patterns Reference.runtime
      [("symbol", PStr "AAPL")] 2 patterns_world
    = (Ok result, patterns_world) /\
    (Z.of_nat (length result) <= 2)%Z /\
    descending result /\
    (In (general_record "g-1" (9 # 10)) result \/
     (Z.of_nat (length result) = 2%Z /\
      forall p, In p result -> 9 # 10 <= ap_effectiveness p)).
Proof.
  assert (H0 : (0 <= 2)%Z) by lia.
  split; [exact H0|]. split; [reflexivity|].
  destruct (relevant_patterns_top Reference.runtime [("symbol", PStr "AAPL")]
              2 patterns_world H0 eq_refl)
    as (_ & result & Hrun & Hlen & Hdesc & _ & Htop).
  exists result. split; [exact Hrun|]. split; [exact Hlen|].
  split; [exact Hdesc|].
  apply (Htop (general_record "g-1" (9 # 10))).
  exists "general". split; [cbn; tauto|].
  unfold eligible. split; [cbn; tauto|]. split; [reflexivity|].
  cbn. lra.
Defined.

End ProceduralRelevantWitnesses.

(** ** Database manager: updates *)

Section DatabaseExtras.

Import Store State Database.
Local Open Scope Q_scope.

(** X29: [update_trader_profile] on a reachable table.  For a known
    trader it writes one row and returns it: the row keeps its id and its
    trader id, each column takes the value given for it or keeps its own,
    and the JSON data is merged with [dict.update], key by key and not in
    depth: a key of the update takes the update's value, any other key
    keeps the stored one.  A lookup right after returns that row, and no
    other trader's row changes.  For an unknown trader it returns [None]
    and changes nothing. *)
Theorem update_trader_profile_merges (trader_id : string)
    (updates : TraderUpdate) (w : World) :
  failing (db w) Traders = false ->
  (forall p, trader_profiles (db w) !! trader_id = Some p ->
   exists u w',
     update_trader_profile trader_id updates w = (Ok (Some u), w') /\
     get_trader_profile trader_id w' = (Ok (Some u), w') /\
     (forall other, other <> trader_id ->
        trader_profiles (db w') !! other = trader_profiles (db w) !! other) /\
     (tp_id u = tp_id p /\ tp_trader_id u = tp_trader_id p) /\
     (tp_successful_trades u
        = default (tp_successful_trades p) (tu_successful_trades updates) /\
      tp_failed_trades u
        = default (tp_failed_trades p) (tu_failed_trades updates) /\
      tp_reliability u
        = default (tp_reliability p) (tu_reliability updates)) /\
     match tu_data updates with
     | Some d =>
         NoDup (keys d) ->
         forall k,
           dict_get k (data_of (tp_data u))
           = match dict_get k d with
             | Some v => Some v
             | None => dict_get k (data_of (tp_data p))
             end
     | None => tp_data u = tp_data p
     end) /\
  (trader_profiles (db w) !! trader_id = None ->
   update_trader_profile trader_id updates w = (Ok None, w)).
Proof.
  intros Hf. split.
  - intros p Hp.
    unfold update_trader_profile, bind, session, gets, modify, ret.
    rewrite Hf, Hp. eexists _, _. split; [reflexivity|].
    split.
    { unfold get_trader_profile, bind, session, gets.
      cbn [db set_db set_trader_profiles failing trader_profiles].
      rewrite Hf.
      cbn [db set_db set_trader_profiles failing trader_profiles].
      rewrite lookup_insert_eq. reflexivity. }
    split.
    { intros other Hne.
      cbn [db set_db set_trader_profiles trader_profiles].
      apply lookup_insert_ne. congruence. }
    cbn [tp_id tp_trader_id tp_successful_trades tp_failed_trades
         tp_reliability tp_data].
    split; [split; reflexivity|]. split; [repeat split; reflexivity|].
    destruct (tu_data updates) as [d|]; [|reflexivity].
    intros Hd k. cbn [data_of].
    rewrite dict_get_loads
      by (apply NoDup_dict_update; destruct (tp_data p);
          [apply NoDup_loads | constructor]).
    apply dict_get_update, Hd.
  - intros Hp.
    unfold update_trader_profile, bind, session, gets, ret.
    rewrite Hf, Hp. reflexivity.
Qed.

End DatabaseExtras.

Section DatabaseExtraWitnesses.

Import Store State Database.
Local Open Scope Q_scope.

Lemma update_trader_profile_merges_witness :
  failing (db trader_world) Traders = false /\
  trader_profiles (db trader_world) !! "t-17" = Some known_trader /\
  exists u w',
    update_trader_profile "t-17" one_more_win trader_world
      = (Ok (Some u), w') /\
    get_trader_profile "t-17" w' = (Ok (Some u), w') /\
    tp_successful_trades u = 5%Z /\ tp_failed_trades u = 1%Z /\
    dict_get "notes" (data_of (tp_data u)) = Some (PStr "improving").
Proof.
  assert (Hp : trader_profiles (db trader_world) !! "t-17"
               = Some known_trader) by (vm_compute; reflexivity).
  split; [reflexivity|]. split; [exact Hp|].
  destruct (proj1 (update_trader_profile_merges "t-17" one_more_win
                     trader_world eq_refl) known_trader Hp)
    as (u & w' & Hrun & Hget & _ & _ & (Hs & Hf & _) & Hdata).
  exists u, w'. split; [exact Hrun|]. split; [exact Hget|].
  split; [exact Hs|]. split; [exact Hf|].
  cbn [one_more_win tu_data] in Hdata.
  assert (Hnd : NoDup (keys [("notes", PStr "improving")])).
  { apply NoDup_cons_2; [|apply NoDup_nil_2]. cbn. intros H. inversion H. }
  rewrite (Hdata Hnd "notes"). reflexivity.
Defined.

End DatabaseExtraWitnesses.

(** ** Performance tracker: the trend of a series *)

Section TrendFacts.

Import Performance.
Local Open Scope Q_scope.

Lemma sum_nil : sum [] == 0.
Proof. reflexivity. Qed.

Lemma sum_map_ext {A} (f g : A -> Q) (l : list A) :
  (forall z, In z l -> f z == g z) -> sum (map f l) == sum (map g l).
Proof.
  induction l as [|z l IH]; intros H; cbn [map]; [reflexivity|].
  rewrite !sum_cons, IH, (H z) by (intros; try apply H; cbn; auto).
  reflexivity.
Qed.

Lemma sum_map_scale {A} (c : Q) (f : A -> Q) (l : list A) :
  sum (map (fun z => c * f z) l) == c * sum (map f l).
Proof.
  induction l as [|z l IH]; cbn [map]; [rewrite sum_nil; ring|].
  rewrite !sum_cons, IH. ring.
Qed.

Lemma sum_map_affine {A} (a d : Q) (f : A -> Q) (l : list A) :
  sum (map (fun z => a + d * f z) l)
  == inject_Z (Z.of_nat (length l)) * a + d * sum (map f l).
Proof.
  induction l as [|z l IH]; cbn [map length]; [rewrite sum_nil; ring|].
  rewrite !sum_cons, IH, Nat2Z.inj_succ. unfold Z.succ.
  rewrite inject_Z_plus. ring.
Qed.

Lemma sum_nonneg (l : list Q) : (forall z, In z l -> 0 <= z) -> 0 <= sum l.
Proof.
  induction l as [|z l IH]; intros H; [rewrite sum_nil; lra|].
  rewrite sum_cons.
  pose proof (H z (or_introl eq_refl)).
  pose proof (IH (fun y Hy => H y (or_intror Hy))). lra.
Qed.

Lemma combine_map_same {A B C} (f : A -> B) (g : A -> C) (l : list A) :
  combine (map f l) (map g l) = map (fun z => (f z, g z)) l.
Proof. induction l as [|z l IH]; cbn; [reflexivity|]. now rewrite IH. Qed.

Lemma square_nonneg (q : Q) : 0 <= q ^ 2.
Proof. change (q ^ 2) with (q * q). nra. Qed.

Lemma last_map_seq (f : nat -> Q) (n : nat) :
  List.last (map f (seq 0 (S n))) 0 = f n.
Proof.
  rewrite seq_S, map_app. cbn [map Nat.add]. apply last_last.
Qed.

(** The trend always lies in [-1, 1]. *)
Lemma _calculate_trend_bounds (values : list Q) :
  -1 <= _calculate_trend values <= 1.
Proof.
  unfold _calculate_trend.
  destruct (length values <? 2)%nat; [lra|].
  destruct (Qeq_bool _ 0); [lra|]. destruct (Qeq_bool _ 0); [lra|].
  apply fmax_fmin_range. lra.
Qed.

(** The trend of an arithmetic progression is the sign of its step. *)
Lemma _calculate_trend_progression (a d : Q) (m : nat) :
  ~ d == 0 ->
  _calculate_trend (progression a d (S (S m)))
  = if Qlt_le_dec 0 d then 1 else -1.
Proof.
  intros Hd. unfold _calculate_trend, progression.
  rewrite length_map, length_seq. cbn [Nat.ltb Nat.leb].
  set (n := S (S m)).
  set (N := inject_Z (Z.of_nat n)).
  set (inj := fun i : nat => inject_Z (Z.of_nat i)).
  set (xs := map inj (seq 0 n)).
  set (mx := sum xs / N).
  set (vs := map (fun i => a + d * inject_Z (Z.of_nat i)) (seq 0 n)).
  set (my := sum vs / N).
  assert (HN : 2 <= N).
  { unfold N, n. rewrite <- (Zle_Qle 2). lia. }
  assert (Hmy : my == a + d * mx).
  { assert (Hsum : sum vs == N * a + d * sum xs).
    { pose proof (sum_map_affine a d inj (seq 0 n)) as Haff.
      rewrite length_seq in Haff. exact Haff. }
    unfold my, mx. rewrite Hsum. field. lra. }
  assert (Hmx : 0 < mx).
  { unfold mx, xs, n. cbn [seq map]. rewrite !sum_cons.
    assert (H1 : inj 1%nat == 1) by reflexivity.
    assert (H0 : inj 0%nat == 0) by reflexivity.
    assert (Hrest : 0 <= sum (map inj (seq 2 m))).
    { apply sum_nonneg. intros z Hz. apply in_map_iff in Hz.
      destruct Hz as (i & <- & _). unfold inj.
      rewrite <- (Zle_Qle 0). lia. }
    apply Qlt_shift_div_l; [lra|]. rewrite H0, H1. lra. }
  assert (Hcomb : map (fun xv => (fst xv - mx) * (snd xv - my))
                      (combine xs vs)
                  = map (fun i => (inj i - mx)
                                  * (a + d * inject_Z (Z.of_nat i) - my))
                        (seq 0 n)).
  { unfold xs, vs. rewrite combine_map_same, map_map. reflexivity. }
  assert (Hsq : map (fun xi => (xi - mx) ^ 2) xs
                = map (fun i => (inj i - mx) ^ 2) (seq 0 n))
    by apply map_map.
  rewrite Hcomb, Hsq.
  set (den := sum (map (fun i => (inj i - mx) ^ 2) (seq 0 n))).
  set (num := sum (map (fun i => (inj i - mx)
                                 * (a + d * inject_Z (Z.of_nat i) - my))
                       (seq 0 n))).
  assert (Hnum : num == d * den).
  { unfold num, den. rewrite <- sum_map_scale. apply sum_map_ext.
    intros i _. fold (inj i). rewrite Hmy.
    change ((inj i - mx) ^ 2) with ((inj i - mx) * (inj i - mx)). ring. }
  assert (Hden : 0 < den).
  { unfold den. change (seq 0 n) with (0%nat :: seq 1 (S m)).
    rewrite map_cons, sum_cons.
    assert (H0 : inj 0%nat == 0) by reflexivity.
    assert (Hfirst : 0 < (inj 0%nat - mx) ^ 2).
    { change ((inj 0%nat - mx) ^ 2)
        with ((inj 0%nat - mx) * (inj 0%nat - mx)).
      rewrite H0. nra. }
    assert (Hrest : 0 <= sum (map (fun i => (inj i - mx) ^ 2) (seq 1 (S m)))).
    { apply sum_nonneg. intros z Hz. apply in_map_iff in Hz.
      destruct Hz as (i & <- & _). apply square_nonneg. }
    lra. }
  destruct (Qeq_bool den 0) eqn:E;
    [apply Qeq_bool_iff in E; lra|clear E].
  unfold vs, n. rewrite last_map_seq. cbn [seq map hd].
  set (mps := (a + d * inject_Z (Z.of_nat (S m))
               - (a + d * inject_Z (Z.of_nat 0))) / (N - 1)).
  assert (Hmps : mps == d).
  { unfold mps.
    assert (HS : inject_Z (Z.of_nat (S m)) == N - 1).
    { unfold N, n. rewrite (Nat2Z.inj_succ (S m)). unfold Z.succ.
      rewrite inject_Z_plus. ring. }
    rewrite HS. change (inject_Z (Z.of_nat 0)) with 0. field. lra. }
  destruct (Qeq_bool mps 0) eqn:E;
    [apply Qeq_bool_iff in E; rewrite Hmps in E; contradiction|clear E].
  assert (Hslope : num / den == d) by (rewrite Hnum; field; lra).
  assert (Hnorm : num / den / Qabs mps == d / Qabs d)
    by (rewrite Hslope, Hmps; reflexivity).
  unfold fmax, fmin.
  destruct (Qlt_le_dec 0 d) as [Hpos|Hneg].
  - assert (H1 : num / den / Qabs mps == 1).
    { rewrite Hnorm, Qabs_pos by lra. field. lra. }
    destruct (Qlt_le_dec (num / den / Qabs mps) 1); [lra|].
    destruct (Qlt_le_dec (-1) 1); [reflexivity|lra].
  - assert (H1 : num / den / Qabs mps == -1).
    { rewrite Hnorm, Qabs_neg by lra. field. lra. }
    destruct (Qlt_le_dec (num / den / Qabs mps) 1); [|lra].
    destruct (Qlt_le_dec (-1) (num / den / Qabs mps)); [lra|reflexivity].
Qed.

(** X30: the trend of a series is a number in [-1, 1]; it is 0 for
    fewer than two values and whenever the last value equals the first,
    whatever lies between them; and (in exact arithmetic) the trend of an
    arithmetic progression of at least two values with a non-zero step is
    1 when the step is positive and -1 when it is negative. *)
Theorem _calculate_trend_spec (values : list Q) :
  -1 <= _calculate_trend values <= 1 /\
  ((length values < 2)%nat -> _calculate_trend values = 0) /\
  (List.last values 0 == hd 0 values -> _calculate_trend values = 0) /\
  (forall a d m, ~ d == 0 -> values = progression a d (S (S m)) ->
     _calculate_trend values = if Qlt_le_dec 0 d then 1 else -1).
Proof.
  split; [apply _calculate_trend_bounds|]. split; [|split].
  - intros Hlen. unfold _calculate_trend.
    destruct (Nat.ltb_spec (length values) 2); [reflexivity|lia].
  - intros Heq. unfold _calculate_trend.
    destruct (length values <? 2)%nat; [reflexivity|].
    destruct (Qeq_bool _ 0); [reflexivity|].
    match goal with
    | |- (if Qeq_bool ?q 0 then _ else _) = _ =>
        destruct (Qeq_bool q 0) eqn:E; [reflexivity|];
        apply Qeq_bool_neq in E; exfalso; apply E
    end.
    rewrite Heq. unfold Qdiv. ring.
  - intros a d m Hd ->. apply _calculate_trend_progression, Hd.
Qed.

End TrendFacts.

Section TrendWitnesses.

Import Performance.
Local Open Scope Q_scope.

Lemma _calculate_trend_spec_witness :
  ~ - (1 # 10) == 0 /\
  _calculate_trend (progression (1 # 2) (- (1 # 10)) 4) = -1 /\
  (List.last [3 # 10; 9 # 10; 3 # 10] 0 == hd 0 [3 # 10; 9 # 10; 3 # 10] /\
   _calculate_trend [3 # 10; 9 # 10; 3 # 10] = 0).
Proof.
  assert (Hd : ~ - (1 # 10) == 0) by (intros H; discriminate H).
  assert (He : List.last [3 # 10; 9 # 10; 3 # 10] 0
               == hd 0 [3 # 10; 9 # 10; 3 # 10]) by reflexivity.
  split; [exact Hd|]. split.
  - exact (proj2 (proj2 (proj2 (_calculate_trend_spec
                                  (progression (1 # 2) (- (1 # 10)) 4))))
             (1 # 2) (- (1 # 10)) 2%nat Hd eq_refl).
  - split; [exact He|].
    exact (proj1 (proj2 (proj2 (_calculate_trend_spec
                                  [3 # 10; 9 # 10; 3 # 10]))) He).
Defined.

End TrendWitnesses.
